(** * Fuzzy dates: a shallow embedding of [fuzzy_dates/fuzzy_dates.py]

    The development follows the Python module top to bottom: first the
    pieces of the Python runtime the module relies on ([int], [str],
    format specifications, [datetime.date], [calendar.monthrange],
    [re.match]), then [DATE_PATTERN], the metaclass [CustomMeta.__call__]
    that validates and normalises constructor arguments, and the
    [FuzzyDate] class with its range-resolution methods.

    Conventions.  A Python [str] is a Rocq [string]; a character is its
    code point, so the model covers the code points U+0000..U+00FF.  In
    that range the Unicode decimal digits are exactly "0".."9".  Python
    integers are [Z].  A call that may raise returns a [result]. *)

From Stdlib Require Import ZArith List Bool Lia.
From Stdlib Require Import Ascii String DecimalString.
Import ListNotations.

Local Open Scope string_scope.
Local Open Scope Z_scope.

(** ** Exceptions and the error monad *)

(** One constructor per [raise] site of the module, plus the exceptions
    raised by the runtime functions it calls. *)
Inductive error : Type :=
| MissingYear            (* ValueError("Year must be specified") *)
| DayWithoutMonth        (* ValueError("If day is specified, month must also be specified") *)
| YearOutOfRange         (* ValueError("The year must be no less than 1000 ...") *)
| MalformedInput         (* ValueError("Dates given as a string must be formatted as ...") *)
| InvalidInputType       (* TypeError("Only a string, a date, or a datetime ...") *)
| InvalidRangeDefault    (* ValueError("Valid values for `default` are ...") *)
| InvalidCalendarDate    (* ValueError raised by datetime.date(...) *)
| DateOverflow           (* OverflowError raised by datetime.date(...) *)
| InvalidLiteral         (* ValueError raised by int(<str>) *)
| IllegalMonth           (* calendar.IllegalMonthError *)
| RuntimeTypeError.      (* TypeError raised by int(None) or format(None, ">02") *)

Inductive result (A : Type) : Type :=
| Ok (a : A)
| Raise (e : error).

Arguments Ok {A} a.
Arguments Raise {A} e.

Definition bind {A B : Type} (r : result A) (k : A -> result B) : result B :=
  match r with
  | Ok a => k a
  | Raise e => Raise e
  end.

Notation "x <- r ;; k" := (bind r (fun x => k))
  (at level 61, r at next level, right associativity).

(** ** The Python runtime *)

Module Py.

(** The values a constructor field can hold: the source notes that
    they "could be strings, ints, or None at this point". *)
Inductive value : Type :=
| PNone
| PInt (z : Z)
| PStr (s : string).

(** Truth value testing: [None], [0] and [""] are false. *)
Definition truthy (v : value) : bool :=
  match v with
  | PNone => false
  | PInt z => negb (z =? 0)
  | PStr s => negb (s =? "")%string
  end.

(** [a or b] *)
Definition por (a b : value) : value := if truthy a then a else b.

(** [a != b]; an int never equals a str, and None equals only None. *)
Definition pne (a b : value) : bool :=
  match a, b with
  | PNone, PNone => false
  | PInt x, PInt y => negb (x =? y)
  | PStr s, PStr t => negb (s =? t)%string
  | _, _ => true
  end.

Definition code (c : ascii) : N := N_of_ascii c.

(** [\d] and the digits of [int]: "0".."9". *)
Definition is_digit (c : ascii) : bool :=
  ((48 <=? code c) && (code c <=? 57))%N.

Definition digit_val (c : ascii) : Z := Z.of_N (code c) - 48.

(** Whitespace skipped by [int]: tab, LF, VT, FF, CR, space, and the
    two non-ASCII whitespace code points below U+0100 (NEL, NBSP). *)
Definition is_space (c : ascii) : bool :=
  let n := code c in
  (((9 <=? n) && (n <=? 13)) || (n =? 32) || (n =? 133) || (n =? 160))%N.

Fixpoint skip_space (s : string) : string :=
  match s with
  | String c s' => if is_space c then skip_space s' else s
  | EmptyString => s
  end.

Fixpoint all_space (s : string) : bool :=
  match s with
  | String c s' => is_space c && all_space s'
  | EmptyString => true
  end.

(** The digit scan of [int(<str>)] in base 10: digits, with single
    underscores allowed between digits, followed by optional
    whitespace up to the end of the string.  [prev_us] records that
    the previous character was an underscore. *)
Fixpoint scan_digits (acc : Z) (prev_us : bool) (s : string) : option Z :=
  match s with
  | EmptyString => if prev_us then None else Some acc
  | String c s' =>
      if is_digit c then scan_digits (10 * acc + digit_val c) false s'
      else if (c =? "_")%char then
        if prev_us then None else scan_digits acc true s'
      else if prev_us then None
      else if all_space s then Some acc
      else None
  end.

(** An optional sign. *)
Definition strip_sign (s : string) : bool * string :=
  match s with
  | String c r =>
      if (c =? "-")%char then (true, r)
      else if (c =? "+")%char then (false, r)
      else (false, s)
  | EmptyString => (false, s)
  end.

(** A numeral starts with a digit. *)
Definition parse_digits (s : string) : option Z :=
  match s with
  | String c r => if is_digit c then scan_digits (digit_val c) false r else None
  | EmptyString => None
  end.

(** The number of digit characters of a string. *)
Fixpoint count_digits (s : string) : Z :=
  match s with
  | EmptyString => 0
  | String c r => (if is_digit c then 1 else 0) + count_digits r
  end.

(** [sys.int_max_str_digits], at its default. *)
Definition int_max_str_digits : Z := 4300.

(** [int(s)] for a str [s]: optional whitespace, optional sign, a
    digit, then [scan_digits].  A numeral of more digits than
    [int_max_str_digits], leading zeros counted and underscores not,
    is refused; both refusals are [ValueError]s. *)
Definition int_of_str (s : string) : result Z :=
  let '(neg, s2) := strip_sign (skip_space s) in
  match parse_digits s2 with
  | Some n =>
      if count_digits s2 <=? int_max_str_digits
      then Ok (if neg then - n else n)
      else Raise InvalidLiteral
  | None => Raise InvalidLiteral
  end.

(** [int(v)] *)
Definition int (v : value) : result Z :=
  match v with
  | PNone => Raise RuntimeTypeError
  | PInt z => Ok z
  | PStr s => int_of_str s
  end.

(** [str(z)] for an int: the decimal numeral, with "-" when negative. *)
Definition str_of_int (z : Z) : string :=
  NilZero.string_of_int (Z.to_int z).

(** [f"{v}"] *)
Definition format_plain (v : value) : string :=
  match v with
  | PNone => "None"
  | PInt z => str_of_int z
  | PStr s => s
  end.

(** Right alignment in a field of width 2 filled with "0". *)
Definition pad02 (s : string) : string :=
  match String.length s with
  | O => "00"
  | S O => String "0" s
  | _ => s
  end.

(** [f"{v:>02}"] *)
Definition format_02 (v : value) : result string :=
  match v with
  | PNone => Raise RuntimeTypeError
  | PInt z => Ok (pad02 (str_of_int z))
  | PStr s => Ok (pad02 s)
  end.

(** [calendar.isleap] *)
Definition isleap (year : Z) : bool :=
  (year mod 4 =? 0) && (negb (year mod 100 =? 0) || (year mod 400 =? 0)).

(** [calendar.mdays] *)
Definition mdays (month : Z) : Z :=
  match month with
  | 1 => 31 | 2 => 28 | 3 => 31 | 4 => 30 | 5 => 31 | 6 => 30
  | 7 => 31 | 8 => 31 | 9 => 30 | 10 => 31 | 11 => 30 | 12 => 31
  | _ => 0
  end.

Definition days_in_month (year month : Z) : Z :=
  mdays month + (if (month =? 2) && isleap year then 1 else 0).

(** [calendar.monthrange(year, month)[1]] *)
Definition monthrange_ndays (year month : Z) : result Z :=
  if (1 <=? month) && (month <=? 12) then Ok (days_in_month year month)
  else Raise IllegalMonth.

(** [datetime.date] objects. *)
Record date : Type := mkdate { d_year : Z; d_month : Z; d_day : Z }.

Definition valid_date (y m d : Z) : bool :=
  (1 <=? y) && (y <=? 9999) && (1 <=? m) && (m <=? 12)
  && (1 <=? d) && (d <=? days_in_month y m).

(** The integers that fit a C [int]: [datetime.date] converts its
    three arguments to C [int]s before it looks at their values. *)
Definition fits_c_int (z : Z) : bool :=
  (-2147483648 <=? z) && (z <=? 2147483647).

(** [date(year=y, month=m, day=d)]: an [OverflowError] for an argument
    that does not fit a C [int], a [ValueError] for three that do and
    are not a date. *)
Definition mk_date (y m d : Z) : result date :=
  if fits_c_int y && fits_c_int m && fits_c_int d then
    if valid_date y m d then Ok (mkdate y m d) else Raise InvalidCalendarDate
  else Raise DateOverflow.

(** [s < t] on str: lexicographic on code points. *)
Definition str_lt (s t : string) : bool := String.ltb s t.

End Py.

Import Py.

(** ** [DATE_PATTERN] *)

(** The pattern is
    [(\d{4})(?:[.\-/](\d{2})(?:[.\-/](\d{2}))?)?$], used through
    [match], which anchors at the start of the string. *)

(** [\d{n}]: [n] digits, returned with the rest of the input. *)
Fixpoint take_digits (n : nat) (s : string) : option (string * string) :=
  match n with
  | O => Some ("", s)
  | S n' =>
      match s with
      | String c s' =>
          if is_digit c then
            match take_digits n' s' with
            | Some (ds, r) => Some (String c ds, r)
            | None => None
            end
          else None
      | EmptyString => None
      end
  end.

(** [[.\-/]] *)
Definition take_sep (s : string) : option string :=
  match s with
  | String c s' =>
      if ((c =? ".") || (c =? "-") || (c =? "/"))%char then Some s' else None
  | EmptyString => None
  end.

(** [[.\-/](\d{2})] *)
Definition take_sep_digits (s : string) : option (string * string) :=
  match take_sep s with
  | Some r => take_digits 2 r
  | None => None
  end.

(** [$]: the end of the string, or just before a newline that ends it. *)
Definition at_dollar (s : string) : bool :=
  match s with
  | EmptyString => true
  | String c EmptyString => (c =? "010")%char
  | _ => false
  end.

(** [DATE_PATTERN.match(s)], returning [m.groups()] on a match.  The
    optional groups are greedy: each is tried first, and skipped when
    the rest of the pattern fails after it. *)
Definition DATE_PATTERN_match (s : string) : option (value * value * value) :=
  match take_digits 4 s with
  | None => None
  | Some (y, r1) =>
      let skip_outer :=
        if at_dollar r1 then Some (PStr y, PNone, PNone) else None in
      match take_sep_digits r1 with
      | None => skip_outer
      | Some (m, r2) =>
          let skip_inner :=
            if at_dollar r2 then Some (PStr y, PStr m, PNone) else skip_outer in
          match take_sep_digits r2 with
          | None => skip_inner
          | Some (d, r3) =>
              if at_dollar r3 then Some (PStr y, PStr m, PStr d)
              else skip_inner
          end
      end
  end.

(** ** [FuzzyDate] *)

(** A [FuzzyDate] is a str (its canonical text, [canonical]) carrying
    the three attributes set by [__init__]. *)
Record FuzzyDate : Type := mkFuzzyDate {
  canonical : string;
  year : string;
  month : string;
  day : string
}.

(** The keyword arguments [y], [m], [d]; a missing key reads as None. *)
Record kwargs : Type := mkkwargs { kw_y : value; kw_m : value; kw_d : value }.

Definition no_kwargs : kwargs := mkkwargs PNone PNone PNone.

(** The positional [seed]: None, an int or a str (any other object
    that is neither a str nor a date behaves as a non-zero int does),
    or a [date] / [datetime]. *)
Inductive seed : Type :=
| SeedVal (v : value)
| SeedDate (d : date).

Definition seed_truthy (s : seed) : bool :=
  match s with
  | SeedVal v => truthy v
  | SeedDate _ => true
  end.

Definition fuzzy_value : string := "00".

(** [FuzzyDate.__new__] followed by [FuzzyDate.__init__], on the
    normalised keyword arguments. *)
Definition FuzzyDate_new (y m d : string) : FuzzyDate :=
  {| canonical := y ++ "." ++ m ++ "." ++ d;
     year := y;
     month := if (m =? "00")%string then "" else m;
     day := if (d =? "00")%string then "" else d |}.

(** The first half of [CustomMeta.__call__]: where year, month and day
    are read from. *)
Definition read_fields (sd : seed) (kw : kwargs) : result (value * value * value) :=
  if seed_truthy sd then
    match sd with
    | SeedVal (PStr s) =>
        match DATE_PATTERN_match s with
        | Some g => Ok g
        | None => Raise MalformedInput
        end
    | SeedDate dt => Ok (PInt (d_year dt), PInt (d_month dt), PInt (d_day dt))
    | SeedVal _ => Raise InvalidInputType
    end
  else Ok (kw_y kw, kw_m kw, kw_d kw).

(** The second half of [CustomMeta.__call__]: validation, then the
    normalised keyword arguments handed to the class. *)
Definition validate (y m d : value) : result FuzzyDate :=
  if negb (truthy y) then Raise MissingYear
  else if truthy d && negb (truthy m) then Raise DayWithoutMonth
  else
    let m := por m (PStr fuzzy_value) in
    let d := por d (PStr fuzzy_value) in
    int_year <- int y ;;
    int_month <- (if pne m (PStr fuzzy_value) then int m else Ok 1) ;;
    int_day <- (if pne d (PStr fuzzy_value) then int d else Ok 1) ;;
    if (int_year <? 1000) || (int_year >? 9999) then Raise YearOutOfRange
    else
      _ <- mk_date int_year int_month int_day ;;
      sm <- format_02 m ;;
      sd <- format_02 d ;;
      Ok (FuzzyDate_new (format_plain y) sm sd).

(** [CustomMeta.__call__(cls, seed, **kwargs)], that is [FuzzyDate(...)]. *)
Definition CustomMeta_call (sd : seed) (kw : kwargs) : result FuzzyDate :=
  g <- read_fields sd kw ;;
  let '(y, m, d) := g in validate y m d.

(** The three ways of calling the constructor. *)
Definition from_str (s : string) : result FuzzyDate :=
  CustomMeta_call (SeedVal (PStr s)) no_kwargs.

Definition from_date (dt : date) : result FuzzyDate :=
  CustomMeta_call (SeedDate dt) no_kwargs.

Definition from_fields (y m d : value) : result FuzzyDate :=
  CustomMeta_call (SeedVal PNone) (mkkwargs y m d).

(** [FuzzyDate.as_list] *)
Definition as_list (self : FuzzyDate) : list string :=
  [year self; month self; day self].

(** [FuzzyDate.is_fuzzy] *)
Definition is_fuzzy (self : FuzzyDate) : bool := (day self =? "")%string.

(** [a or b] on str *)
Definition str_or (a b : string) : string :=
  if (a =? "")%string then b else a.

(** [FuzzyDate.get_start] *)
Definition get_start (self : FuzzyDate) : result FuzzyDate :=
  let y := year self in
  let m := str_or (month self) "01" in
  let d := str_or (day self) "01" in
  from_fields (PStr y) (PStr m) (PStr d).

(** [FuzzyDate.get_end]; the right operand of [or] is evaluated only
    when the day is missing. *)
Definition get_end (self : FuzzyDate) : result FuzzyDate :=
  let y := year self in
  let m := str_or (month self) "12" in
  d <- (if (day self =? "")%string then
          iy <- int_of_str y ;;
          im <- int_of_str m ;;
          n <- monthrange_ndays iy im ;;
          Ok (str_of_int n)
        else Ok (day self)) ;;
  from_fields (PStr y) (PStr m) (PStr d).

(** [FuzzyDate.get_range] *)
Definition get_range (self : FuzzyDate) : result (FuzzyDate * FuzzyDate) :=
  s <- get_start self ;;
  e <- get_end self ;;
  Ok (s, e).

(** The last line of [as_date]: [date] applied to the [int] of each
    element of [as_list()], converted from left to right. *)
Definition date_of_list (l : list string) : result date :=
  match l with
  | [y; m; d] =>
      iy <- int_of_str y ;;
      im <- int_of_str m ;;
      id <- int_of_str d ;;
      mk_date iy im id
  | _ => Raise RuntimeTypeError
  end.

(** [FuzzyDate.as_date(default)]; the result is [None] or a date. *)
Definition as_date (self : FuzzyDate) (default : value) : result (option date) :=
  non_fuzzy <-
    (if is_fuzzy self then
       match default with
       | PNone => Ok None
       | _ =>
           if negb (pne default (PStr "start")) then
             s <- get_start self ;; Ok (Some s)
           else if negb (pne default (PStr "end")) then
             e <- get_end self ;; Ok (Some e)
           else Raise InvalidRangeDefault
       end
     else Ok (Some self)) ;;
  match non_fuzzy with
  | None => Ok None
  | Some v => dt <- date_of_list (as_list v) ;; Ok (Some dt)
  end.

(** The numeric reading of a value: (year, month-or-0, day-or-0). *)
Definition int_or_0 (s : string) : result Z :=
  if (s =? "")%string then Ok 0 else int_of_str s.

Definition numeric_triple (v : FuzzyDate) : result (Z * Z * Z) :=
  iy <- int_of_str (year v) ;;
  im <- int_or_0 (month v) ;;
  id <- int_or_0 (day v) ;;
  Ok (iy, im, id).

(** Lexicographic order on triples. *)
Definition triple_lt (a b : Z * Z * Z) : bool :=
  let '(y1, m1, d1) := a in
  let '(y2, m2, d2) := b in
  (y1 <? y2) || ((y1 =? y2) && ((m1 <? m2) || ((m1 =? m2) && (d1 <? d2)))).

(** ** Specification-level notions *)

(** [int(part) if part != fuzzy_value else 1], on a normalised
    component. *)
Definition part_int (s : string) : result Z :=
  if (s =? fuzzy_value)%string then Ok 1 else int_of_str s.

(** The same on a raw field, after [field or fuzzy_value]. *)
Definition field_int (v : value) : result Z :=
  let v' := por v (PStr fuzzy_value) in
  if pne v' (PStr fuzzy_value) then int v' else Ok 1.

(** What every successful construction establishes: the value was
    built by [FuzzyDate_new] from three strings that passed the checks
    of [CustomMeta.__call__]. *)
Definition constructed (v : FuzzyDate) : Prop :=
  exists ys ms ds iy im id,
    v = FuzzyDate_new ys ms ds /\
    ys <> "" /\
    int_of_str ys = Ok iy /\ 1000 <= iy <= 9999 /\
    part_int ms = Ok im /\ part_int ds = Ok id /\
    (2 <= String.length ms)%nat /\ (2 <= String.length ds)%nat /\
    valid_date iy im id = true.

(** A field that was not supplied, and one that was.  The integer 0 is
    neither; the placeholder "00" is not a supplied value. *)
Definition absent (v : value) : Prop := v = PNone \/ v = PStr "".

Definition present (v : value) : Prop :=
  truthy v = true /\ v <> PStr fuzzy_value.

(** [n] digits and nothing else. *)
Definition digits (n : nat) (s : string) : Prop := take_digits n s = Some (s, "").

(** The attributes of a value in canonical form: a 4-digit year, and a
    month and a day that are each missing or 2 digits. *)
Definition canonical_parts (v : FuzzyDate) : Prop :=
  digits 4 (year v) /\
  (month v = "" \/ digits 2 (month v)) /\
  (day v = "" \/ digits 2 (day v)).

(** The number written by a string of digits. *)
Fixpoint digits_val (s : string) : Z :=
  match s with
  | EmptyString => 0
  | String c r => digit_val c * 10 ^ Z.of_nat (String.length r) + digits_val r
  end.

(** Inputs whose fields are numbers or canonical numerals: any seed
    that is read (a string, a date), or fields that are each missing,
    an integer, or a string of exactly four digits for the year and of
    one or two digits for the month and the day. *)
Definition regular_year (v : value) : Prop :=
  match v with
  | PStr s => digits 4 s
  | _ => True
  end.

Definition regular_part (v : value) : Prop :=
  match v with
  | PStr s => digits 1 s \/ digits 2 s
  | _ => True
  end.

Definition regular_input (sd : seed) (kw : kwargs) : Prop :=
  seed_truthy sd = true \/
  (regular_year (kw_y kw) /\ regular_part (kw_m kw) /\ regular_part (kw_d kw)).

(** The errors [validate] can raise. *)
Definition validation_error (e : error) : bool :=
  match e with
  | MissingYear | DayWithoutMonth | YearOutOfRange | InvalidCalendarDate
  | DateOverflow | InvalidLiteral | RuntimeTypeError => true
  | _ => false
  end.

(** ** Checking a boolean property on an interval of integers *)

(** The integers [lo], [lo + 1], ..., [lo + n - 1]. *)
Definition Zrange (lo : Z) (n : nat) : list Z :=
  map (fun k => lo + Z.of_nat k) (seq 0 n).

Definition result_eqb_Z (r : result Z) (z : Z) : bool :=
  match r with
  | Ok x => x =? z
  | Raise _ => false
  end.

(** The decimal numeral of a year in range: 4 digits that [int] reads
    back. *)
Definition year_numeral_ok (z : Z) : bool :=
  let s := str_of_int z in
  negb (s =? "")%string
  && result_eqb_Z (int_of_str s) z
  && match take_digits 4 s with
     | Some (t, r) => ((t =? s) && (r =? ""))%string
     | None => false
     end.

(** The padded numeral of a month or day number: 2 digits other than
    "00" that [int] reads back. *)
Definition part_numeral_ok (z : Z) : bool :=
  let s := pad02 (str_of_int z) in
  negb (s =? "00")%string
  && Nat.eqb (String.length s) 2
  && result_eqb_Z (int_of_str s) z
  && match take_digits 2 s with
     | Some (t, r) => ((t =? s) && (r =? ""))%string
     | None => false
     end.

(** Side conditions of the lemmas on resolved components. *)
Ltac side_conditions :=
  first [ assumption | discriminate | reflexivity | simpl; lia ].

(** ** Settings and the module-level configuration *)

(** The three optional attributes read from the Django settings; a
    missing attribute is [None] here.  Only the truth value of the
    trimming setting is used. *)
Record settings : Type := mksettings {
  FUZZY_DATE_FIELD_ORDER : option string;
  FUZZY_DATE_FIELD_SEPARATOR : option string;
  FUZZY_DATE_TRIM_LEADING_ZEROS : option bool
}.

(** [getattr(settings, name, default)] *)
Definition getattr {A : Type} (attr : option A) (default : A) : A :=
  match attr with
  | Some a => a
  | None => default
  end.

(** [str.lower] on the code points below U+0100: "A".."Z" and the
    capital letters U+00C0..U+00DE, the multiplication sign U+00D7
    excepted, move up by 32. *)
Definition lower_char (c : ascii) : ascii :=
  let n := code c in
  if (((65 <=? n) && (n <=? 90))
      || ((192 <=? n) && (n <=? 222) && negb (n =? 215)))%N
  then ascii_of_N (n + 32) else c.

Fixpoint lower (s : string) : string :=
  match s with
  | EmptyString => EmptyString
  | String c r => String (lower_char c) (lower r)
  end.

(** [c in s] *)
Fixpoint char_in (c : ascii) (s : string) : bool :=
  match s with
  | EmptyString => false
  | String c' r => (c =? c')%char || char_in c r
  end.

(** Every character of [a] occurs in [b]. *)
Fixpoint chars_within (a b : string) : bool :=
  match a with
  | EmptyString => true
  | String c r => char_in c b && chars_within r b
  end.

(** [set(a) == set(b)] *)
Definition same_char_set (a b : string) : bool :=
  chars_within a b && chars_within b a.

(** The module constants computed from the settings. *)
Record config : Type := mkconfig {
  DATE_FIELD_ORDER : string;
  DATE_FIELD_SEPARATOR : string;
  TRIM_CHAR : string
}.

(** The two [ValueError]s raised while the module is loaded. *)
Inductive settings_error : Type :=
| BadFieldOrder       (* "The FUZZY_DATE_FIELD_ORDER setting must be ..." *)
| BadFieldSeparator.  (* "The FUZZY_DATE_FIELD_SEPARATOR setting must be ..." *)

(** The top of the module: the constants are computed, then the order
    is checked, then the separator. *)
Definition module_init (st : settings) : settings_error + config :=
  let order := lower (getattr (FUZZY_DATE_FIELD_ORDER st) "mdy") in
  let separator := getattr (FUZZY_DATE_FIELD_SEPARATOR st) "/" in
  let trim := if getattr (FUZZY_DATE_TRIM_LEADING_ZEROS st) false then "0" else "" in
  if negb (Nat.eqb (String.length order) 3) || negb (same_char_set order "ymd")
  then inl BadFieldOrder
  else if negb ((separator =? "-") || (separator =? ".") || (separator =? "/"))%string
  then inl BadFieldSeparator
  else inr (mkconfig order separator trim).

(** ** Display *)

(** [dict(zip("ymd", self.as_list()))[el]]; [None] stands for the
    [KeyError] of a key other than "y", "m", "d". *)
Definition data_dict (self : FuzzyDate) (el : ascii) : option string :=
  if (el =? "y")%char then Some (year self)
  else if (el =? "m")%char then Some (month self)
  else if (el =? "d")%char then Some (day self)
  else None.

(** [s.lstrip(chars)]: the leading characters that occur in [chars]
    are removed; with [chars] empty nothing is. *)
Fixpoint lstrip (chars s : string) : string :=
  match s with
  | EmptyString => EmptyString
  | String c r => if char_in c chars then lstrip chars r else s
  end.

(** [sep.join(l)] *)
Fixpoint join (sep : string) (l : list string) : string :=
  match l with
  | [] => ""
  | [x] => x
  | x :: r => x ++ sep ++ join sep r
  end.

(** The list comprehension of [__str__]: the non-empty components, in
    the configured order, with the trim characters removed. *)
Fixpoint display_parts (trim : string) (self : FuzzyDate) (order : string)
  : option (list string) :=
  match order with
  | EmptyString => Some []
  | String el r =>
      match data_dict self el with
      | None => None
      | Some x =>
          match display_parts trim self r with
          | None => None
          | Some l => Some (if (x =? "")%string then l else lstrip trim x :: l)
          end
      end
  end.

(** [FuzzyDate.__str__] *)
Definition FuzzyDate_str (cfg : config) (self : FuzzyDate) : option string :=
  match display_parts (TRIM_CHAR cfg) self (DATE_FIELD_ORDER cfg) with
  | Some l => Some (join (DATE_FIELD_SEPARATOR cfg) l)
  | None => None
  end.

(** ** Form and model fields *)

(** [[data_dict[el] for el in DATE_FIELD_ORDER]] *)
Fixpoint arrange (self : FuzzyDate) (order : string) : option (list string) :=
  match order with
  | EmptyString => Some []
  | String el r =>
      match data_dict self el with
      | None => None
      | Some x =>
          match arrange self r with
          | None => None
          | Some l => Some (x :: l)
          end
      end
  end.

(** [FuzzyDateWidget.decompress]; the value is None (or an empty
    string) or a [FuzzyDate], whose truth value is that of its text. *)
Definition decompress (cfg : config) (value : option FuzzyDate)
  : option (list string) :=
  match value with
  | Some v =>
      if negb (canonical v =? "")%string then arrange v (DATE_FIELD_ORDER cfg)
      else Some [""; ""; ""]
  | None => Some [""; ""; ""]
  end.

(** [dict(zip(keys, vals))] looked up at [k]: the pairs stop with the
    shorter of the two sequences, and a later pair replaces an earlier
    one with the same key. *)
Fixpoint zip_lookup (keys : string) (vals : list value) (k : ascii)
  : option value :=
  match keys, vals with
  | String c r, v :: vs =>
      match zip_lookup r vs k with
      | Some later => Some later
      | None => if (c =? k)%char then Some v else None
      end
  | _, _ => None
  end.

(** [kwargs.get(k)] on that dict: a missing key reads as None. *)
Definition zip_get (keys : string) (vals : list value) (k : ascii) : value :=
  match zip_lookup keys vals k with
  | Some v => v
  | None => PNone
  end.

(** The values [y], [m], [d] listed in the order of the characters of
    [order]: what the three inputs of the form hold. *)
Definition pick (y m d : value) (el : ascii) : value :=
  if (el =? "y")%char then y
  else if (el =? "m")%char then m
  else if (el =? "d")%char then d
  else PNone.

Fixpoint in_order (order : string) (y m d : value) : list value :=
  match order with
  | EmptyString => []
  | String el r => pick y m d el :: in_order r y m d
  end.

(** The exceptions that are [ValueError]s ([IllegalMonthError] is a
    subclass), and those that are [TypeError]s; the [OverflowError] of
    [date] is neither. *)
Definition is_ValueError (e : error) : bool :=
  match e with
  | InvalidInputType | RuntimeTypeError | DateOverflow => false
  | _ => true
  end.

Definition is_TypeError (e : error) : bool :=
  match e with
  | InvalidInputType | RuntimeTypeError => true
  | _ => false
  end.

(** An item that is None or an integer that fits a C [int]. *)
Definition small_item (v : value) : Prop :=
  match v with
  | PNone => True
  | PInt z => fits_c_int z = true
  | PStr _ => False
  end.

(** Why a [ValidationError] was raised. *)
Inductive validation_cause : Type :=
| NotADateString      (* ValidationError("Date strings must be formatted as ...") *)
| Wrapped (e : error) (* ValidationError(e), for a caught exception e *)
| WrappedMatchError.  (* ValidationError(e), e the TypeError of match on a non-str *)

(** The outcome of a field method: a result, a [ValidationError], or
    an exception that the method does not catch. *)
Inductive outcome (A : Type) : Type :=
| Done (a : A)
| Invalid (c : validation_cause)
| Uncaught (e : error).

Arguments Done {A} a.
Arguments Invalid {A} c.
Arguments Uncaught {A} e.

(** [FuzzyDateFormField.compress]; the empty string it returns for an
    empty list is [None] here. *)
Definition compress (cfg : config) (data_list : list value)
  : outcome (option FuzzyDate) :=
  match data_list with
  | [] => Done None
  | _ =>
      let get := zip_get (DATE_FIELD_ORDER cfg) data_list in
      match from_fields (get "y"%char) (get "m"%char) (get "d"%char) with
      | Ok v => Done (Some v)
      | Raise e => if is_ValueError e then Invalid (Wrapped e) else Uncaught e
      end
  end.

(** What a model field holds: a plain value or a [FuzzyDate]. *)
Inductive field_value : Type :=
| Plain (v : value)
| Fuzzy (d : FuzzyDate).

(** [FuzzyDateField.from_db_value] *)
Definition from_db_value (v : value) : result field_value :=
  if truthy v then
    d <- CustomMeta_call (SeedVal v) no_kwargs ;; Ok (Fuzzy d)
  else Ok (Plain v).

(** [FuzzyDateField.to_python]: only a [TypeError] is caught. *)
Definition to_python (x : field_value) : outcome field_value :=
  match x with
  | Fuzzy _ => Done x
  | Plain v =>
      if truthy v then
        match v with
        | PStr s =>
            match DATE_PATTERN_match s with
            | Some (y, m, d) =>
                match from_fields y m d with
                | Ok r => Done (Fuzzy r)
                | Raise e =>
                    if is_TypeError e then Invalid (Wrapped e) else Uncaught e
                end
            | None => Invalid NotADateString
            end
        | _ => Invalid WrappedMatchError
        end
      else Done x
  end.

(** ** The texts that [DATE_PATTERN] matches *)

Definition is_sep (c : ascii) : Prop := c = "."%char \/ c = "-"%char \/ c = "/"%char.

(** What [$] leaves unread: nothing, or one final newline. *)
Definition line_end (s : string) : Prop := s = "" \/ s = String "010" "".

(** The three shapes of a matching string, with the groups of each. *)
Inductive date_text : string -> value * value * value -> Prop :=
| text_y y nl :
    digits 4 y -> line_end nl ->
    date_text (y ++ nl) (PStr y, PNone, PNone)
| text_ym y a m nl :
    digits 4 y -> is_sep a -> digits 2 m -> line_end nl ->
    date_text (y ++ String a (m ++ nl)) (PStr y, PStr m, PNone)
| text_ymd y a m b d nl :
    digits 4 y -> is_sep a -> digits 2 m -> is_sep b -> digits 2 d ->
    line_end nl ->
    date_text (y ++ String a (m ++ String b (d ++ nl))) (PStr y, PStr m, PStr d).

(** A value with a day has a month. *)
Definition day_has_month (v : FuzzyDate) : Prop := day v <> "" -> month v <> "".

(** ** Smoke tests *)

Example ex_year_only : from_str "1985" = Ok (mkFuzzyDate "1985.00.00" "1985" "" "").
Proof. reflexivity. Qed.

Example ex_year_month : from_str "1985-02" = Ok (mkFuzzyDate "1985.02.00" "1985" "02" "").
Proof. reflexivity. Qed.

Example ex_mixed_separators :
  from_str "1985-02/14" = Ok (mkFuzzyDate "1985.02.14" "1985" "02" "14").
Proof. reflexivity. Qed.

Example ex_fields_int :
  from_fields (PInt 2021) (PInt 3) PNone = Ok (mkFuzzyDate "2021.03.00" "2021" "03" "").
Proof. reflexivity. Qed.

Example ex_date :
  from_date (mkdate 2021 12 5) = Ok (mkFuzzyDate "2021.12.05" "2021" "12" "05").
Proof. reflexivity. Qed.

Example ex_feb30 :
  from_fields (PInt 2021) (PInt 2) (PInt 30) = Raise InvalidCalendarDate.
Proof. reflexivity. Qed.

Example ex_year_999 : from_fields (PInt 999) PNone PNone = Raise YearOutOfRange.
Proof. reflexivity. Qed.

Example ex_month_c_int :
  from_fields (PInt 2021) (PInt (2 ^ 31 - 1)) PNone = Raise InvalidCalendarDate /\
  from_fields (PInt 2021) (PInt (2 ^ 31)) PNone = Raise DateOverflow /\
  from_fields (PInt 2021) (PInt (- 2 ^ 31)) PNone = Raise InvalidCalendarDate /\
  from_fields (PInt 2021) (PInt 1) (PStr "99999999999") = Raise DateOverflow /\
  from_fields (PInt (2 ^ 31)) (PInt 1) PNone = Raise YearOutOfRange.
Proof. repeat split. Qed.

Example ex_trailing_newline :
  from_str (String "2" (String "0" (String "2" (String "1" (String "010" "")))))
  = Ok (mkFuzzyDate "2021.00.00" "2021" "" "").
Proof. reflexivity. Qed.

(** ** Intervals of integers and numerals *)

Lemma Zrange_forallb (P : Z -> bool) (lo : Z) (n : nat) :
  forallb P (Zrange lo n) = true ->
  forall z, lo <= z < lo + Z.of_nat n -> P z = true.
Proof.
  intros H z Hz.
  rewrite forallb_forall in H. apply H.
  unfold Zrange. apply in_map_iff.
  exists (Z.to_nat (z - lo)). split; [lia|].
  apply in_seq. lia.
Qed.

Lemma result_eqb_Z_true r z : result_eqb_Z r z = true -> r = Ok z.
Proof.
  destruct r as [x|e]; simpl; [|discriminate].
  intros H. apply Z.eqb_eq in H. now subst.
Qed.

Lemma year_numerals : forallb year_numeral_ok (Zrange 1000 (Z.to_nat 9000)) = true.
Proof. vm_compute. reflexivity. Qed.

Lemma year_numeral z :
  1000 <= z <= 9999 ->
  str_of_int z <> "" /\ int_of_str (str_of_int z) = Ok z /\ digits 4 (str_of_int z).
Proof.
  intros Hz.
  assert (H : year_numeral_ok z = true)
    by (apply (Zrange_forallb _ _ _ year_numerals); lia).
  unfold year_numeral_ok in H.
  apply andb_true_iff in H as [H H3]. apply andb_true_iff in H as [H1 H2].
  split; [|split].
  - intros E. rewrite E in H1. discriminate.
  - now apply result_eqb_Z_true.
  - unfold digits. destruct (take_digits 4 (str_of_int z)) as [[t r]|]; [|discriminate].
    apply andb_true_iff in H3 as [Ht Hr].
    apply String.eqb_eq in Ht, Hr. now subst.
Qed.

Lemma part_numerals : forallb part_numeral_ok (Zrange 1 31) = true.
Proof. vm_compute. reflexivity. Qed.

Lemma part_numeral z :
  1 <= z <= 31 ->
  let s := pad02 (str_of_int z) in
  s <> "00" /\ String.length s = 2%nat /\ int_of_str s = Ok z /\ digits 2 s.
Proof.
  intros Hz s.
  assert (H : part_numeral_ok z = true)
    by (apply (Zrange_forallb _ _ _ part_numerals); lia).
  unfold part_numeral_ok in H. fold s in H.
  apply andb_true_iff in H as [H H4]. apply andb_true_iff in H as [H H3].
  apply andb_true_iff in H as [H1 H2].
  repeat split.
  - intros E. rewrite E in H1. discriminate.
  - now apply Nat.eqb_eq.
  - now apply result_eqb_Z_true.
  - unfold digits. destruct (take_digits 2 s) as [[t r]|]; [|discriminate].
    apply andb_true_iff in H4 as [Ht Hr].
    apply String.eqb_eq in Ht, Hr. now subst.
Qed.

(** ** Basic facts about the runtime functions *)

Lemma bind_ok {A B : Type} (r : result A) (k : A -> result B) (b : B) :
  bind r k = Ok b -> exists a, r = Ok a /\ k a = Ok b.
Proof. destruct r as [a|e]; simpl; [eauto | discriminate]. Qed.

Lemma mk_date_ok y m d dt :
  mk_date y m d = Ok dt -> valid_date y m d = true /\ dt = mkdate y m d.
Proof.
  unfold mk_date.
  destruct (fits_c_int y && fits_c_int m && fits_c_int d); [|discriminate].
  destruct (valid_date y m d); [|discriminate].
  intros H. injection H as <-. auto.
Qed.

Lemma valid_date_bounds y m d :
  valid_date y m d = true ->
  1 <= y <= 9999 /\ 1 <= m <= 12 /\ 1 <= d <= days_in_month y m.
Proof.
  unfold valid_date. rewrite !andb_true_iff, !Z.leb_le. lia.
Qed.

Lemma valid_date_intro y m d :
  1 <= y <= 9999 -> 1 <= m <= 12 -> 1 <= d <= days_in_month y m ->
  valid_date y m d = true.
Proof.
  intros. unfold valid_date. rewrite !andb_true_iff, !Z.leb_le. lia.
Qed.

(** A date has three fields that fit a C [int]. *)
Lemma valid_date_fits y m d :
  valid_date y m d = true ->
  fits_c_int y && fits_c_int m && fits_c_int d = true.
Proof.
  intros H. apply valid_date_bounds in H as (Hy & Hm & Hd).
  assert (Hb : 28 <= days_in_month y m <= 31).
  { unfold days_in_month.
    assert (Hc : m = 1 \/ m = 2 \/ m = 3 \/ m = 4 \/ m = 5 \/ m = 6 \/ m = 7
                 \/ m = 8 \/ m = 9 \/ m = 10 \/ m = 11 \/ m = 12) by lia.
    repeat (destruct Hc as [->|Hc]; [simpl; try destruct (isleap y); lia|]).
    subst m; simpl; lia. }
  unfold fits_c_int. rewrite !andb_true_iff, !Z.leb_le. lia.
Qed.

Lemma mk_date_valid y m d :
  valid_date y m d = true -> mk_date y m d = Ok (mkdate y m d).
Proof.
  intros H. unfold mk_date. now rewrite (valid_date_fits y m d H), H.
Qed.

Lemma fits_c_int_year y : 1000 <= y <= 9999 -> fits_c_int y = true.
Proof.
  intros H. unfold fits_c_int. rewrite andb_true_iff, !Z.leb_le. lia.
Qed.

(** What [date] raises for a year that passed the range check. *)
Lemma mk_date_invalid y m d :
  1000 <= y <= 9999 -> fits_c_int m && fits_c_int d = true ->
  valid_date y m d = false -> mk_date y m d = Raise InvalidCalendarDate.
Proof.
  intros Hy Hf Hv. unfold mk_date.
  apply andb_true_iff in Hf as [Hm Hd].
  now rewrite (fits_c_int_year y Hy), Hm, Hd, Hv.
Qed.

Lemma mk_date_overflow y m d :
  fits_c_int m && fits_c_int d = false -> mk_date y m d = Raise DateOverflow.
Proof.
  intros Hf. unfold mk_date.
  destruct (fits_c_int y); [|reflexivity].
  apply andb_false_iff in Hf as [-> | ->]; [reflexivity|].
  now rewrite andb_false_r.
Qed.

Lemma mk_date_raises y m d e :
  mk_date y m d = Raise e -> e = InvalidCalendarDate \/ e = DateOverflow.
Proof.
  unfold mk_date.
  destruct (fits_c_int y && fits_c_int m && fits_c_int d);
    [destruct (valid_date y m d)|]; intros H; [discriminate| |];
    injection H as <-; auto.
Qed.

Lemma days_in_month_bounds y m :
  1 <= m <= 12 -> 28 <= days_in_month y m <= 31.
Proof.
  intros Hm. unfold days_in_month.
  assert (Hc : m = 1 \/ m = 2 \/ m = 3 \/ m = 4 \/ m = 5 \/ m = 6 \/ m = 7
               \/ m = 8 \/ m = 9 \/ m = 10 \/ m = 11 \/ m = 12) by lia.
  repeat (destruct Hc as [->|Hc]; [simpl; try destruct (isleap y); lia|]).
  subst m; simpl; lia.
Qed.

Lemma pad02_long s : (2 <= String.length s)%nat -> pad02 s = s.
Proof.
  unfold pad02. destruct s as [|a [|b s]]; simpl; intros H; try lia. reflexivity.
Qed.

Lemma pad02_length s : (2 <= String.length (pad02 s))%nat.
Proof.
  unfold pad02. destruct s as [|a [|b s]]; simpl; lia.
Qed.

Lemma length_2_nonempty s : (2 <= String.length s)%nat -> s <> "".
Proof. intros H E. subst s. simpl in H. lia. Qed.

Lemma truthy_PStr s : truthy (PStr s) = true <-> s <> "".
Proof.
  simpl. rewrite negb_true_iff. apply String.eqb_neq.
Qed.

Lemma str_or_nonempty a b : b <> "" -> str_or a b <> "".
Proof.
  unfold str_or. destruct (String.eqb_spec a ""); auto.
Qed.

(** A one-character numeral keeps its value when padded to "0c". *)
Lemma int_of_str_pad1 c i :
  int_of_str (String c "") = Ok i -> int_of_str (String "0" (String c "")) = Ok i.
Proof.
  destruct c as [b0 b1 b2 b3 b4 b5 b6 b7].
  destruct b0, b1, b2, b3, b4, b5, b6, b7; vm_compute; intros H;
    first [discriminate H | exact H].
Qed.

Lemma int_of_str_0 : int_of_str "0" = Ok 0.
Proof. reflexivity. Qed.

(** ** What a successful construction establishes *)

(** The checks that [validate] has passed when it returns a value. *)
Lemma validate_ok y m d v :
  validate y m d = Ok v ->
  truthy y = true /\ (truthy d = true -> truthy m = true) /\
  exists iy im id sm sd,
    int y = Ok iy /\ field_int m = Ok im /\ field_int d = Ok id /\
    1000 <= iy <= 9999 /\ valid_date iy im id = true /\
    format_02 (por m (PStr fuzzy_value)) = Ok sm /\
    format_02 (por d (PStr fuzzy_value)) = Ok sd /\
    v = FuzzyDate_new (format_plain y) sm sd.
Proof.
  unfold validate. intros H.
  destruct (truthy y) eqn:Ty; simpl in H; [|discriminate].
  destruct (truthy d && negb (truthy m)) eqn:Tdm; [discriminate|].
  apply bind_ok in H as (iy & Hy & H).
  apply bind_ok in H as (im & Hm & H).
  apply bind_ok in H as (id & Hd & H).
  destruct ((iy <? 1000) || (iy >? 9999)) eqn:Hr; [discriminate|].
  apply bind_ok in H as (dt & Hdt & H).
  apply bind_ok in H as (sm & Hsm & H).
  apply bind_ok in H as (sd & Hsd & H).
  injection H as <-.
  apply mk_date_ok in Hdt as [Hv _].
  apply orb_false_iff in Hr as [Hlo Hhi].
  apply Z.ltb_ge in Hlo. rewrite Z.gtb_ltb in Hhi. apply Z.ltb_ge in Hhi.
  split; [reflexivity|]. split.
  - intros Td. rewrite Td in Tdm. simpl in Tdm. now apply negb_false_iff in Tdm.
  - exists iy, im, id, sm, sd. repeat split; auto; lia.
Qed.

(** A month or day field that passed the checks is normalised to a
    string of at least two characters with the same numeric reading. *)
Lemma field_normalised f i s :
  field_int f = Ok i -> 1 <= i <= 31 ->
  format_02 (por f (PStr fuzzy_value)) = Ok s ->
  part_int s = Ok i /\ (2 <= String.length s)%nat.
Proof.
  unfold field_int, por. intros Hi Hb Hs.
  destruct (truthy f) eqn:Tf.
  - destruct f as [|z|t]; simpl in *; try discriminate.
    + (* an integer *)
      injection Hi as ->. injection Hs as <-.
      destruct (part_numeral i Hb) as (Hne & Hlen & Hint & _).
      split; [|lia]. unfold part_int.
      destruct (String.eqb_spec (pad02 (str_of_int i)) fuzzy_value); [contradiction|assumption].
    + (* a string *)
      injection Hs as <-. split; [|apply pad02_length].
      destruct (String.eqb_spec t fuzzy_value) as [->|Hne]; simpl in Hi.
      * injection Hi as <-. reflexivity.
      * destruct t as [|a [|b t]].
        -- discriminate.
        -- unfold pad02; simpl String.length; cbv iota.
           unfold part_int.
           destruct (String.eqb_spec (String "0" (String a "")) fuzzy_value) as [E|_].
           ++ injection E as ->. rewrite int_of_str_0 in Hi. injection Hi as <-. lia.
           ++ now apply int_of_str_pad1.
        -- rewrite pad02_long by (simpl; lia).
           unfold part_int.
           destruct (String.eqb_spec (String a (String b t)) fuzzy_value); [contradiction|assumption].
  - simpl in Hi, Hs. injection Hi as <-. injection Hs as <-.
    split; [reflexivity | simpl; lia].
Qed.

(** The year is kept as given; for an integer that is its numeral. *)
Lemma year_normalised y iy :
  truthy y = true -> int y = Ok iy -> 1000 <= iy <= 9999 ->
  format_plain y <> "" /\ int_of_str (format_plain y) = Ok iy.
Proof.
  intros Ty Hy Hr. destruct y as [|z|s]; simpl in *; try discriminate.
  - injection Hy as ->. destruct (year_numeral iy Hr) as (H1 & H2 & _). auto.
  - split; [|assumption]. now apply truthy_PStr.
Qed.

Lemma validate_constructed y m d v : validate y m d = Ok v -> constructed v.
Proof.
  intros H.
  apply validate_ok in H
    as (Ty & _ & iy & im & id & sm & sd & Hy & Hm & Hd & Hr & Hv & Hsm & Hsd & ->).
  pose proof (valid_date_bounds _ _ _ Hv) as (_ & Hbm & Hbd).
  pose proof (days_in_month_bounds iy im Hbm) as Hdim.
  destruct (field_normalised m im sm Hm ltac:(lia) Hsm) as [Pm Lm].
  destruct (field_normalised d id sd Hd ltac:(lia) Hsd) as [Pd Ld].
  destruct (year_normalised y iy Ty Hy Hr) as [Yne Yint].
  exists (format_plain y), sm, sd, iy, im, id. repeat split; auto; lia.
Qed.

Lemma call_validate sd kw v :
  CustomMeta_call sd kw = Ok v -> exists y m d, validate y m d = Ok v.
Proof.
  unfold CustomMeta_call. intros H.
  apply bind_ok in H as ([[y m] d] & _ & H). eauto.
Qed.

Lemma call_constructed sd kw v : CustomMeta_call sd kw = Ok v -> constructed v.
Proof.
  intros H. apply call_validate in H as (y & m & d & H).
  eapply validate_constructed; eauto.
Qed.

(** ** Constructing from normalised strings *)

Lemma validate_eq y m d :
  validate y m d =
  if negb (truthy y) then Raise MissingYear
  else if truthy d && negb (truthy m) then Raise DayWithoutMonth
  else
    int_year <- int y ;;
    int_month <- field_int m ;;
    int_day <- field_int d ;;
    if (int_year <? 1000) || (int_year >? 9999) then Raise YearOutOfRange
    else
      _ <- mk_date int_year int_month int_day ;;
      sm <- format_02 (por m (PStr fuzzy_value)) ;;
      sd <- format_02 (por d (PStr fuzzy_value)) ;;
      Ok (FuzzyDate_new (format_plain y) sm sd).
Proof. reflexivity. Qed.

Lemma from_fields_eq y m d : from_fields y m d = validate y m d.
Proof. reflexivity. Qed.

Lemma field_int_str s : s <> "" -> field_int (PStr s) = part_int s.
Proof.
  intros Hs. unfold field_int, por, part_int.
  apply truthy_PStr in Hs. rewrite Hs. simpl.
  destruct (s =? fuzzy_value)%string; reflexivity.
Qed.

Lemma in_range_test iy :
  1000 <= iy <= 9999 -> (iy <? 1000) || (iy >? 9999) = false.
Proof.
  intros H. apply orb_false_iff. rewrite Z.gtb_ltb, !Z.ltb_ge. lia.
Qed.

(** Three strings that satisfy the checks are accepted as they are. *)
Lemma validate_strings ys ms ds iy im id :
  ys <> "" -> int_of_str ys = Ok iy -> 1000 <= iy <= 9999 ->
  part_int ms = Ok im -> part_int ds = Ok id ->
  (2 <= String.length ms)%nat -> (2 <= String.length ds)%nat ->
  valid_date iy im id = true ->
  validate (PStr ys) (PStr ms) (PStr ds) = Ok (FuzzyDate_new ys ms ds).
Proof.
  intros Hy Hiy Hr Hm Hd Lm Ld Hv.
  pose proof (length_2_nonempty _ Lm) as Nm.
  pose proof (length_2_nonempty _ Ld) as Nd.
  rewrite validate_eq.
  rewrite (proj2 (truthy_PStr ys) Hy), (proj2 (truthy_PStr ms) Nm),
          (proj2 (truthy_PStr ds) Nd).
  simpl negb. simpl andb. cbv iota.
  rewrite !field_int_str by assumption.
  simpl int. rewrite Hiy, Hm, Hd. simpl bind.
  rewrite (in_range_test _ Hr).
  rewrite (mk_date_valid _ _ _ Hv). simpl bind.
  unfold por. rewrite (proj2 (truthy_PStr ms) Nm), (proj2 (truthy_PStr ds) Nd).
  simpl. rewrite !pad02_long by assumption. reflexivity.
Qed.

Lemma part_int_present s : s <> fuzzy_value -> part_int s = int_of_str s.
Proof.
  intros H. unfold part_int.
  destruct (String.eqb_spec s fuzzy_value); [contradiction|reflexivity].
Qed.

Lemma FuzzyDate_new_present ys ms ds :
  ms <> fuzzy_value -> ds <> fuzzy_value ->
  FuzzyDate_new ys ms ds = mkFuzzyDate (ys ++ "." ++ ms ++ "." ++ ds) ys ms ds.
Proof.
  intros Hm Hd. unfold FuzzyDate_new.
  apply String.eqb_neq in Hm, Hd. unfold fuzzy_value in *. now rewrite Hm, Hd.
Qed.

(** A fully resolved triple of strings yields the value with exactly
    those attributes. *)
Lemma from_fields_resolved ys ms ds iy im id :
  ys <> "" -> int_of_str ys = Ok iy -> 1000 <= iy <= 9999 ->
  ms <> fuzzy_value -> ds <> fuzzy_value ->
  int_of_str ms = Ok im -> int_of_str ds = Ok id ->
  (2 <= String.length ms)%nat -> (2 <= String.length ds)%nat ->
  valid_date iy im id = true ->
  from_fields (PStr ys) (PStr ms) (PStr ds)
  = Ok (mkFuzzyDate (ys ++ "." ++ ms ++ "." ++ ds) ys ms ds).
Proof.
  intros Hy Hiy Hr Nm Nd Hm Hd Lm Ld Hv.
  rewrite from_fields_eq.
  rewrite (validate_strings ys ms ds iy im id); auto.
  - now rewrite FuzzyDate_new_present.
  - now rewrite part_int_present.
  - now rewrite part_int_present.
Qed.

(** The attributes of a value built from normalised strings. *)
Lemma month_of_new ys ms ds :
  month (FuzzyDate_new ys ms ds) = if (ms =? fuzzy_value)%string then "" else ms.
Proof. reflexivity. Qed.

Lemma day_of_new ys ms ds :
  day (FuzzyDate_new ys ms ds) = if (ds =? fuzzy_value)%string then "" else ds.
Proof. reflexivity. Qed.

(** A normalised component is either the placeholder, read as missing
    and numbered 1 by the checks, or a present part that keeps its
    text and number when resolved against a default. *)
Lemma resolve_part s i dflt :
  part_int s = Ok i -> (2 <= String.length s)%nat ->
  let a := if (s =? fuzzy_value)%string then "" else s in
  (a = "" /\ i = 1 /\ str_or a dflt = dflt) \/
  (a = s /\ s <> "" /\ s <> fuzzy_value /\ str_or a dflt = s /\ int_of_str s = Ok i).
Proof.
  intros Hp Ls a. subst a. unfold str_or, part_int in *.
  pose proof (length_2_nonempty _ Ls) as Ns.
  destruct (String.eqb_spec s fuzzy_value) as [->|Hne].
  - left. injection Hp as <-. auto.
  - right. destruct (String.eqb_spec s ""); [contradiction|]. auto.
Qed.

Lemma two_digit_numerals :
  forallb (fun z => (pad02 (str_of_int z) =? str_of_int z)%string) (Zrange 10 22) = true.
Proof. vm_compute. reflexivity. Qed.

Lemma two_digit_numeral z :
  10 <= z <= 31 ->
  let s := str_of_int z in
  s <> fuzzy_value /\ String.length s = 2%nat /\ int_of_str s = Ok z /\ digits 2 s.
Proof.
  intros Hz s.
  assert (E : pad02 (str_of_int z) = s).
  { apply String.eqb_eq.
    apply (Zrange_forallb _ _ _ two_digit_numerals). lia. }
  rewrite <- E. apply part_numeral. lia.
Qed.

(** ** Range resolution on constructed values *)

Lemma get_start_constructed v :
  constructed v ->
  let m' := str_or (month v) "01" in
  let d' := str_or (day v) "01" in
  exists iy im id,
    int_of_str (year v) = Ok iy /\ 1000 <= iy <= 9999 /\
    int_of_str m' = Ok im /\ int_of_str d' = Ok id /\
    (month v = "" -> im = 1) /\ (day v = "" -> id = 1) /\
    valid_date iy im id = true /\
    get_start v
    = Ok (mkFuzzyDate (year v ++ "." ++ m' ++ "." ++ d') (year v) m' d').
Proof.
  intros (ys & ms & ds & iy & im & id & -> & Ny & Hy & Hr & Pm & Pd & Lm & Ld & Hv).
  unfold get_start. rewrite month_of_new, day_of_new. simpl year.
  exists iy, im, id.
  destruct (resolve_part ms im "01" Pm Lm) as [(Am & -> & Sm)|(Am & Nm & Fm & Sm & Im)];
    destruct (resolve_part ds id "01" Pd Ld) as [(Ad & -> & Sd)|(Ad & Nd & Fd & Sd & Id)];
    rewrite Sm, Sd; rewrite Am, Ad;
    repeat split; auto; try lia; try (intros E; congruence).
  - apply (from_fields_resolved ys "01" "01" iy 1 1); side_conditions.
  - apply (from_fields_resolved ys "01" ds iy 1 id); side_conditions.
  - apply (from_fields_resolved ys ms "01" iy im 1); side_conditions.
  - apply (from_fields_resolved ys ms ds iy im id); side_conditions.
Qed.

Lemma monthrange_ndays_ok y m :
  1 <= m <= 12 -> monthrange_ndays y m = Ok (days_in_month y m).
Proof.
  intros H. unfold monthrange_ndays.
  replace ((1 <=? m) && (m <=? 12)) with true; [reflexivity|].
  symmetry. apply andb_true_iff. rewrite !Z.leb_le. lia.
Qed.

(** The last day of a month is a valid day, and the next one is not. *)
Lemma last_day_valid y m :
  1 <= y <= 9999 -> 1 <= m <= 12 ->
  valid_date y m (days_in_month y m) = true /\
  valid_date y m (days_in_month y m + 1) = false.
Proof.
  intros Hy Hm. pose proof (days_in_month_bounds y m Hm) as Hb. split.
  - apply valid_date_intro; lia.
  - destruct (valid_date y m (days_in_month y m + 1)) eqn:E; [|reflexivity].
    apply valid_date_bounds in E. lia.
Qed.

Lemma get_end_constructed v :
  constructed v ->
  let m' := str_or (month v) "12" in
  exists iy im id,
    int_of_str (year v) = Ok iy /\ 1000 <= iy <= 9999 /\
    int_of_str m' = Ok im /\ (month v = "" -> im = 12) /\
    let d' := if (day v =? "")%string
              then str_of_int (days_in_month iy im) else day v in
    int_of_str d' = Ok id /\ (day v = "" -> id = days_in_month iy im) /\
    d' <> "" /\
    valid_date iy im id = true /\
    get_end v
    = Ok (mkFuzzyDate (year v ++ "." ++ m' ++ "." ++ d') (year v) m' d').
Proof.
  intros (ys & ms & ds & iy & im & id & -> & Ny & Hy & Hr & Pm & Pd & Lm & Ld & Hv).
  unfold get_end. cbv zeta. rewrite month_of_new, day_of_new. simpl year.
  pose proof (valid_date_bounds _ _ _ Hv) as (_ & Bm & Bd).
  (* the resolved month and its number *)
  set (m' := str_or (if (ms =? fuzzy_value)%string then "" else ms) "12").
  assert (Hm' : exists im',
             int_of_str m' = Ok im' /\ 1 <= im' <= 12 /\
             m' <> fuzzy_value /\ (2 <= String.length m')%nat /\
             ((if (ms =? fuzzy_value)%string then "" else ms) = "" -> im' = 12) /\
             days_in_month iy im <= days_in_month iy im').
  { subst m'.
    destruct (resolve_part ms im "12" Pm Lm) as [(Am & -> & Sm)|(Am & Nm & Fm & Sm & Im)];
      rewrite Sm.
    - exists 12. repeat split; side_conditions.
    - exists im. rewrite Am. repeat split; try side_conditions.
      intros E. contradiction. }
  destruct Hm' as (im' & Im' & Bm' & Fm' & Lm' & A12 & Hle).
  pose proof (days_in_month_bounds iy im' Bm') as Bn.
  destruct (resolve_part ds id "01" Pd Ld) as [(Ad & -> & _)|(Ad & Nd & Fd & _ & Id)];
    rewrite Ad.
  - (* the day is missing: the length of the resolved month *)
    simpl String.eqb. cbv iota.
    destruct (two_digit_numeral (days_in_month iy im') ltac:(lia))
      as (Fn & Ln & In & _).
    exists iy, im', (days_in_month iy im').
    rewrite Hy, Im'. simpl bind. rewrite (monthrange_ndays_ok iy im' Bm'). simpl bind.
    repeat split; auto; try lia.
    + intros E. rewrite E in Ln. discriminate.
    + apply valid_date_intro; lia.
    + apply (from_fields_resolved ys m' _ iy im' (days_in_month iy im'));
        try side_conditions.
      apply valid_date_intro; lia.
  - (* the day is present and kept *)
    destruct (String.eqb_spec ds "") as [E|_]; [contradiction|].
    simpl bind.
    exists iy, im', id. rewrite Im'.
    destruct (String.eqb_spec ds "") as [E|_]; [contradiction|].
    repeat split; auto; try lia; try (intros E; congruence).
    + apply valid_date_intro; lia.
    + apply (from_fields_resolved ys m' ds iy im' id); try side_conditions.
      apply valid_date_intro; lia.
Qed.

(** ** Range resolution (C7) *)

(** C7.  For every successfully constructed value [v]: [get_start]
    returns a value with the year of [v], month "01" when the month of
    [v] is missing and day "01" when the day is missing; [get_end]
    returns a value with the year of [v], month "12" when the month is
    missing, and, when the day is missing, the numeral of the number
    of days of the resolved month in the resolved year, which is the
    last valid day of that month; the text of each result is its own
    year, month and day joined by full stops, not the text of [v];
    both results are non-fuzzy; [get_range] returns the pair of the
    two.  In particular the day of [get_end] is 29 for 2000-02 and 28
    for 1900-02 and 2001-02. *)
Theorem range_resolution sd kw v :
  CustomMeta_call sd kw = Ok v ->
  (exists s e iy im,
     get_start v = Ok s /\ get_end v = Ok e /\ get_range v = Ok (s, e) /\
     year s = year v /\
     month s = str_or (month v) "01" /\
     day s = str_or (day v) "01" /\
     canonical s = year s ++ "." ++ month s ++ "." ++ day s /\
     year e = year v /\
     month e = str_or (month v) "12" /\
     int_of_str (year e) = Ok iy /\ int_of_str (month e) = Ok im /\
     day e = (if (day v =? "")%string
              then str_of_int (days_in_month iy im) else day v) /\
     canonical e = year e ++ "." ++ month e ++ "." ++ day e /\
     valid_date iy im (days_in_month iy im) = true /\
     valid_date iy im (days_in_month iy im + 1) = false /\
     is_fuzzy s = false /\ is_fuzzy e = false) /\
  (v <- from_fields (PInt 2000) (PInt 2) PNone ;; e <- get_end v ;; Ok (day e))
  = Ok "29" /\
  (v <- from_fields (PInt 1900) (PInt 2) PNone ;; e <- get_end v ;; Ok (day e))
  = Ok "28" /\
  (v <- from_fields (PInt 2001) (PInt 2) PNone ;; e <- get_end v ;; Ok (day e))
  = Ok "28".
Proof.
  intros H. apply call_constructed in H.
  split; [|repeat split; reflexivity].
  destruct (get_start_constructed v H)
    as (iy & im & id & Hy & Hr & Hm & Hd & _ & _ & Hv & Hs).
  destruct (get_end_constructed v H)
    as (iy' & im' & id' & Hy' & _ & Hm' & _ & Hd' & _ & Nd' & Hv' & He).
  cbv zeta in *.
  pose proof (valid_date_bounds _ _ _ Hv') as (By & Bm & _).
  destruct (last_day_valid iy' im' By Bm) as [L1 L2].
  eexists _, _, iy', im'.
  split; [exact Hs|]. split; [exact He|].
  split; [unfold get_range; rewrite Hs, He; reflexivity|].
  cbn [year month day canonical].
  repeat split; auto.
  - unfold is_fuzzy. simpl day. apply String.eqb_neq.
    apply str_or_nonempty. discriminate.
  - unfold is_fuzzy. simpl day. now apply String.eqb_neq.
Qed.

Lemma range_resolution_witness :
  exists s e iy im,
    get_start (mkFuzzyDate "1985.00.00" "1985" "" "") = Ok s /\
    get_end (mkFuzzyDate "1985.00.00" "1985" "" "") = Ok e /\
    get_range (mkFuzzyDate "1985.00.00" "1985" "" "") = Ok (s, e) /\
    year s = "1985" /\ month s = "01" /\ day s = "01" /\
    canonical s = year s ++ "." ++ month s ++ "." ++ day s /\
    year e = "1985" /\ month e = "12" /\
    int_of_str (year e) = Ok iy /\ int_of_str (month e) = Ok im /\
    day e = str_of_int (days_in_month iy im) /\
    canonical e = year e ++ "." ++ month e ++ "." ++ day e /\
    valid_date iy im (days_in_month iy im) = true /\
    valid_date iy im (days_in_month iy im + 1) = false /\
    is_fuzzy s = false /\ is_fuzzy e = false.
Proof.
  apply (range_resolution (SeedVal (PStr "1985")) no_kwargs
           (mkFuzzyDate "1985.00.00" "1985" "" "")).
  reflexivity.
Defined.

(** ** Conversion to a calendar date (C8) *)

Lemma date_of_resolved v iy im id :
  int_of_str (year v) = Ok iy -> int_of_str (month v) = Ok im ->
  int_of_str (day v) = Ok id -> valid_date iy im id = true ->
  date_of_list (as_list v) = Ok (mkdate iy im id).
Proof.
  intros Hy Hm Hd Hv. unfold as_list, date_of_list.
  rewrite Hy, Hm, Hd. simpl. now rewrite (mk_date_valid _ _ _ Hv).
Qed.

(** C8, as the code has it.  For every successfully constructed value
    [v]: when [v] is not fuzzy and has its month, [as_date] returns
    the date made of the numbers of its year, month and day, whatever
    [default] is; when [v] is fuzzy, [as_date] returns None for
    default None, the date of [get_start()] for "start", the date of
    [get_end()] for "end", and raises the invalid-default error for
    any other [default]. *)
Theorem as_date_resolution sd kw v default :
  CustomMeta_call sd kw = Ok v ->
  (is_fuzzy v = false -> month v <> "" ->
   exists iy im id,
     int_of_str (year v) = Ok iy /\ int_of_str (month v) = Ok im /\
     int_of_str (day v) = Ok id /\ valid_date iy im id = true /\
     as_date v default = Ok (Some (mkdate iy im id))) /\
  (is_fuzzy v = true ->
   as_date v PNone = Ok None /\
   (exists s dt,
      get_start v = Ok s /\ date_of_list (as_list s) = Ok dt /\
      as_date v (PStr "start") = Ok (Some dt)) /\
   (exists e dt,
      get_end v = Ok e /\ date_of_list (as_list e) = Ok dt /\
      as_date v (PStr "end") = Ok (Some dt)) /\
   (default <> PNone -> default <> PStr "start" -> default <> PStr "end" ->
    as_date v default = Raise InvalidRangeDefault)).
Proof.
  intros H. apply call_constructed in H. split.
  - (* not fuzzy *)
    intros Hf Hmv.
    destruct H as (ys & ms & ds & iy & im & id & -> & Ny & Hy & Hr & Pm & Pd & Lm & Ld & Hv).
    unfold is_fuzzy in Hf. apply String.eqb_neq in Hf.
    rewrite month_of_new in Hmv. rewrite day_of_new in Hf.
    destruct (resolve_part ms im "01" Pm Lm) as [(Am & _)|(Am & _ & Fm & _ & Im)];
      [contradiction|].
    destruct (resolve_part ds id "01" Pd Ld) as [(Ad & _)|(Ad & _ & Fd & _ & Id)];
      [contradiction|].
    exists iy, im, id.
    rewrite month_of_new, day_of_new, Am, Ad. simpl year.
    repeat split; auto.
    unfold as_date, is_fuzzy.
    rewrite (FuzzyDate_new_present ys ms ds Fm Fd). simpl day.
    destruct (String.eqb_spec ds "") as [E|_];
      [apply length_2_nonempty in Ld; contradiction|].
    cbn [bind]. rewrite (date_of_resolved _ iy im id); auto.
  - (* fuzzy *)
    intros Hf.
    destruct (get_start_constructed v H)
      as (iy & im & id & Hy & Hr & Hm & Hd & _ & _ & Hv & Hs).
    destruct (get_end_constructed v H)
      as (iy' & im' & id' & Hy' & _ & Hm' & _ & Hd' & _ & _ & Hv' & He).
    cbv zeta in *.
    repeat split.
    + unfold as_date. rewrite Hf. reflexivity.
    + eexists _, (mkdate iy im id). split; [exact Hs|].
      split; [apply date_of_resolved; assumption|].
      unfold as_date. rewrite Hf. cbn [pne negb String.eqb Ascii.eqb Bool.eqb].
      rewrite Hs. cbn [bind].
      rewrite (date_of_resolved _ iy im id); auto.
    + eexists _, (mkdate iy' im' id'). split; [exact He|].
      split; [apply date_of_resolved; assumption|].
      unfold as_date. rewrite Hf. cbn [pne negb String.eqb Ascii.eqb Bool.eqb].
      rewrite He. cbn [bind].
      rewrite (date_of_resolved _ iy' im' id'); auto.
    + intros N1 N2 N3. unfold as_date. rewrite Hf.
      destruct default as [|z|t]; [contradiction|reflexivity|].
      simpl.
      destruct (String.eqb_spec t "start") as [->|_]; [contradiction|].
      destruct (String.eqb_spec t "end") as [->|_]; [contradiction|].
      reflexivity.
Qed.

Lemma as_date_resolution_witness :
  (exists iy im id,
     int_of_str "2001" = Ok iy /\ int_of_str "02" = Ok im /\
     int_of_str "15" = Ok id /\ valid_date iy im id = true /\
     as_date (mkFuzzyDate "2001.02.15" "2001" "02" "15") (PInt 7)
     = Ok (Some (mkdate iy im id))) /\
  as_date (mkFuzzyDate "2001.02.00" "2001" "02" "") PNone = Ok None /\
  (exists s dt,
     get_start (mkFuzzyDate "2001.02.00" "2001" "02" "") = Ok s /\
     date_of_list (as_list s) = Ok dt /\
     as_date (mkFuzzyDate "2001.02.00" "2001" "02" "") (PStr "start") = Ok (Some dt)) /\
  (exists e dt,
     get_end (mkFuzzyDate "2001.02.00" "2001" "02" "") = Ok e /\
     date_of_list (as_list e) = Ok dt /\
     as_date (mkFuzzyDate "2001.02.00" "2001" "02" "") (PStr "end") = Ok (Some dt)) /\
  as_date (mkFuzzyDate "2001.02.00" "2001" "02" "") (PInt 7)
  = Raise InvalidRangeDefault.
Proof.
  split.
  - apply (as_date_resolution (SeedVal (PStr "2001-02-15")) no_kwargs
             (mkFuzzyDate "2001.02.15" "2001" "02" "15") (PInt 7)).
    + reflexivity.
    + reflexivity.
    + discriminate.
  - destruct (as_date_resolution (SeedVal (PStr "2001-02")) no_kwargs
                (mkFuzzyDate "2001.02.00" "2001" "02" "") (PInt 7) eq_refl)
      as [_ H].
    destruct (H eq_refl) as (H1 & H2 & H3 & H4).
    split; [exact H1|]. split; [exact H2|]. split; [exact H3|].
    apply H4; discriminate.
Defined.

(** C8 as stated fails: on a non-fuzzy value an unknown [default] is
    not examined, and the date is returned. *)
Lemma as_date_ignores_default_when_exact :
  from_str "2001.02.15" = Ok (mkFuzzyDate "2001.02.15" "2001" "02" "15") /\
  is_fuzzy (mkFuzzyDate "2001.02.15" "2001" "02" "15") = false /\
  as_date (mkFuzzyDate "2001.02.15" "2001" "02" "15") (PStr "bogus")
  = Ok (Some (mkdate 2001 2 15)) /\
  as_date (mkFuzzyDate "2001.02.15" "2001" "02" "15") (PStr "bogus")
  <> Raise InvalidRangeDefault.
Proof. repeat split; try reflexivity. discriminate. Qed.

(** ** The order of the checks (C3) *)

Lemma format_02_por f : exists s, format_02 (por f (PStr fuzzy_value)) = Ok s.
Proof.
  unfold por. destruct f as [|z|t]; simpl.
  - eauto.
  - destruct (negb (z =? 0)); simpl; eauto.
  - destruct (negb (t =? "")%string); simpl; eauto.
Qed.

(** The checks of [CustomMeta.__call__], in the order in which they
    decide the outcome. *)
Lemma checks_in_order sd kw y m d :
  read_fields sd kw = Ok (y, m, d) ->
  (truthy y = false -> CustomMeta_call sd kw = Raise MissingYear) /\
  (truthy y = true -> truthy d = true -> truthy m = false ->
   CustomMeta_call sd kw = Raise DayWithoutMonth) /\
  (truthy y = true -> (truthy d = true -> truthy m = true) ->
   forall iy im id,
     int y = Ok iy -> field_int m = Ok im -> field_int d = Ok id ->
     (iy < 1000 \/ 9999 < iy -> CustomMeta_call sd kw = Raise YearOutOfRange) /\
     (1000 <= iy <= 9999 -> fits_c_int im && fits_c_int id = false ->
      CustomMeta_call sd kw = Raise DateOverflow) /\
     (1000 <= iy <= 9999 -> fits_c_int im && fits_c_int id = true ->
      valid_date iy im id = false ->
      CustomMeta_call sd kw = Raise InvalidCalendarDate) /\
     (1000 <= iy <= 9999 -> valid_date iy im id = true ->
      exists v, CustomMeta_call sd kw = Ok v)).
Proof.
  intros Hr. unfold CustomMeta_call. rewrite Hr. cbn [bind]. rewrite validate_eq.
  split; [|split].
  - intros Ty. now rewrite Ty.
  - intros Ty Td Tm. now rewrite Ty, Td, Tm.
  - intros Ty Hdm iy im id Hy Hm Hd. rewrite Ty. cbn [negb].
    replace (truthy d && negb (truthy m)) with false
      by (destruct (truthy d); [rewrite Hdm by reflexivity|]; reflexivity).
    rewrite Hy, Hm, Hd. cbn [bind].
    split; [|split; [|split]].
    + intros Hout.
      replace ((iy <? 1000) || (iy >? 9999)) with true; [reflexivity|].
      symmetry. apply orb_true_iff. rewrite Z.gtb_ltb, !Z.ltb_lt. lia.
    + intros Hin Hf. rewrite (in_range_test _ Hin).
      now rewrite (mk_date_overflow _ _ _ Hf).
    + intros Hin Hf Hv. rewrite (in_range_test _ Hin).
      now rewrite (mk_date_invalid _ _ _ Hin Hf Hv).
    + intros Hin Hv. rewrite (in_range_test _ Hin).
      rewrite (mk_date_valid _ _ _ Hv). cbn [bind].
      destruct (format_02_por m) as [sm ->]. destruct (format_02_por d) as [sd' ->].
      cbn [bind]. eauto.
Qed.




(** ** Day without month (C4) *)

(** A string that matches the pattern has a day group only inside a
    month group. *)
Lemma DATE_PATTERN_day_needs_month s y m d :
  DATE_PATTERN_match s = Some (y, m, d) -> m = PNone -> d = PNone.
Proof.
  unfold DATE_PATTERN_match.
  destruct (take_digits 4 s) as [[ys r1]|]; [|discriminate].
  destruct (take_sep_digits r1) as [[ms r2]|].
  - destruct (take_sep_digits r2) as [[ds r3]|].
    + destruct (at_dollar r3); [intros H; injection H as <- <- <-; discriminate|].
      destruct (at_dollar r2); [intros H; injection H as <- <- <-; discriminate|].
      destruct (at_dollar r1); [|discriminate].
      intros H _. now injection H as <- <- <-.
    + destruct (at_dollar r2); [intros H; injection H as <- <- <-; discriminate|].
      destruct (at_dollar r1); [|discriminate].
      intros H _. now injection H as <- <- <-.
  - destruct (at_dollar r1); [|discriminate].
    intros H _. now injection H as <- <- <-.
Qed.

(** C4, as the code has it.  With structured fields in which the month
    is not supplied and the day is: construction fails with the
    day-requires-month error when a year is supplied, and with the
    missing-year error when the year is not supplied either, as in
    [FuzzyDate(d=15)].  A string that matches the pattern never has a
    day group without a month group. *)
Theorem day_without_month y m d :
  absent m -> present d ->
  (truthy y = true -> from_fields y m d = Raise DayWithoutMonth) /\
  (absent y -> from_fields y m d = Raise MissingYear) /\
  (forall s y' m' d',
     DATE_PATTERN_match s = Some (y', m', d') -> m' = PNone -> d' = PNone).
Proof.
  intros Hm [Td _].
  assert (Tm : truthy m = false) by (destruct Hm as [->| ->]; reflexivity).
  rewrite from_fields_eq, validate_eq.
  split; [|split].
  - intros Ty. now rewrite Ty, Td, Tm.
  - intros Hy. destruct Hy as [->| ->]; reflexivity.
  - apply DATE_PATTERN_day_needs_month.
Qed.

Lemma day_without_month_witness :
  from_fields (PInt 2021) PNone (PInt 15) = Raise DayWithoutMonth /\
  from_fields PNone PNone (PInt 15) = Raise MissingYear.
Proof.
  assert (Hm : absent PNone) by (left; reflexivity).
  assert (Hd : present (PInt 15)) by (split; [reflexivity | discriminate]).
  split.
  - apply (day_without_month (PInt 2021) PNone (PInt 15) Hm Hd). reflexivity.
  - apply (day_without_month PNone PNone (PInt 15) Hm Hd). left. reflexivity.
Defined.

(** C4 as stated fails: with neither year nor month, a day alone is
    reported as a missing year. *)
Lemma day_alone_reports_missing_year :
  from_fields PNone PNone (PInt 15) = Raise MissingYear /\
  from_fields PNone PNone (PInt 15) <> Raise DayWithoutMonth.
Proof. split; [reflexivity | discriminate]. Qed.

(** The string form of a day without a month, with the placeholder
    "00" in the month position, is not rejected: the placeholder is a
    non-empty string, and the value is built with a day and no month. *)
Lemma placeholder_month_with_day_accepted :
  from_str "2001.00.15" = Ok (mkFuzzyDate "2001.00.15" "2001" "" "15") /\
  is_fuzzy (mkFuzzyDate "2001.00.15" "2001" "" "15") = false /\
  as_date (mkFuzzyDate "2001.00.15" "2001" "" "15") PNone = Raise InvalidLiteral.
Proof. repeat split. Qed.

(** ** Malformed input (C5) *)

Lemma int_of_str_raises s e : int_of_str s = Raise e -> e = InvalidLiteral.
Proof.
  unfold int_of_str.
  destruct (strip_sign (skip_space s)) as [neg s2].
  destruct (parse_digits s2);
    [destruct (count_digits s2 <=? int_max_str_digits); [discriminate|]|];
    intros H; now injection H.
Qed.

(** A numeral of more digits than the limit is refused. *)
Lemma int_of_str_over_limit s :
  int_max_str_digits < count_digits (snd (strip_sign (skip_space s))) ->
  int_of_str s = Raise InvalidLiteral.
Proof.
  unfold int_of_str.
  destruct (strip_sign (skip_space s)) as [neg s2]. cbn [snd]. intros H.
  destruct (parse_digits s2); [|reflexivity].
  now rewrite (proj2 (Z.leb_gt _ _) H).
Qed.

Lemma int_raises v e : int v = Raise e -> validation_error e = true.
Proof.
  destruct v as [|z|s]; simpl.
  - intros H. now injection H as <-.
  - discriminate.
  - intros H. apply int_of_str_raises in H. now subst.
Qed.

Lemma field_int_raises v e : field_int v = Raise e -> validation_error e = true.
Proof.
  unfold field_int. destruct (pne _ _); [apply int_raises | discriminate].
Qed.

Lemma validate_raises y m d e :
  validate y m d = Raise e -> validation_error e = true.
Proof.
  rewrite validate_eq.
  destruct (truthy y); cbn [negb]; [|intros H; now injection H as <-].
  destruct (truthy d && negb (truthy m)); [intros H; now injection H as <-|].
  destruct (int y) as [iy|e1] eqn:Hy; cbn [bind];
    [|intros H; injection H as <-; now apply int_raises in Hy].
  destruct (field_int m) as [im|e1] eqn:Hm; cbn [bind];
    [|intros H; injection H as <-; now apply field_int_raises in Hm].
  destruct (field_int d) as [id|e1] eqn:Hd; cbn [bind];
    [|intros H; injection H as <-; now apply field_int_raises in Hd].
  destruct ((iy <? 1000) || (iy >? 9999)); [intros H; now injection H as <-|].
  destruct (mk_date iy im id) as [dt|e1] eqn:Hdt; cbn [bind];
    [|intros H; injection H as <-;
      now destruct (mk_date_raises _ _ _ _ Hdt) as [-> | ->]].
  destruct (format_02_por m) as [sm ->]. destruct (format_02_por d) as [sd ->].
  discriminate.
Qed.

(** C5, as the code has it.  The malformed-input error is raised for
    exactly the non-empty strings that do not match the pattern.  The
    string "2021-13" matches it, with month group "13", and is
    rejected by the calendar check. *)
Theorem malformed_input s :
  s <> "" ->
  (from_str s = Raise MalformedInput <-> DATE_PATTERN_match s = None) /\
  DATE_PATTERN_match "2021-13" = Some (PStr "2021", PStr "13", PNone) /\
  from_str "2021-13" = Raise InvalidCalendarDate.
Proof.
  intros Hs. split; [|split; reflexivity].
  unfold from_str, CustomMeta_call, read_fields.
  cbn [seed_truthy]. rewrite (proj2 (truthy_PStr s) Hs).
  destruct (DATE_PATTERN_match s) as [[[y m] d]|]; cbn [bind].
  - split; [|discriminate].
    intros H. apply validate_raises in H. discriminate.
  - split; reflexivity.
Qed.

Lemma malformed_input_witness :
  from_str "2021-1" = Raise MalformedInput /\
  from_str "2021-13" = Raise InvalidCalendarDate.
Proof.
  assert (N : "2021-1" <> "") by discriminate.
  destruct (malformed_input "2021-1" N) as (H1 & _ & H3).
  split; [apply H1; reflexivity | exact H3].
Defined.

(** C5 as stated fails: "2021-13" is not reported as malformed. *)
Lemma month_13_string_is_not_malformed :
  from_str "2021-13" = Raise InvalidCalendarDate /\
  from_str "2021-13" <> Raise MalformedInput.
Proof. split; [reflexivity | discriminate]. Qed.

(** ** Zero and the year range (C6, C10) *)

(** C6 at the input [FuzzyDate(y=0)].  The integer year 0 lies outside
    [1000, 9999], yet the error raised is the missing-year one: the
    test [not year] is true of 0.  The same year written as a string,
    as a field or as a seed, does raise the year-out-of-range error. *)
Theorem year_zero_reported_missing :
  int (PInt 0) = Ok 0 /\
  from_fields (PInt 0) PNone PNone = Raise MissingYear /\
  from_fields (PInt 0) (PInt 2) (PInt 14) = Raise MissingYear /\
  from_fields (PStr "0") PNone PNone = Raise YearOutOfRange /\
  from_str "0000" = Raise YearOutOfRange.
Proof. repeat split. Qed.

(** Apart from the falsy year, the year-out-of-range error is raised
    exactly for the years outside [1000, 9999]: once a year is
    supplied, the day-without-month check passes and the three fields
    convert to integers, whatever the calendar says of month and day. *)
Lemma year_out_of_range_iff sd kw y m d iy im id :
  read_fields sd kw = Ok (y, m, d) ->
  truthy y = true -> (truthy d = true -> truthy m = true) ->
  int y = Ok iy -> field_int m = Ok im -> field_int d = Ok id ->
  (CustomMeta_call sd kw = Raise YearOutOfRange <-> iy < 1000 \/ 9999 < iy).
Proof.
  intros Hr Ty Hdm Hy Hm Hd.
  destruct (checks_in_order sd kw y m d Hr) as (_ & _ & H).
  destruct (H Ty Hdm iy im id Hy Hm Hd) as (Hout & Hover & Hbad & Hgood).
  split; [|exact Hout].
  intros E.
  destruct (Z.lt_ge_cases iy 1000) as [|Hlo]; [now left|].
  destruct (Z.lt_ge_cases 9999 iy) as [|Hhi]; [now right|].
  assert (Hin : 1000 <= iy <= 9999) by lia.
  destruct (valid_date iy im id) eqn:Hv.
  - destruct (Hgood Hin eq_refl) as [v Hv']. congruence.
  - destruct (fits_c_int im && fits_c_int id) eqn:Hf.
    + specialize (Hbad Hin eq_refl eq_refl). congruence.
    + specialize (Hover Hin eq_refl). congruence.
Qed.

(** C10 at the inputs [FuzzyDate(y=2021, m=0)], [FuzzyDate(y=2021,
    m=3, d=0)] and [FuzzyDate(y=0, m=3, d=5)].  An integer 0 is read as
    a field that was not given: a month 0 or a day 0 yields a fuzzy
    value, and a year 0 the missing-year error.  The string "0" in the
    same position is taken as the number 0 and rejected. *)
Theorem zero_fields_read_as_absent :
  from_fields (PInt 2021) (PInt 0) PNone
  = Ok (mkFuzzyDate "2021.00.00" "2021" "" "") /\
  from_fields (PInt 2021) (PInt 3) (PInt 0)
  = Ok (mkFuzzyDate "2021.03.00" "2021" "03" "") /\
  from_fields (PInt 0) (PInt 3) (PInt 5) = Raise MissingYear /\
  from_fields (PInt 2021) (PInt 0) (PInt 5) = Raise DayWithoutMonth /\
  from_fields (PInt 2021) (PStr "0") PNone = Raise InvalidCalendarDate /\
  from_fields (PInt 2021) (PInt 3) (PStr "0") = Raise InvalidCalendarDate.
Proof. repeat split. Qed.

(** ** Strings of digits *)

Lemma digits_0 s : digits 0 s -> s = "".
Proof. unfold digits. simpl. intros H. now injection H. Qed.

Lemma digits_S n s :
  digits (S n) s -> exists c r, s = String c r /\ is_digit c = true /\ digits n r.
Proof.
  unfold digits. simpl. destruct s as [|c r]; [discriminate|].
  destruct (is_digit c) eqn:Hc; [|discriminate].
  destruct (take_digits n r) as [[ds r']|] eqn:E; [|discriminate].
  intros H. injection H as -> ->. eauto.
Qed.

Lemma digits_cons n c r :
  is_digit c = true -> digits n r -> digits (S n) (String c r).
Proof.
  unfold digits. intros Hc Hr. simpl. now rewrite Hc, Hr.
Qed.

Lemma digits_length n s : digits n s -> String.length s = n.
Proof.
  revert s. induction n as [|n IH]; intros s H.
  - apply digits_0 in H. now subst.
  - apply digits_S in H as (c & r & -> & _ & Hr). simpl. f_equal. auto.
Qed.

Lemma append_empty_r s : s ++ "" = s.
Proof. induction s as [|c s IH]; simpl; [reflexivity | now rewrite IH]. Qed.

Lemma take_digits_app n a r : digits n a -> take_digits n (a ++ r) = Some (a, r).
Proof.
  revert a. induction n as [|n IH]; intros a H.
  - apply digits_0 in H. now subst.
  - apply digits_S in H as (c & a' & -> & Hc & Ha). simpl.
    now rewrite Hc, (IH a' Ha).
Qed.

Lemma take_digits_sound n s a r :
  take_digits n s = Some (a, r) -> digits n a /\ s = a ++ r.
Proof.
  revert s a r. induction n as [|n IH]; intros s a r; simpl.
  - intros H. injection H as <- <-. split; reflexivity.
  - destruct s as [|c s']; [discriminate|].
    destruct (is_digit c) eqn:Hc; [|discriminate].
    destruct (take_digits n s') as [[ds r']|] eqn:E; [|discriminate].
    intros H. injection H as <- <-.
    destruct (IH _ _ _ E) as [Hd ->].
    split; [now apply digits_cons | reflexivity].
Qed.

(** A digit is neither whitespace nor a sign, and counts from 0 to 9
    in the order of the code points. *)
Lemma digit_char c :
  is_digit c = true ->
  is_space c = false /\ (c =? "-")%char = false /\ (c =? "+")%char = false /\
  0 <= digit_val c <= 9.
Proof.
  destruct c as [b0 b1 b2 b3 b4 b5 b6 b7].
  destruct b0, b1, b2, b3, b4, b5, b6, b7; vm_compute;
    first [discriminate | intros _; repeat split; discriminate].
Qed.

Lemma digits_val_bound n s : digits n s -> 0 <= digits_val s < 10 ^ Z.of_nat n.
Proof.
  revert s. induction n as [|n IH]; intros s H.
  - apply digits_0 in H. subst. simpl. lia.
  - apply digits_S in H as (c & r & -> & Hc & Hr).
    apply digit_char in Hc as (_ & _ & _ & Hc).
    specialize (IH r Hr). simpl digits_val.
    rewrite (digits_length n r Hr).
    rewrite Nat2Z.inj_succ, Z.pow_succ_r by lia. nia.
Qed.

Lemma scan_digits_digits n s acc :
  digits n s ->
  scan_digits acc false s = Some (acc * 10 ^ Z.of_nat n + digits_val s).
Proof.
  revert s acc. induction n as [|n IH]; intros s acc H.
  - apply digits_0 in H. subst. simpl. f_equal. lia.
  - apply digits_S in H as (c & r & -> & Hc & Hr).
    cbn [scan_digits]. rewrite Hc. rewrite (IH r _ Hr). f_equal.
    cbn [digits_val]. rewrite (digits_length n r Hr).
    rewrite Nat2Z.inj_succ, Z.pow_succ_r by lia. ring.
Qed.

Lemma count_digits_digits n s : digits n s -> count_digits s = Z.of_nat n.
Proof.
  revert s. induction n as [|n IH]; intros s H.
  - apply digits_0 in H. now subst.
  - apply digits_S in H as (c & r & -> & Hc & Hr).
    cbn [count_digits]. rewrite Hc, (IH r Hr). lia.
Qed.

(** [int] reads a non-empty string of digits, of no more digits than
    the limit, as the number it writes. *)
Lemma int_of_str_digits n s :
  digits (S n) s -> Z.of_nat (S n) <= int_max_str_digits ->
  int_of_str s = Ok (digits_val s).
Proof.
  intros H Hn. pose proof (count_digits_digits _ _ H) as Hcount.
  apply digits_S in H as (c & r & -> & Hc & Hr).
  destruct (digit_char c Hc) as (Hs & Hm & Hp & _).
  unfold int_of_str. simpl skip_space. rewrite Hs.
  unfold strip_sign. rewrite Hm, Hp.
  unfold parse_digits. rewrite Hc.
  rewrite (scan_digits_digits n r _ Hr).
  rewrite Hcount. rewrite (proj2 (Z.leb_le _ _) Hn).
  simpl digits_val. now rewrite (digits_length n r Hr).
Qed.

Lemma int_of_str_digits4 s : digits 4 s -> int_of_str s = Ok (digits_val s).
Proof. intros H. apply (int_of_str_digits 3 s H). unfold int_max_str_digits. lia. Qed.

Lemma int_of_str_digits2 s : digits 2 s -> int_of_str s = Ok (digits_val s).
Proof. intros H. apply (int_of_str_digits 1 s H). unfold int_max_str_digits. lia. Qed.

Lemma digit_compare c c' :
  Ascii.compare c c' = (digit_val c ?= digit_val c').
Proof.
  unfold Ascii.compare, digit_val, code.
  rewrite <- N2Z.inj_compare.
  destruct (Z.compare_spec (Z.of_N (N_of_ascii c)) (Z.of_N (N_of_ascii c')));
    destruct (Z.compare_spec (Z.of_N (N_of_ascii c) - 48) (Z.of_N (N_of_ascii c') - 48));
    first [reflexivity | lia].
Qed.

Lemma compare_positional P u v x y :
  0 <= x < P -> 0 <= y < P ->
  (u * P + x ?= v * P + y) = match u ?= v with Eq => x ?= y | c => c end.
Proof.
  intros Hx Hy.
  destruct (Z.compare_spec u v) as [->|L|G].
  - destruct (Z.compare_spec x y);
      destruct (Z.compare_spec (v * P + x) (v * P + y)); first [reflexivity | lia].
  - assert (u * P + x < v * P + y) by nia. now apply Z.compare_lt_iff.
  - assert (v * P + y < u * P + x) by nia. now apply Z.compare_gt_iff.
Qed.

(** Two strings that start with the same number of digits compare as
    the numbers those digits write, then as what follows. *)
Lemma compare_digits n a b r r' :
  digits n a -> digits n b ->
  String.compare (a ++ r) (b ++ r')
  = match digits_val a ?= digits_val b with
    | Eq => String.compare r r'
    | c => c
    end.
Proof.
  revert a b. induction n as [|n IH]; intros a b Ha Hb.
  - apply digits_0 in Ha, Hb. subst. reflexivity.
  - apply digits_S in Ha as (c & a' & -> & Hc & Ha).
    apply digits_S in Hb as (c' & b' & -> & Hc' & Hb).
    cbn [append String.compare digits_val].
    rewrite (IH a' b' Ha Hb), digit_compare.
    rewrite (digits_length n a' Ha), (digits_length n b' Hb).
    rewrite (compare_positional (10 ^ Z.of_nat n))
      by (eapply digits_val_bound; eassumption).
    destruct (digit_val c ?= digit_val c'); reflexivity.
Qed.

(** ** Values in canonical form *)

Lemma DATE_PATTERN_groups s y m d :
  DATE_PATTERN_match s = Some (y, m, d) ->
  regular_year y /\ regular_part m /\ regular_part d.
Proof.
  unfold DATE_PATTERN_match, take_sep_digits.
  destruct (take_digits 4 s) as [[ys r1]|] eqn:Ey; [|discriminate].
  apply take_digits_sound in Ey as [Hy _].
  assert (Skip : (if at_dollar r1 then Some (PStr ys, PNone, PNone) else None)
                 = Some (y, m, d) ->
                 regular_year y /\ regular_part m /\ regular_part d).
  { destruct (at_dollar r1); [|discriminate].
    intros H. injection H as <- <- <-. simpl. auto. }
  destruct (take_sep r1) as [r1'|]; [|exact Skip].
  destruct (take_digits 2 r1') as [[ms r2]|] eqn:Em; [|exact Skip].
  apply take_digits_sound in Em as [Hm _].
  assert (Skip2 : (if at_dollar r2 then Some (PStr ys, PStr ms, PNone)
                   else if at_dollar r1 then Some (PStr ys, PNone, PNone) else None)
                  = Some (y, m, d) ->
                  regular_year y /\ regular_part m /\ regular_part d).
  { destruct (at_dollar r2); [|exact Skip].
    intros H. injection H as <- <- <-. simpl. auto. }
  destruct (take_sep r2) as [r2'|]; [|exact Skip2].
  destruct (take_digits 2 r2') as [[ds r3]|] eqn:Ed; [|exact Skip2].
  apply take_digits_sound in Ed as [Hd _].
  destruct (at_dollar r3); [|exact Skip2].
  intros H. injection H as <- <- <-. simpl. auto.
Qed.

Lemma read_fields_regular sd kw y m d :
  regular_input sd kw -> read_fields sd kw = Ok (y, m, d) ->
  regular_year y /\ regular_part m /\ regular_part d.
Proof.
  unfold read_fields. intros Hreg.
  destruct (seed_truthy sd) eqn:T.
  - destruct sd as [[|z|s]|dt]; simpl in T.
    + discriminate T.
    + discriminate.
    + destruct (DATE_PATTERN_match s) as [[[y' m'] d']|] eqn:E; [|discriminate].
      intros H. injection H as <- <- <-. eapply DATE_PATTERN_groups; eauto.
    + intros H. injection H as <- <- <-. simpl. auto.
  - destruct Hreg as [|Hreg]; [congruence|].
    intros H. injection H as <- <- <-. exact Hreg.
Qed.

Lemma regular_year_digits y iy :
  regular_year y -> truthy y = true -> int y = Ok iy -> 1000 <= iy <= 9999 ->
  digits 4 (format_plain y).
Proof.
  intros Hreg Ty Hy Hr. destruct y as [|z|s]; simpl in *; try discriminate.
  - injection Hy as ->. now destruct (year_numeral iy Hr) as (_ & _ & H).
  - assumption.
Qed.

Lemma digits_1_pad s : digits 1 s -> digits 2 (pad02 s).
Proof.
  intros H. apply digits_S in H as (c & r & -> & Hc & Hr).
  apply digits_0 in Hr. subst r. unfold pad02. simpl.
  apply digits_cons; [reflexivity|].
  apply digits_cons; [assumption | reflexivity].
Qed.

Lemma regular_part_digits f i s :
  regular_part f -> field_int f = Ok i -> 1 <= i <= 31 ->
  format_02 (por f (PStr fuzzy_value)) = Ok s -> digits 2 s.
Proof.
  unfold field_int, por. intros Hreg Hi Hb Hs.
  destruct (truthy f) eqn:Tf.
  - destruct f as [|z|t]; simpl in *; try discriminate.
    + injection Hi as ->. injection Hs as <-.
      now destruct (part_numeral i Hb) as (_ & _ & _ & H).
    + injection Hs as <-. destruct Hreg as [H1|H2].
      * now apply digits_1_pad.
      * rewrite pad02_long; [assumption|].
        rewrite (digits_length 2 t H2). lia.
  - simpl in Hs. injection Hs as <-. reflexivity.
Qed.

Lemma new_canonical ys ms ds :
  digits 4 ys -> digits 2 ms -> digits 2 ds ->
  canonical_parts (FuzzyDate_new ys ms ds) /\
  String.length (canonical (FuzzyDate_new ys ms ds)) = 10%nat.
Proof.
  intros Hy Hm Hd. split.
  - unfold canonical_parts, FuzzyDate_new. simpl.
    split; [assumption|]. split.
    + destruct (ms =? "00")%string; auto.
    + destruct (ds =? "00")%string; auto.
  - apply digits_S in Hy as (a & r & -> & _ & Hy).
    apply digits_S in Hy as (b & r' & -> & _ & Hy).
    apply digits_S in Hy as (c & r'' & -> & _ & Hy).
    apply digits_S in Hy as (d & r''' & -> & _ & Hy).
    apply digits_0 in Hy. subst.
    apply digits_S in Hm as (e & r & -> & _ & Hm).
    apply digits_S in Hm as (f & r' & -> & _ & Hm).
    apply digits_0 in Hm. subst.
    apply digits_S in Hd as (g & r & -> & _ & Hd).
    apply digits_S in Hd as (h & r' & -> & _ & Hd).
    apply digits_0 in Hd. subst.
    reflexivity.
Qed.

(** Every value built from a regular input is in canonical form, and
    its text has 10 characters: the claim of C2 on these inputs. *)
Lemma regular_input_canonical sd kw v :
  regular_input sd kw -> CustomMeta_call sd kw = Ok v ->
  canonical_parts v /\ String.length (canonical v) = 10%nat.
Proof.
  intros Hreg H. unfold CustomMeta_call in H.
  apply bind_ok in H as ([[y m] d] & Hr & H).
  destruct (read_fields_regular sd kw y m d Hreg Hr) as (Ry & Rm & Rd).
  apply validate_ok in H
    as (Ty & _ & iy & im & id & sm & sd' & Hy & Hm & Hd & Hrg & Hv & Hsm & Hsd & ->).
  pose proof (valid_date_bounds _ _ _ Hv) as (_ & Hbm & Hbd).
  pose proof (days_in_month_bounds iy im Hbm) as Hdim.
  apply new_canonical.
  - eapply regular_year_digits; eauto.
  - eapply (regular_part_digits m im); eauto. lia.
  - eapply (regular_part_digits d id); eauto. lia.
Qed.

(** A constructed value in canonical form was built from a 4-digit
    year and 2-digit month and day strings. *)
Lemma canonical_constructed v :
  constructed v -> canonical_parts v ->
  exists ys ms ds iy im id,
    v = FuzzyDate_new ys ms ds /\
    digits 4 ys /\ digits 2 ms /\ digits 2 ds /\
    int_of_str ys = Ok iy /\ 1000 <= iy <= 9999 /\
    part_int ms = Ok im /\ part_int ds = Ok id /\
    valid_date iy im id = true.
Proof.
  intros (ys & ms & ds & iy & im & id & -> & Ny & Hy & Hr & Pm & Pd & Lm & Ld & Hv).
  intros (Cy & Cm & Cd). simpl in Cy.
  rewrite month_of_new in Cm. rewrite day_of_new in Cd.
  exists ys, ms, ds, iy, im, id. repeat split; auto; try lia.
  - destruct (String.eqb_spec ms fuzzy_value) as [->|_]; [reflexivity|].
    destruct Cm as [->|Cm]; [simpl in Lm; lia | assumption].
  - destruct (String.eqb_spec ds fuzzy_value) as [->|_]; [reflexivity|].
    destruct Cd as [->|Cd]; [simpl in Ld; lia | assumption].
Qed.

(** ** Round trip and sorting on canonical forms *)

Lemma DATE_PATTERN_canonical ys ms ds :
  digits 4 ys -> digits 2 ms -> digits 2 ds ->
  DATE_PATTERN_match (ys ++ "." ++ ms ++ "." ++ ds)
  = Some (PStr ys, PStr ms, PStr ds).
Proof.
  intros Hy Hm Hd. unfold DATE_PATTERN_match.
  rewrite (take_digits_app 4 ys _ Hy).
  unfold take_sep_digits. cbn [append take_sep Ascii.eqb Bool.eqb orb].
  rewrite (take_digits_app 2 ms _ Hm).
  cbn [append take_sep Ascii.eqb Bool.eqb orb].
  unfold digits in Hd. rewrite Hd. reflexivity.
Qed.

(** Constructing from the text of a value in canonical form gives the
    value back: the claim of C9 on canonical forms. *)
Lemma canonical_roundtrip sd kw v :
  CustomMeta_call sd kw = Ok v -> canonical_parts v ->
  from_str (canonical v) = Ok v.
Proof.
  intros H Hc. apply call_constructed in H.
  destruct (canonical_constructed v H Hc)
    as (ys & ms & ds & iy & im & id & -> & Dy & Dm & Dd & Hy & Hr & Pm & Pd & Hv).
  unfold from_str, CustomMeta_call, read_fields. cbn [canonical FuzzyDate_new].
  assert (Ny : ys <> "").
  { intros E. apply digits_length in Dy. subst ys. discriminate. }
  assert (T : seed_truthy (SeedVal (PStr (ys ++ "." ++ ms ++ "." ++ ds))) = true).
  { destruct ys as [|c r]; [contradiction|reflexivity]. }
  rewrite T, (DATE_PATTERN_canonical ys ms ds Dy Dm Dd). cbn [bind].
  apply (validate_strings ys ms ds iy im id); auto.
  - rewrite (digits_length 2 ms Dm). lia.
  - rewrite (digits_length 2 ds Dd). lia.
Qed.

Lemma int_or_0_part s :
  digits 2 s ->
  int_or_0 (if (s =? fuzzy_value)%string then "" else s) = Ok (digits_val s).
Proof.
  intros H. destruct (String.eqb_spec s fuzzy_value) as [->|N].
  - reflexivity.
  - unfold int_or_0.
    destruct (String.eqb_spec s "") as [->|_]; [discriminate H|].
    now apply int_of_str_digits2.
Qed.

Lemma numeric_of_canonical ys ms ds :
  digits 4 ys -> digits 2 ms -> digits 2 ds ->
  numeric_triple (FuzzyDate_new ys ms ds)
  = Ok (digits_val ys, digits_val ms, digits_val ds).
Proof.
  intros Hy Hm Hd. unfold numeric_triple.
  rewrite month_of_new, day_of_new. cbn [year FuzzyDate_new].
  rewrite (int_of_str_digits4 ys Hy), (int_or_0_part ms Hm), (int_or_0_part ds Hd).
  reflexivity.
Qed.

Lemma compare_canonical ys ms ds ys' ms' ds' :
  digits 4 ys -> digits 2 ms -> digits 2 ds ->
  digits 4 ys' -> digits 2 ms' -> digits 2 ds' ->
  String.compare (ys ++ "." ++ ms ++ "." ++ ds) (ys' ++ "." ++ ms' ++ "." ++ ds')
  = match digits_val ys ?= digits_val ys' with
    | Eq => match digits_val ms ?= digits_val ms' with
            | Eq => digits_val ds ?= digits_val ds'
            | c => c
            end
    | c => c
    end.
Proof.
  intros Hy Hm Hd Hy' Hm' Hd'.
  rewrite (compare_digits 4 ys ys' _ _ Hy Hy').
  change (String.compare ("." ++ ms ++ "." ++ ds) ("." ++ ms' ++ "." ++ ds'))
    with (String.compare (ms ++ "." ++ ds) (ms' ++ "." ++ ds')).
  rewrite (compare_digits 2 ms ms' _ _ Hm Hm').
  change (String.compare ("." ++ ds) ("." ++ ds')) with (String.compare ds ds').
  rewrite <- (append_empty_r ds) at 1. rewrite <- (append_empty_r ds') at 1.
  rewrite (compare_digits 2 ds ds' "" "" Hd Hd'). cbn [String.compare].
  destruct (digits_val ys ?= digits_val ys'); try reflexivity.
  destruct (digits_val ms ?= digits_val ms'); try reflexivity.
  destruct (digits_val ds ?= digits_val ds'); reflexivity.
Qed.

Lemma triple_lt_compare y1 m1 d1 y2 m2 d2 :
  triple_lt (y1, m1, d1) (y2, m2, d2)
  = match (match y1 ?= y2 with
           | Eq => match m1 ?= m2 with Eq => d1 ?= d2 | c => c end
           | c => c
           end) with
    | Lt => true
    | _ => false
    end.
Proof.
  unfold triple_lt.
  destruct (Z.compare_spec y1 y2), (Z.compare_spec m1 m2), (Z.compare_spec d1 d2);
    destruct (Z.ltb_spec y1 y2), (Z.eqb_spec y1 y2),
             (Z.ltb_spec m1 m2), (Z.eqb_spec m1 m2), (Z.ltb_spec d1 d2);
    simpl; first [reflexivity | lia].
Qed.

(** Two values in canonical form compare as strings the way their
    numeric triples compare: the claim of C1 on canonical forms. *)
Lemma canonical_sorting sd1 kw1 v1 sd2 kw2 v2 :
  CustomMeta_call sd1 kw1 = Ok v1 -> canonical_parts v1 ->
  CustomMeta_call sd2 kw2 = Ok v2 -> canonical_parts v2 ->
  exists t1 t2,
    numeric_triple v1 = Ok t1 /\ numeric_triple v2 = Ok t2 /\
    str_lt (canonical v1) (canonical v2) = triple_lt t1 t2.
Proof.
  intros H1 C1 H2 C2.
  apply call_constructed in H1, H2.
  destruct (canonical_constructed v1 H1 C1)
    as (ys & ms & ds & _ & _ & _ & -> & Dy & Dm & Dd & _).
  destruct (canonical_constructed v2 H2 C2)
    as (ys' & ms' & ds' & _ & _ & _ & -> & Dy' & Dm' & Dd' & _).
  rewrite !numeric_of_canonical by assumption.
  eexists _, _. split; [reflexivity|]. split; [reflexivity|].
  unfold str_lt, String.ltb. cbn [canonical FuzzyDate_new].
  rewrite compare_canonical by assumption.
  now rewrite triple_lt_compare.
Qed.

Example ex_sorting :
  str_lt "1985.00.00" "1985.02.00" = true /\
  str_lt "1985.02.00" "1985.02.14" = true.
Proof. split; reflexivity. Qed.

(** ** Fields given as numerals that are not canonical (C1, C2, C9) *)

(** C2 at the input [FuzzyDate(y="02021")].  [int] accepts the numeral
    and finds 2021 in range; the year is then stored as it was given,
    and the text of the value has 11 characters.  Likewise a month
    "003" is stored as "003". *)
Theorem noncanonical_numeral_stored_verbatim :
  int_of_str "02021" = Ok 2021 /\
  from_fields (PStr "02021") PNone PNone
  = Ok (mkFuzzyDate "02021.00.00" "02021" "" "") /\
  String.length "02021.00.00" = 11%nat /\
  from_fields (PStr "2021") (PStr "003") PNone
  = Ok (mkFuzzyDate "2021.003.00" "2021" "003" "").
Proof. repeat split. Qed.

(** C1 at the inputs [FuzzyDate(y="02021")] and [FuzzyDate(y="1999")].
    The first sorts before the second as a string, and after it as a
    triple of numbers. *)
Theorem noncanonical_year_breaks_sorting :
  from_fields (PStr "02021") PNone PNone
  = Ok (mkFuzzyDate "02021.00.00" "02021" "" "") /\
  from_fields (PStr "1999") PNone PNone
  = Ok (mkFuzzyDate "1999.00.00" "1999" "" "") /\
  str_lt "02021.00.00" "1999.00.00" = true /\
  numeric_triple (mkFuzzyDate "02021.00.00" "02021" "" "") = Ok (2021, 0, 0) /\
  numeric_triple (mkFuzzyDate "1999.00.00" "1999" "" "") = Ok (1999, 0, 0) /\
  triple_lt (2021, 0, 0) (1999, 0, 0) = false.
Proof. repeat split. Qed.

(** C9 at the input [FuzzyDate(y="02021")].  The text of the value
    does not match the pattern, so that constructing from it fails. *)
Theorem noncanonical_year_not_reparsed :
  from_fields (PStr "02021") PNone PNone
  = Ok (mkFuzzyDate "02021.00.00" "02021" "" "") /\
  DATE_PATTERN_match "02021.00.00" = None /\
  from_str "02021.00.00" = Raise MalformedInput.
Proof. repeat split. Qed.

(** ** The texts that [DATE_PATTERN] matches: soundness and completeness *)

Lemma take_sep_sound s r :
  take_sep s = Some r -> exists c, s = String c r /\ is_sep c.
Proof.
  destruct s as [|c s']; simpl; [discriminate|].
  destruct (Ascii.eqb_spec c ".") as [->|N1]; simpl.
  - intros H. injection H as <-. exists "."%char. split; [reflexivity | now left].
  - destruct (Ascii.eqb_spec c "-") as [->|N2]; simpl.
    + intros H. injection H as <-. exists "-"%char.
      split; [reflexivity | right; now left].
    + destruct (Ascii.eqb_spec c "/") as [->|N3]; [|discriminate].
      intros H. injection H as <-. exists "/"%char.
      split; [reflexivity | right; now right].
Qed.

Lemma take_sep_complete c r : is_sep c -> take_sep (String c r) = Some r.
Proof. intros [->|[->| ->]]; reflexivity. Qed.

Lemma at_dollar_line_end s : at_dollar s = true <-> line_end s.
Proof.
  unfold line_end. destruct s as [|c [|c' r]]; simpl.
  - split; auto.
  - split.
    + intros H. apply Ascii.eqb_eq in H. subst. now right.
    + intros [H|H]; [discriminate|]. injection H as ->. reflexivity.
  - split; [discriminate|]. intros [H|H]; discriminate.
Qed.

Lemma line_end_no_sep nl : line_end nl -> take_sep_digits nl = None.
Proof. intros [->| ->]; reflexivity. Qed.

Lemma take_sep_digits_sound s m r :
  take_sep_digits s = Some (m, r) ->
  exists a, s = String a (m ++ r) /\ is_sep a /\ digits 2 m.
Proof.
  unfold take_sep_digits.
  destruct (take_sep s) as [r1|] eqn:E; [|discriminate].
  apply take_sep_sound in E as (a & -> & Ha).
  intros H. apply take_digits_sound in H as [Hm ->]. eauto.
Qed.

Lemma take_sep_digits_complete a m r :
  is_sep a -> digits 2 m -> take_sep_digits (String a (m ++ r)) = Some (m, r).
Proof.
  intros Ha Hm. unfold take_sep_digits.
  rewrite (take_sep_complete a _ Ha). now apply take_digits_app.
Qed.

(** [$] does not match in front of a separator and two digits. *)
Lemma at_dollar_group a m r : digits 2 m -> at_dollar (String a (m ++ r)) = false.
Proof.
  intros Hm. apply digits_S in Hm as (c & m' & -> & _ & _). reflexivity.
Qed.

(** [DATE_PATTERN.match] succeeds on exactly the three shapes of
    [date_text], with the groups they name. *)
Lemma DATE_PATTERN_match_iff s g :
  DATE_PATTERN_match s = Some g <-> date_text s g.
Proof.
  split.
  - unfold DATE_PATTERN_match.
    destruct (take_digits 4 s) as [[y r1]|] eqn:Ey; [|discriminate].
    apply take_digits_sound in Ey as [Hy ->].
    destruct (take_sep_digits r1) as [[m r2]|] eqn:Em.
    + apply take_sep_digits_sound in Em as (a & -> & Ha & Hm).
      rewrite (at_dollar_group a m r2 Hm).
      destruct (take_sep_digits r2) as [[d r3]|] eqn:Ed.
      * apply take_sep_digits_sound in Ed as (b & -> & Hb & Hd).
        rewrite (at_dollar_group b d r3 Hd).
        destruct (at_dollar r3) eqn:E3; [|discriminate].
        intros H. injection H as <-.
        apply at_dollar_line_end in E3. now constructor.
      * destruct (at_dollar r2) eqn:E2; [|discriminate].
        intros H. injection H as <-.
        apply at_dollar_line_end in E2. now constructor.
    + destruct (at_dollar r1) eqn:E1; [|discriminate].
      intros H. injection H as <-.
      apply at_dollar_line_end in E1. now constructor.
  - intros H. unfold DATE_PATTERN_match.
    destruct H as [y nl Hy Hnl | y a m nl Hy Ha Hm Hnl | y a m b d nl Hy Ha Hm Hb Hd Hnl];
      rewrite (take_digits_app 4 y _ Hy).
    + rewrite (line_end_no_sep nl Hnl).
      now rewrite (proj2 (at_dollar_line_end nl) Hnl).
    + rewrite (take_sep_digits_complete a m nl Ha Hm).
      rewrite (line_end_no_sep nl Hnl).
      now rewrite (proj2 (at_dollar_line_end nl) Hnl).
    + rewrite (take_sep_digits_complete a m _ Ha Hm).
      rewrite (take_sep_digits_complete b d nl Hb Hd).
      now rewrite (proj2 (at_dollar_line_end nl) Hnl).
Qed.

(** X1.  [DATE_PATTERN.match(s)] succeeds exactly when [s] is a
    4-digit year, optionally followed by a separator and a 2-digit
    month, optionally followed by a separator and a 2-digit day, and
    then by nothing or by one final newline; the groups are the
    digit strings, with None for a part that is not there. *)
Theorem date_pattern_matches_exactly s g :
  DATE_PATTERN_match s = Some g <-> date_text s g.
Proof. apply DATE_PATTERN_match_iff. Qed.

(** ** Strings, integers and dates as constructor input *)

(** A non-empty string seed is handled as its groups are as fields. *)
Lemma from_str_groups s y m d :
  s <> "" -> DATE_PATTERN_match s = Some (y, m, d) ->
  from_str s = from_fields y m d.
Proof.
  intros Hs Hg. unfold from_str, from_fields, CustomMeta_call, read_fields.
  cbn [seed_truthy]. rewrite (proj2 (truthy_PStr s) Hs), Hg. reflexivity.
Qed.

Lemma digits_nonempty n s : digits (S n) s -> s <> "".
Proof. intros H. apply digits_S in H as (c & r & -> & _). discriminate. Qed.

Lemma app_nonempty a b : a <> "" -> a ++ b <> "".
Proof. destruct a; [contradiction | discriminate]. Qed.

(** A matching string is handled as its digit groups are as fields. *)
Lemma from_str_as_fields y a m b d :
  digits 4 y -> is_sep a -> digits 2 m -> is_sep b -> digits 2 d ->
  from_str (y ++ String a (m ++ String b d))
  = from_fields (PStr y) (PStr m) (PStr d) /\
  from_str (y ++ String a m) = from_fields (PStr y) (PStr m) PNone /\
  from_str y = from_fields (PStr y) PNone PNone.
Proof.
  intros Hy Ha Hm Hb Hd.
  assert (L : line_end "") by now left.
  split; [|split]; apply from_str_groups;
    try (apply app_nonempty; exact (digits_nonempty 3 y Hy));
    try exact (digits_nonempty 3 y Hy);
    apply DATE_PATTERN_match_iff.
  - pose proof (text_ymd y a m b d "" Hy Ha Hm Hb Hd L) as T.
    now rewrite append_empty_r in T.
  - pose proof (text_ym y a m "" Hy Ha Hm L) as T.
    now rewrite append_empty_r in T.
  - pose proof (text_y y "" Hy L) as T.
    now rewrite append_empty_r in T.
Qed.

(** X2.  The two separators of a date string may each be any of ".",
    "-" and "/": the string is handled as the fields between them
    are, whatever the separators. *)
Theorem separators_interchangeable y a m b d :
  digits 4 y -> is_sep a -> digits 2 m -> is_sep b -> digits 2 d ->
  from_str (y ++ String a (m ++ String b d))
  = from_fields (PStr y) (PStr m) (PStr d) /\
  from_str (y ++ String a m) = from_fields (PStr y) (PStr m) PNone /\
  from_str y = from_fields (PStr y) PNone PNone.
Proof. apply from_str_as_fields. Qed.

Lemma separators_interchangeable_witness :
  from_str "1985-02/14" = from_fields (PStr "1985") (PStr "02") (PStr "14") /\
  from_str "1985-02" = from_fields (PStr "1985") (PStr "02") PNone /\
  from_str "1985" = from_fields (PStr "1985") PNone PNone.
Proof.
  apply (separators_interchangeable "1985" "-" "02" "/" "14").
  - reflexivity.
  - right. left. reflexivity.
  - reflexivity.
  - right. right. reflexivity.
  - reflexivity.
Defined.

Lemma truthy_PInt z : z <> 0 -> truthy (PInt z) = true.
Proof. intros H. simpl. now destruct (Z.eqb_spec z 0). Qed.

Lemma field_int_PInt z : z <> 0 -> field_int (PInt z) = Ok z.
Proof.
  intros H. unfold field_int, por. now rewrite (truthy_PInt z H).
Qed.

Lemma format_02_PInt z :
  z <> 0 -> format_02 (por (PInt z) (PStr fuzzy_value)) = Ok (pad02 (str_of_int z)).
Proof. intros H. unfold por. now rewrite (truthy_PInt z H). Qed.

Lemma field_int_PNone : field_int PNone = Ok 1.
Proof. reflexivity. Qed.

(** Three integers that make a date from the year 1000 on. *)
Lemma validate_ints Y M D :
  valid_date Y M D = true -> 1000 <= Y ->
  validate (PInt Y) (PInt M) (PInt D)
  = Ok (FuzzyDate_new (str_of_int Y) (pad02 (str_of_int M)) (pad02 (str_of_int D))).
Proof.
  intros Hv HY. pose proof (valid_date_bounds _ _ _ Hv) as (By & Bm & Bd).
  rewrite validate_eq.
  rewrite (truthy_PInt Y), (truthy_PInt M), (truthy_PInt D) by lia.
  cbn [negb andb]. cbn [int bind].
  rewrite (field_int_PInt M), (field_int_PInt D) by lia. cbn [bind].
  rewrite in_range_test by lia.
  rewrite (mk_date_valid _ _ _ Hv). cbn [bind].
  rewrite (format_02_PInt M), (format_02_PInt D) by lia. reflexivity.
Qed.

Lemma validate_year_month Y M :
  valid_date Y M 1 = true -> 1000 <= Y ->
  validate (PInt Y) (PInt M) PNone
  = Ok (FuzzyDate_new (str_of_int Y) (pad02 (str_of_int M)) fuzzy_value).
Proof.
  intros Hv HY. pose proof (valid_date_bounds _ _ _ Hv) as (By & Bm & Bd).
  rewrite validate_eq.
  rewrite (truthy_PInt Y), (truthy_PInt M) by lia.
  cbn [truthy negb andb]. cbn [int bind].
  rewrite (field_int_PInt M) by lia. rewrite field_int_PNone. cbn [bind].
  rewrite in_range_test by lia.
  rewrite (mk_date_valid _ _ _ Hv). cbn [bind].
  rewrite (format_02_PInt M) by lia. reflexivity.
Qed.

Lemma validate_year Y :
  1000 <= Y <= 9999 ->
  validate (PInt Y) PNone PNone
  = Ok (FuzzyDate_new (str_of_int Y) fuzzy_value fuzzy_value).
Proof.
  intros HY. rewrite validate_eq.
  rewrite (truthy_PInt Y) by lia.
  cbn [truthy negb andb]. cbn [int bind]. rewrite field_int_PNone. cbn [bind].
  rewrite in_range_test by lia.
  pose proof (days_in_month_bounds Y 1 ltac:(lia)) as Bn.
  assert (Hv : valid_date Y 1 1 = true) by (apply valid_date_intro; lia).
  rewrite (mk_date_valid _ _ _ Hv). reflexivity.
Qed.

(** X3.  Fields given as integers are stored as their numerals: the
    year as it is written, the month and the day padded to two
    digits, and "00" for a month or a day that is not given.  A year
    alone and a year with a month give fuzzy values; a full date gives
    a value that is not fuzzy. *)
Theorem integer_fields_give_numerals Y M D :
  1000 <= Y <= 9999 ->
  from_fields (PInt Y) PNone PNone
  = Ok (mkFuzzyDate (str_of_int Y ++ ".00.00") (str_of_int Y) "" "") /\
  (valid_date Y M 1 = true ->
   from_fields (PInt Y) (PInt M) PNone
   = Ok (mkFuzzyDate (str_of_int Y ++ "." ++ pad02 (str_of_int M) ++ ".00")
                     (str_of_int Y) (pad02 (str_of_int M)) "")) /\
  (valid_date Y M D = true ->
   from_fields (PInt Y) (PInt M) (PInt D)
   = Ok (mkFuzzyDate
           (str_of_int Y ++ "." ++ pad02 (str_of_int M) ++ "." ++ pad02 (str_of_int D))
           (str_of_int Y) (pad02 (str_of_int M)) (pad02 (str_of_int D)))).
Proof.
  intros HY. rewrite !from_fields_eq. split; [|split].
  - now rewrite validate_year.
  - intros Hv. rewrite validate_year_month by (auto; lia).
    pose proof (valid_date_bounds _ _ _ Hv) as (_ & Bm & _).
    destruct (part_numeral M ltac:(lia)) as (Nm & _).
    unfold FuzzyDate_new. cbn zeta in Nm.
    apply String.eqb_neq in Nm. now rewrite Nm.
  - intros Hv. rewrite validate_ints by (auto; lia).
    pose proof (valid_date_bounds _ _ _ Hv) as (_ & Bm & Bd).
    pose proof (days_in_month_bounds Y M Bm) as Bn.
    destruct (part_numeral M ltac:(lia)) as (Nm & _).
    destruct (part_numeral D ltac:(lia)) as (Nd & _).
    f_equal. now apply FuzzyDate_new_present.
Qed.

Lemma integer_fields_give_numerals_witness :
  from_fields (PInt 2021) PNone PNone
  = Ok (mkFuzzyDate "2021.00.00" "2021" "" "") /\
  from_fields (PInt 2021) (PInt 3) PNone
  = Ok (mkFuzzyDate "2021.03.00" "2021" "03" "") /\
  from_fields (PInt 2021) (PInt 3) (PInt 9)
  = Ok (mkFuzzyDate "2021.03.09" "2021" "03" "09").
Proof.
  assert (HY : 1000 <= 2021 <= 9999) by lia.
  destruct (integer_fields_give_numerals 2021 3 9 HY) as (H1 & H2 & H3).
  split; [exact H1|]. split; [exact (H2 eq_refl) | exact (H3 eq_refl)].
Defined.

Lemma from_date_eq y m d :
  from_date (mkdate y m d) = validate (PInt y) (PInt m) (PInt d).
Proof. reflexivity. Qed.

(** X4.  A calendar date from the year 1000 on is always accepted, the
    value built from it is not fuzzy, and [as_date] gives the same
    date back, whatever its [default] argument.  A date before the
    year 1000 is rejected as out of range. *)
Theorem date_round_trip y m d default :
  valid_date y m d = true ->
  (1000 <= y ->
   exists v,
     from_date (mkdate y m d) = Ok v /\ is_fuzzy v = false /\
     as_date v default = Ok (Some (mkdate y m d))) /\
  (y < 1000 -> from_date (mkdate y m d) = Raise YearOutOfRange).
Proof.
  intros Hv. pose proof (valid_date_bounds _ _ _ Hv) as (By & Bm & Bd).
  pose proof (days_in_month_bounds y m Bm) as Bn.
  rewrite from_date_eq. split.
  - intros Hy. rewrite (validate_ints y m d Hv Hy).
    destruct (year_numeral y ltac:(lia)) as (_ & Iy & _).
    destruct (part_numeral m ltac:(lia)) as (Nm & Lm & Im & _).
    destruct (part_numeral d ltac:(lia)) as (Nd & Ld & Id & _).
    cbv zeta in Nm, Lm, Im, Nd, Ld, Id.
    rewrite (FuzzyDate_new_present _ _ _ Nm Nd).
    eexists. split; [reflexivity|].
    assert (F : is_fuzzy
                  (mkFuzzyDate
                     (str_of_int y ++ "." ++ pad02 (str_of_int m) ++ "."
                                  ++ pad02 (str_of_int d))
                     (str_of_int y) (pad02 (str_of_int m)) (pad02 (str_of_int d)))
                = false).
    { unfold is_fuzzy. cbn [day]. apply String.eqb_neq.
      intros E. rewrite E in Ld. discriminate. }
    split; [exact F|].
    unfold as_date. rewrite F. cbn [bind].
    rewrite (date_of_resolved _ y m d); auto.
  - intros Hy. rewrite validate_eq.
    rewrite (truthy_PInt y), (truthy_PInt m), (truthy_PInt d) by lia.
    cbn [negb andb]. cbn [int bind].
    rewrite (field_int_PInt m), (field_int_PInt d) by lia. cbn [bind].
    replace ((y <? 1000) || (y >? 9999)) with true; [reflexivity|].
    symmetry. apply orb_true_iff. left. now apply Z.ltb_lt.
Qed.

Lemma date_round_trip_witness :
  (exists v,
     from_date (mkdate 1985 2 14) = Ok v /\ is_fuzzy v = false /\
     as_date v PNone = Ok (Some (mkdate 1985 2 14))) /\
  from_date (mkdate 999 12 31) = Raise YearOutOfRange.
Proof.
  split.
  - apply (date_round_trip 1985 2 14 PNone eq_refl). lia.
  - apply (date_round_trip 999 12 31 PNone eq_refl). lia.
Defined.

(** ** Range resolution: fixed points, idempotence and order *)

Lemma str_or_present a b : a <> "" -> str_or a b = a.
Proof. intros H. unfold str_or. now destruct (String.eqb_spec a ""). Qed.

(** A constructed value with month and day is the record of its three
    attributes joined by dots. *)
Lemma exact_value_shape v :
  constructed v -> month v <> "" -> day v <> "" ->
  v = mkFuzzyDate (year v ++ "." ++ month v ++ "." ++ day v)
                  (year v) (month v) (day v).
Proof.
  intros (ys & ms & ds & iy & im & id & -> & _) Hm Hd.
  rewrite month_of_new in Hm. rewrite day_of_new in Hd.
  destruct (String.eqb_spec ms fuzzy_value) as [|Nm]; [contradiction|].
  destruct (String.eqb_spec ds fuzzy_value) as [|Nd]; [contradiction|].
  now rewrite (FuzzyDate_new_present ys ms ds Nm Nd).
Qed.

Lemma exact_value_fixed v :
  constructed v -> month v <> "" -> day v <> "" ->
  get_start v = Ok v /\ get_end v = Ok v.
Proof.
  intros Hc Hm Hd.
  pose proof (exact_value_shape v Hc Hm Hd) as Sh.
  destruct (get_start_constructed v Hc) as (_ & _ & _ & _ & _ & _ & _ & _ & _ & _ & Hs).
  destruct (get_end_constructed v Hc)
    as (iy & im & id & _ & _ & _ & _ & _ & _ & _ & _ & He).
  cbv zeta in Hs, He.
  rewrite !str_or_present in Hs by assumption.
  rewrite str_or_present in He by assumption.
  destruct (String.eqb_spec (day v) "") as [|_]; [contradiction|].
  rewrite <- Sh in Hs, He. auto.
Qed.

Lemma get_start_result_constructed v s : get_start v = Ok s -> constructed s.
Proof. unfold get_start, from_fields. apply call_constructed. Qed.

Lemma get_end_result_constructed v e : get_end v = Ok e -> constructed e.
Proof.
  unfold get_end. intros H. apply bind_ok in H as (d & _ & H).
  unfold from_fields in H. eapply call_constructed; eauto.
Qed.

(** X5.  On a value that has its month and its day, [get_start] and
    [get_end] both return the value itself, and [get_range] the pair
    of the value with itself. *)
Theorem exact_values_resolve_to_themselves sd kw v :
  CustomMeta_call sd kw = Ok v -> month v <> "" -> day v <> "" ->
  get_start v = Ok v /\ get_end v = Ok v /\ get_range v = Ok (v, v).
Proof.
  intros H Hm Hd. apply call_constructed in H.
  destruct (exact_value_fixed v H Hm Hd) as [Hs He].
  split; [exact Hs|]. split; [exact He|].
  unfold get_range. now rewrite Hs, He.
Qed.

Lemma exact_values_resolve_to_themselves_witness :
  get_start (mkFuzzyDate "1985.02.14" "1985" "02" "14")
  = Ok (mkFuzzyDate "1985.02.14" "1985" "02" "14") /\
  get_end (mkFuzzyDate "1985.02.14" "1985" "02" "14")
  = Ok (mkFuzzyDate "1985.02.14" "1985" "02" "14") /\
  get_range (mkFuzzyDate "1985.02.14" "1985" "02" "14")
  = Ok (mkFuzzyDate "1985.02.14" "1985" "02" "14",
        mkFuzzyDate "1985.02.14" "1985" "02" "14").
Proof.
  apply (exact_values_resolve_to_themselves (SeedVal (PStr "1985-02-14")) no_kwargs).
  - reflexivity.
  - discriminate.
  - discriminate.
Defined.

(** X6.  Resolving twice changes nothing: the value returned by
    [get_start] or by [get_end] is returned unchanged by both
    [get_start] and [get_end]. *)
Theorem resolution_idempotent sd kw v r :
  CustomMeta_call sd kw = Ok v ->
  get_start v = Ok r \/ get_end v = Ok r ->
  get_start r = Ok r /\ get_end r = Ok r.
Proof.
  intros H Hr. apply call_constructed in H.
  destruct Hr as [Hr|Hr].
  - pose proof (get_start_result_constructed v r Hr) as Cr.
    destruct (get_start_constructed v H) as (_ & _ & _ & _ & _ & _ & _ & _ & _ & _ & Hs).
    cbv zeta in Hs. rewrite Hs in Hr. injection Hr as <-.
    apply exact_value_fixed; auto; cbn [month day];
      apply str_or_nonempty; discriminate.
  - pose proof (get_end_result_constructed v r Hr) as Cr.
    destruct (get_end_constructed v H)
      as (iy & im & id & _ & _ & _ & _ & _ & _ & Nd & _ & He).
    cbv zeta in He, Nd. rewrite He in Hr. injection Hr as <-.
    apply exact_value_fixed; auto; cbn [month day]; auto.
    apply str_or_nonempty. discriminate.
Qed.

Lemma resolution_idempotent_witness :
  get_start (mkFuzzyDate "1985.12.31" "1985" "12" "31")
  = Ok (mkFuzzyDate "1985.12.31" "1985" "12" "31") /\
  get_end (mkFuzzyDate "1985.12.31" "1985" "12" "31")
  = Ok (mkFuzzyDate "1985.12.31" "1985" "12" "31").
Proof.
  apply (resolution_idempotent (SeedVal (PStr "1985")) no_kwargs
           (mkFuzzyDate "1985.00.00" "1985" "" "")).
  - reflexivity.
  - right. reflexivity.
Defined.

Lemma int_or_0_present s : s <> "" -> int_or_0 s = int_of_str s.
Proof. intros H. unfold int_or_0. now destruct (String.eqb_spec s ""). Qed.

Lemma numeric_triple_exact c y m d iy im id :
  m <> "" -> d <> "" ->
  int_of_str y = Ok iy -> int_of_str m = Ok im -> int_of_str d = Ok id ->
  numeric_triple (mkFuzzyDate c y m d) = Ok (iy, im, id).
Proof.
  intros Nm Nd Hy Hm Hd. unfold numeric_triple. cbn [year month day].
  rewrite !int_or_0_present by assumption. now rewrite Hy, Hm, Hd.
Qed.

Lemma triple_not_lt y m1 d1 m2 d2 :
  m1 < m2 \/ (m1 = m2 /\ d1 <= d2) -> triple_lt (y, m2, d2) (y, m1, d1) = false.
Proof.
  intros H. unfold triple_lt.
  rewrite Z.ltb_irrefl, Z.eqb_refl. cbn [orb andb].
  destruct (Z.ltb_spec m2 m1), (Z.eqb_spec m2 m1), (Z.ltb_spec d2 d1);
    simpl; first [reflexivity | lia].
Qed.

(** X7.  The two ends of the range are in order: [get_start] and
    [get_end] return values of the same year, and the (year, month,
    day) numbers of the end are never before those of the start. *)
Theorem range_is_ordered sd kw v s e :
  CustomMeta_call sd kw = Ok v -> get_range v = Ok (s, e) ->
  exists y ms ds me de,
    numeric_triple s = Ok (y, ms, ds) /\
    numeric_triple e = Ok (y, me, de) /\
    triple_lt (y, me, de) (y, ms, ds) = false.
Proof.
  intros H Hr. apply call_constructed in H.
  unfold get_range in Hr.
  apply bind_ok in Hr as (s' & Hs' & Hr). apply bind_ok in Hr as (e' & He' & Hr).
  injection Hr as <- <-.
  destruct (get_start_constructed v H)
    as (iy & im & id & Hy & _ & Hm & Hd & Am & Ad & Hv & Hs).
  destruct (get_end_constructed v H)
    as (iy' & im' & id' & Hy' & _ & Hm' & Am' & Hd' & Ad' & Nd' & Hv' & He).
  cbv zeta in *.
  rewrite Hs in Hs'. injection Hs' as <-. rewrite He in He'. injection He' as <-.
  rewrite Hy in Hy'. injection Hy' as <-.
  exists iy, im, id, im', id'.
  split; [|split].
  - apply numeric_triple_exact; auto; apply str_or_nonempty; discriminate.
  - apply numeric_triple_exact; auto. apply str_or_nonempty. discriminate.
  - apply triple_not_lt.
    pose proof (valid_date_bounds _ _ _ Hv) as (_ & _ & Bd).
    pose proof (valid_date_bounds _ _ _ Hv') as (_ & Bm' & Bd').
    destruct (String.eqb_spec (month v) "") as [Em|Nm].
    + left. rewrite (Am Em), (Am' Em). lia.
    + right. rewrite !str_or_present in * by assumption.
      rewrite Hm in Hm'. injection Hm' as <-. split; [reflexivity|].
      destruct (String.eqb_spec (day v) "") as [Ed|Nd].
      * rewrite (Ad Ed). lia.
      * rewrite str_or_present in Hd by assumption.
        rewrite Hd in Hd'. injection Hd' as <-. lia.
Qed.

Lemma range_is_ordered_witness :
  exists y ms ds me de,
    numeric_triple (mkFuzzyDate "2000.02.01" "2000" "02" "01") = Ok (y, ms, ds) /\
    numeric_triple (mkFuzzyDate "2000.02.29" "2000" "02" "29") = Ok (y, me, de) /\
    triple_lt (y, me, de) (y, ms, ds) = false.
Proof.
  apply (range_is_ordered (SeedVal (PStr "2000-02")) no_kwargs
           (mkFuzzyDate "2000.02.00" "2000" "02" "")).
  - reflexivity.
  - reflexivity.
Defined.

(** ** The invariant "a day has a month" *)

Lemma call_read_fields sd kw y m d :
  read_fields sd kw = Ok (y, m, d) -> CustomMeta_call sd kw = validate y m d.
Proof. intros H. unfold CustomMeta_call. now rewrite H. Qed.

(** A supplied month or day other than the placeholder string is never
    normalised to the placeholder. *)
Lemma supplied_field_kept f i s :
  truthy f = true -> f <> PStr fuzzy_value ->
  field_int f = Ok i -> 1 <= i <= 31 ->
  format_02 (por f (PStr fuzzy_value)) = Ok s -> s <> fuzzy_value.
Proof.
  unfold field_int, por. intros Tf Nf Hi Hb Hs. rewrite Tf in Hi, Hs.
  destruct f as [|z|t]; simpl in *; try discriminate.
  - injection Hi as ->. injection Hs as <-.
    now destruct (part_numeral i Hb) as (H & _).
  - injection Hs as <-.
    destruct (String.eqb_spec t fuzzy_value) as [->|Nt]; [congruence|].
    simpl in Hi.
    destruct t as [|a [|b t']].
    + discriminate.
    + unfold pad02. simpl. intros E. injection E as ->.
      rewrite int_of_str_0 in Hi. injection Hi as <-. lia.
    + rewrite pad02_long by (simpl; lia). assumption.
Qed.

Lemma absent_field_placeholder f s :
  truthy f = false -> format_02 (por f (PStr fuzzy_value)) = Ok s -> s = fuzzy_value.
Proof.
  unfold por. intros Tf. rewrite Tf. simpl. intros H. now injection H.
Qed.

(** X8.  Unless the month is given as the string "00", every value
    that is constructed with a day has a month: the invariant of the
    data model holds for fields, dates and strings alike, the
    placeholder month excepted. *)
Theorem day_implies_month sd kw y m d v :
  read_fields sd kw = Ok (y, m, d) -> m <> PStr fuzzy_value ->
  CustomMeta_call sd kw = Ok v -> day_has_month v.
Proof.
  intros Hr Nm H. rewrite (call_read_fields sd kw y m d Hr) in H.
  apply validate_ok in H
    as (Ty & Hdm & iy & im & id & sm & sd' & Hy & Hm & Hd & Hrg & Hv & Hsm & Hsd & ->).
  pose proof (valid_date_bounds _ _ _ Hv) as (_ & Bm & Bd).
  unfold day_has_month. rewrite month_of_new, day_of_new.
  intros Hday.
  destruct (truthy d) eqn:Td.
  - specialize (Hdm eq_refl).
    assert (Ns : sm <> fuzzy_value)
      by (apply (supplied_field_kept m im sm); auto; lia).
    destruct (String.eqb_spec sm fuzzy_value) as [|_]; [contradiction|].
    destruct (field_normalised m im sm Hm ltac:(lia) Hsm) as [_ L].
    now apply length_2_nonempty.
  - rewrite (absent_field_placeholder d sd' Td Hsd) in Hday.
    rewrite String.eqb_refl in Hday. contradiction.
Qed.

Lemma day_implies_month_witness :
  day_has_month (mkFuzzyDate "2021.03.09" "2021" "03" "09").
Proof.
  apply (day_implies_month (SeedVal PNone) (mkkwargs (PInt 2021) (PInt 3) (PInt 9))
           (PInt 2021) (PInt 3) (PInt 9)).
  - reflexivity.
  - discriminate.
  - reflexivity.
Defined.

(** ** The dates returned by [as_date] *)

Lemma date_of_list_ok v dt :
  date_of_list (as_list v) = Ok dt ->
  exists iy im id,
    int_of_str (year v) = Ok iy /\ int_of_str (month v) = Ok im /\
    int_of_str (day v) = Ok id /\ valid_date iy im id = true /\
    dt = mkdate iy im id.
Proof.
  unfold as_list, date_of_list. intros H.
  apply bind_ok in H as (iy & Hy & H). apply bind_ok in H as (im & Hm & H).
  apply bind_ok in H as (id & Hd & H). apply mk_date_ok in H as [Hv ->].
  exists iy, im, id. auto.
Qed.

Lemma resolved_year v w :
  constructed v -> get_start v = Ok w \/ get_end v = Ok w -> year w = year v.
Proof.
  intros Hc [H|H].
  - destruct (get_start_constructed v Hc) as (_ & _ & _ & _ & _ & _ & _ & _ & _ & _ & Hs).
    cbv zeta in Hs. rewrite Hs in H. now injection H as <-.
  - destruct (get_end_constructed v Hc)
      as (iy & im & id & _ & _ & _ & _ & _ & _ & _ & _ & He).
    cbv zeta in He. rewrite He in H. now injection H as <-.
Qed.

(** The value whose attributes [as_date] converts. *)
Lemma as_date_source v default dt :
  as_date v default = Ok (Some dt) ->
  exists w,
    (w = v \/ get_start v = Ok w \/ get_end v = Ok w) /\
    date_of_list (as_list w) = Ok dt.
Proof.
  unfold as_date. intros H. apply bind_ok in H as (nf & Hnf & H).
  destruct nf as [w|]; [|discriminate].
  apply bind_ok in H as (dt' & Hdt & H). injection H as ->.
  exists w. split; [|assumption].
  destruct (is_fuzzy v).
  - destruct default as [|z|t]; [discriminate| |].
    + simpl in Hnf. discriminate.
    + destruct (negb (pne (PStr t) (PStr "start"))).
      * apply bind_ok in Hnf as (s & Hs & E). injection E as <-. auto.
      * destruct (negb (pne (PStr t) (PStr "end"))); [|discriminate].
        apply bind_ok in Hnf as (e & He & E). injection E as <-. auto.
  - injection Hnf as <-. auto.
Qed.

(** X9.  Whenever [as_date] returns a date, it is a real calendar date
    whose year is the number of the value's year, between 1000 and
    9999. *)
Theorem as_date_gives_valid_dates sd kw v default dt :
  CustomMeta_call sd kw = Ok v -> as_date v default = Ok (Some dt) ->
  valid_date (d_year dt) (d_month dt) (d_day dt) = true /\
  int_of_str (year v) = Ok (d_year dt) /\
  1000 <= d_year dt <= 9999.
Proof.
  intros H Hd. apply call_constructed in H.
  apply as_date_source in Hd as (w & Hw & Hd).
  apply date_of_list_ok in Hd as (iy & im & id & Hy & _ & _ & Hv & ->).
  cbn [d_year d_month d_day].
  assert (Ey : year w = year v).
  { destruct Hw as [->|Hw]; [reflexivity|]. now apply resolved_year. }
  rewrite Ey in Hy.
  destruct H as (ys & ms & ds & iy0 & im0 & id0 & -> & _ & Hy0 & Hr & _).
  cbn [year FuzzyDate_new] in Hy. rewrite Hy0 in Hy. injection Hy as <-.
  cbn [year FuzzyDate_new]. auto.
Qed.

Lemma as_date_gives_valid_dates_witness :
  valid_date 2000 2 29 = true /\ int_of_str "2000" = Ok 2000 /\
  1000 <= 2000 <= 9999.
Proof.
  apply (as_date_gives_valid_dates (SeedVal (PStr "2000-02")) no_kwargs
           (mkFuzzyDate "2000.02.00" "2000" "02" "") (PStr "end")
           (mkdate 2000 2 29)).
  - reflexivity.
  - reflexivity.
Defined.

(** ** The errors of the constructor *)

Lemma int_truthy_raises y e :
  truthy y = true -> int y = Raise e -> e = InvalidLiteral.
Proof.
  destruct y as [|z|s]; simpl; try discriminate.
  intros _. apply int_of_str_raises.
Qed.

Lemma field_int_raises_literal f e : field_int f = Raise e -> e = InvalidLiteral.
Proof.
  unfold field_int, por.
  destruct (truthy f) eqn:Tf.
  - destruct (pne f (PStr fuzzy_value)); [|discriminate].
    now apply int_truthy_raises.
  - simpl. discriminate.
Qed.

(** The errors of [validate]; the overflow error needs a month or a
    day that does not fit a C [int]. *)
Lemma validate_raises_value_error y m d e :
  validate y m d = Raise e ->
  e = MissingYear \/ e = DayWithoutMonth \/ e = InvalidLiteral \/
  e = YearOutOfRange \/ e = InvalidCalendarDate \/
  (e = DateOverflow /\
   exists im id, field_int m = Ok im /\ field_int d = Ok id /\
                 fits_c_int im && fits_c_int id = false).
Proof.
  rewrite validate_eq.
  destruct (truthy y) eqn:Ty; cbn [negb]; [|intros H; injection H as <-; auto].
  destruct (truthy d && negb (truthy m)); [intros H; injection H as <-; auto|].
  destruct (int y) as [iy|e1] eqn:Hy; cbn [bind];
    [|intros H; injection H as <-; apply int_truthy_raises in Hy; auto].
  destruct (field_int m) as [im|e1] eqn:Hm; cbn [bind];
    [|intros H; injection H as <-; apply field_int_raises_literal in Hm; auto].
  destruct (field_int d) as [id|e1] eqn:Hd; cbn [bind];
    [|intros H; injection H as <-; apply field_int_raises_literal in Hd; auto].
  destruct ((iy <? 1000) || (iy >? 9999)) eqn:Hr;
    [intros H; injection H as <-; auto|].
  apply orb_false_iff in Hr as [Hlo Hhi].
  apply Z.ltb_ge in Hlo. rewrite Z.gtb_ltb in Hhi. apply Z.ltb_ge in Hhi.
  destruct (fits_c_int im && fits_c_int id) eqn:Hf.
  - destruct (valid_date iy im id) eqn:Hv.
    + rewrite (mk_date_valid _ _ _ Hv). cbn [bind].
      destruct (format_02_por m) as [sm ->]. destruct (format_02_por d) as [sd ->].
      discriminate.
    + rewrite (mk_date_invalid iy im id (conj Hlo Hhi) Hf Hv). cbn [bind].
      intros H; injection H as <-; auto 6.
  - rewrite (mk_date_overflow iy im id Hf). cbn [bind].
    intros H; injection H as <-.
    do 5 right. split; [reflexivity|]. exists im, id. auto.
Qed.

Lemma field_int_digits m :
  digits 2 m -> exists i, field_int (PStr m) = Ok i /\ fits_c_int i = true.
Proof.
  intros Hm. rewrite field_int_str by exact (digits_nonempty 1 m Hm).
  unfold part_int. destruct (m =? fuzzy_value)%string; [exists 1; auto|].
  rewrite (int_of_str_digits2 m Hm). exists (digits_val m). split; [reflexivity|].
  pose proof (digits_val_bound 2 m Hm) as Hb. change (10 ^ Z.of_nat 2) with 100 in Hb.
  unfold fits_c_int. rewrite andb_true_iff, !Z.leb_le. lia.
Qed.

(** The fields read from a matching string always pass the first two
    checks and convert to integers. *)
Lemma date_text_fields s y m d :
  date_text s (y, m, d) ->
  truthy y = true /\ (truthy d = true -> truthy m = true) /\
  exists iy im id, int y = Ok iy /\ field_int m = Ok im /\ field_int d = Ok id /\
                   fits_c_int im && fits_c_int id = true.
Proof.
  intros H. inversion H as [y0 nl Hy Hnl | y0 a m0 nl Hy Ha Hm Hnl
                            | y0 a m0 b d0 nl Hy Ha Hm Hb Hd Hnl]; subst.
  - split; [apply truthy_PStr; exact (digits_nonempty 3 y0 Hy)|].
    split; [discriminate|].
    exists (digits_val y0), 1, 1.
    split; [exact (int_of_str_digits4 y0 Hy) | repeat split; reflexivity].
  - split; [apply truthy_PStr; exact (digits_nonempty 3 y0 Hy)|].
    split; [discriminate|].
    destruct (field_int_digits m0 Hm) as (im & Him & Fm).
    exists (digits_val y0), im, 1.
    split; [exact (int_of_str_digits4 y0 Hy) | split; [exact Him | split; [reflexivity|]]].
    now rewrite Fm.
  - split; [apply truthy_PStr; exact (digits_nonempty 3 y0 Hy)|].
    split; [intros _; apply truthy_PStr; exact (digits_nonempty 1 m0 Hm)|].
    destruct (field_int_digits m0 Hm) as (im & Him & Fm).
    destruct (field_int_digits d0 Hd) as (id & Hid & Fd).
    exists (digits_val y0), im, id.
    split; [exact (int_of_str_digits4 y0 Hy) | split; [exact Him | split; [exact Hid|]]].
    now rewrite Fm, Fd.
Qed.

(** The errors of [read_fields]. *)
Lemma read_fields_raises sd kw e :
  read_fields sd kw = Raise e ->
  (e = InvalidInputType /\ exists z, z <> 0 /\ sd = SeedVal (PInt z)) \/
  (e = MalformedInput /\
   exists s, s <> "" /\ sd = SeedVal (PStr s) /\ DATE_PATTERN_match s = None).
Proof.
  unfold read_fields. destruct (seed_truthy sd) eqn:T; [|discriminate].
  destruct sd as [[|z|s]|dt]; simpl in T.
  - discriminate T.
  - intros H. injection H as <-. left. split; [reflexivity|].
    exists z. split; [|reflexivity].
    intros ->. discriminate T.
  - destruct (DATE_PATTERN_match s) as [g|] eqn:E; [discriminate|].
    intros H. injection H as <-. right. split; [reflexivity|].
    exists s. repeat split; auto. now apply truthy_PStr.
  - discriminate.
Qed.

(** X10.  The constructor fails in one of eight ways only: with the
    type error for a seed that is neither a string nor a date, with
    the malformed-input error for a non-empty string that does not
    match the pattern, with one of the five value errors of the checks
    (missing year, day without month, a field that [int] cannot read,
    year out of range, invalid calendar date), or with the overflow
    error of [date], and then the month or the day read from the
    fields is an integer that does not fit a C [int]; it never fails
    with a [TypeError] from within the checks.  For a string seed only
    three remain: malformed input, year out of range, invalid calendar
    date.  [FuzzyDate(y=2021, m=2**31)] raises the overflow error. *)
Theorem constructor_errors sd kw e :
  CustomMeta_call sd kw = Raise e ->
  ((e = InvalidInputType /\ exists z, z <> 0 /\ sd = SeedVal (PInt z)) \/
   (e = MalformedInput /\
    exists s, s <> "" /\ sd = SeedVal (PStr s) /\ DATE_PATTERN_match s = None) \/
   e = MissingYear \/ e = DayWithoutMonth \/ e = InvalidLiteral \/
   e = YearOutOfRange \/ e = InvalidCalendarDate \/
   (e = DateOverflow /\
    exists y m d im id,
      read_fields sd kw = Ok (y, m, d) /\
      field_int m = Ok im /\ field_int d = Ok id /\
      fits_c_int im && fits_c_int id = false)) /\
  (forall s, sd = SeedVal (PStr s) -> s <> "" ->
   e = MalformedInput \/ e = YearOutOfRange \/ e = InvalidCalendarDate) /\
  from_fields (PInt 2021) (PInt (2 ^ 31)) PNone = Raise DateOverflow.
Proof.
  intros H. split; [|split; [|reflexivity]].
  - unfold CustomMeta_call in H.
    destruct (read_fields sd kw) as [[[y m] d]|e'] eqn:Hr; cbn [bind] in H.
    + apply validate_raises_value_error in H.
      destruct H as [H|[H|[H|[H|[H|[H (im & id & Hm & Hd & Hf)]]]]]]; auto 8.
      do 7 right. split; [exact H|]. exists y, m, d, im, id. auto.
    + injection H as <-.
      destruct (read_fields_raises sd kw e' Hr) as [R|R]; auto.
  - intros s -> Ns.
    destruct (DATE_PATTERN_match s) as [[[y m] d]|] eqn:E.
    + assert (Hr : read_fields (SeedVal (PStr s)) kw = Ok (y, m, d)).
      { unfold read_fields. cbn [seed_truthy].
        now rewrite (proj2 (truthy_PStr s) Ns), E. }
      apply DATE_PATTERN_match_iff in E.
      destruct (date_text_fields s y m d E)
        as (Ty & Hdm & iy & im & id & Hy & Hm & Hd & Hf).
      destruct (checks_in_order _ kw y m d Hr) as (_ & _ & C).
      destruct (C Ty Hdm iy im id Hy Hm Hd) as (Cout & _ & Cbad & Cgood).
      destruct (Z.lt_ge_cases iy 1000) as [|Hlo];
        [rewrite Cout in H by lia; injection H as <-; auto|].
      destruct (Z.lt_ge_cases 9999 iy) as [|Hhi];
        [rewrite Cout in H by lia; injection H as <-; auto|].
      destruct (valid_date iy im id) eqn:Hv.
      * destruct (Cgood ltac:(lia) eq_refl) as [v Hv']. congruence.
      * rewrite (Cbad ltac:(lia) Hf eq_refl) in H. injection H as <-. auto.
    + unfold CustomMeta_call, read_fields in H. cbn [seed_truthy] in H.
      rewrite (proj2 (truthy_PStr s) Ns), E in H. simpl in H.
      injection H as <-. auto.
Qed.

Lemma constructor_errors_witness :
  from_str "2021-1" = Raise MalformedInput /\
  exists s,
    s <> "" /\ SeedVal (PStr "2021-1") = SeedVal (PStr s) /\
    DATE_PATTERN_match s = None.
Proof.
  split; [reflexivity|].
  destruct (constructor_errors (SeedVal (PStr "2021-1")) no_kwargs MalformedInput
              eq_refl) as [H _].
  destruct H as [[E _]|[[_ H]|[E|[E|[E|[E|[E|[E _]]]]]]]]; try discriminate E.
  exact H.
Defined.

(** ** The configuration *)

Lemma order_is_permutation o :
  String.length o = 3%nat -> same_char_set o "ymd" = true ->
  In o ["ymd"; "ydm"; "myd"; "mdy"; "dym"; "dmy"].
Proof.
  destruct o as [|a [|b [|c [|x o']]]]; simpl String.length; try discriminate.
  intros _ H. unfold same_char_set in H. simpl in H.
  destruct (Ascii.eqb_spec a "y"); [subst a|];
    [|destruct (Ascii.eqb_spec a "m"); [subst a|];
      [|destruct (Ascii.eqb_spec a "d"); [subst a|simpl in H; discriminate H]]];
    (destruct (Ascii.eqb_spec b "y"); [subst b|];
     [|destruct (Ascii.eqb_spec b "m"); [subst b|];
       [|destruct (Ascii.eqb_spec b "d"); [subst b|simpl in H; discriminate H]]]);
    (destruct (Ascii.eqb_spec c "y"); [subst c|];
     [|destruct (Ascii.eqb_spec c "m"); [subst c|];
       [|destruct (Ascii.eqb_spec c "d"); [subst c|simpl in H; discriminate H]]]);
    simpl in H; try discriminate H; simpl; auto 10.
Qed.

Lemma module_init_ok st cfg :
  module_init st = inr cfg ->
  In (DATE_FIELD_ORDER cfg) ["ymd"; "ydm"; "myd"; "mdy"; "dym"; "dmy"] /\
  In (DATE_FIELD_SEPARATOR cfg) ["-"; "."; "/"] /\
  (TRIM_CHAR cfg = "0" \/ TRIM_CHAR cfg = "") /\
  cfg = mkconfig (lower (getattr (FUZZY_DATE_FIELD_ORDER st) "mdy"))
                 (getattr (FUZZY_DATE_FIELD_SEPARATOR st) "/")
                 (if getattr (FUZZY_DATE_TRIM_LEADING_ZEROS st) false then "0" else "").
Proof.
  unfold module_init.
  set (o := lower (getattr (FUZZY_DATE_FIELD_ORDER st) "mdy")).
  set (sp := getattr (FUZZY_DATE_FIELD_SEPARATOR st) "/").
  set (t := getattr (FUZZY_DATE_TRIM_LEADING_ZEROS st) false).
  destruct (Nat.eqb_spec (String.length o) 3) as [L|]; [|discriminate].
  destruct (same_char_set o "ymd") eqn:S; [|discriminate].
  cbn [negb orb].
  destruct (String.eqb_spec sp "-") as [E1|_];
    [|destruct (String.eqb_spec sp ".") as [E2|_];
      [|destruct (String.eqb_spec sp "/") as [E3|_]; [|discriminate]]];
    cbn [negb orb]; intros H; injection H as <-; cbn [DATE_FIELD_ORDER
      DATE_FIELD_SEPARATOR TRIM_CHAR];
    (split; [now apply order_is_permutation|]);
    (split; [first [rewrite E1 | rewrite E2 | rewrite E3]; simpl; auto|]);
    (split; [destruct t; auto | reflexivity]).
Qed.

(** X11.  Loading the module succeeds exactly when the order setting,
    lowercased, is one of the six arrangements of "y", "m" and "d" and
    the separator setting is "-", "." or "/"; the defaults are "mdy"
    and "/".  The order is then kept lowercased, and the trim
    character is "0" or nothing after the truth value of the trimming
    setting. *)
Theorem module_init_accepts st cfg :
  module_init st = inr cfg <->
  In (lower (getattr (FUZZY_DATE_FIELD_ORDER st) "mdy"))
     ["ymd"; "ydm"; "myd"; "mdy"; "dym"; "dmy"] /\
  In (getattr (FUZZY_DATE_FIELD_SEPARATOR st) "/") ["-"; "."; "/"] /\
  cfg = mkconfig (lower (getattr (FUZZY_DATE_FIELD_ORDER st) "mdy"))
                 (getattr (FUZZY_DATE_FIELD_SEPARATOR st) "/")
                 (if getattr (FUZZY_DATE_TRIM_LEADING_ZEROS st) false then "0" else "").
Proof.
  split.
  - intros H. destruct (module_init_ok st cfg H) as (Ho & Hs & _ & E).
    rewrite E in Ho, Hs. cbn [DATE_FIELD_ORDER DATE_FIELD_SEPARATOR] in Ho, Hs.
    auto.
  - intros (Ho & Hs & ->). unfold module_init.
    set (o := lower (getattr (FUZZY_DATE_FIELD_ORDER st) "mdy")) in *.
    set (sp := getattr (FUZZY_DATE_FIELD_SEPARATOR st) "/") in *.
    simpl in Ho, Hs.
    destruct Ho as [<-|[<-|[<-|[<-|[<-|[<-|[]]]]]]];
      destruct Hs as [<-|[<-|[<-|[]]]]; reflexivity.
Qed.

Example ex_default_settings :
  module_init (mksettings None None None) = inr (mkconfig "mdy" "/" "").
Proof. reflexivity. Qed.

Example ex_uppercase_order :
  module_init (mksettings (Some "YMD") (Some "-") (Some true))
  = inr (mkconfig "ymd" "-" "0").
Proof. reflexivity. Qed.

(** ** Display and the widget *)

(** X12.  Under every configuration with which the module loads,
    [__str__] returns a string for every value and [decompress]
    returns three items, the year, the month and the day of the value
    among them, or three empty strings when there is no value: no
    [KeyError] can occur. *)
Theorem loaded_display_total st cfg v :
  module_init st = inr cfg ->
  (exists s, FuzzyDate_str cfg v = Some s) /\
  (exists a b c,
     decompress cfg (Some v) = Some [a; b; c] /\
     (canonical v <> "" ->
      In (year v) [a; b; c] /\ In (month v) [a; b; c] /\ In (day v) [a; b; c])) /\
  decompress cfg None = Some [""; ""; ""].
Proof.
  intros H. apply module_init_ok in H as (Ho & _).
  destruct cfg as [o sp t]. cbn [DATE_FIELD_ORDER] in Ho.
  unfold FuzzyDate_str, decompress. cbn [DATE_FIELD_ORDER DATE_FIELD_SEPARATOR TRIM_CHAR].
  split; [|split; [|reflexivity]].
  - simpl in Ho.
    destruct Ho as [<-|[<-|[<-|[<-|[<-|[<-|[]]]]]]]; simpl; eauto.
  - simpl in Ho.
    destruct (String.eqb_spec (canonical v) "") as [E|N]; cbn [negb].
    + exists "", "", "". split; [reflexivity|]. intros C. contradiction.
    + destruct Ho as [<-|[<-|[<-|[<-|[<-|[<-|[]]]]]]]; simpl;
        do 3 eexists; (split; [reflexivity|]); intros _; simpl; auto 10.
Qed.

Lemma loaded_display_total_witness :
  (exists s, FuzzyDate_str (mkconfig "mdy" "/" "")
               (mkFuzzyDate "1985.02.14" "1985" "02" "14") = Some s) /\
  (exists a b c,
     decompress (mkconfig "mdy" "/" "")
       (Some (mkFuzzyDate "1985.02.14" "1985" "02" "14")) = Some [a; b; c] /\
     ("1985.02.14" <> "" ->
      In "1985" [a; b; c] /\ In "02" [a; b; c] /\ In "14" [a; b; c])) /\
  decompress (mkconfig "mdy" "/" "") None = Some [""; ""; ""].
Proof.
  apply (loaded_display_total (mksettings None None None)).
  reflexivity.
Defined.

Lemma lstrip_nothing s : lstrip "" s = s.
Proof. destruct s; reflexivity. Qed.

Lemma validate_str_year ys iy :
  ys <> "" -> int_of_str ys = Ok iy -> 1000 <= iy <= 9999 ->
  validate (PStr ys) PNone PNone = Ok (FuzzyDate_new ys fuzzy_value fuzzy_value).
Proof.
  intros Ny Hy Hr. rewrite validate_eq.
  rewrite (proj2 (truthy_PStr ys) Ny). cbn [truthy negb andb].
  cbn [int]. rewrite Hy. cbn [bind]. rewrite field_int_PNone. cbn [bind].
  rewrite (in_range_test _ Hr).
  pose proof (days_in_month_bounds iy 1 ltac:(lia)) as Bn.
  assert (Hv : valid_date iy 1 1 = true) by (apply valid_date_intro; lia).
  rewrite (mk_date_valid _ _ _ Hv). reflexivity.
Qed.

Lemma validate_str_year_month ys ms iy im :
  ys <> "" -> int_of_str ys = Ok iy -> 1000 <= iy <= 9999 ->
  part_int ms = Ok im -> (2 <= String.length ms)%nat ->
  valid_date iy im 1 = true ->
  validate (PStr ys) (PStr ms) PNone = Ok (FuzzyDate_new ys ms fuzzy_value).
Proof.
  intros Ny Hy Hr Pm Lm Hv.
  pose proof (length_2_nonempty _ Lm) as Nm.
  rewrite validate_eq.
  rewrite (proj2 (truthy_PStr ys) Ny). cbn [truthy negb andb].
  cbn [int]. rewrite Hy. cbn [bind].
  rewrite (field_int_str ms Nm), Pm, field_int_PNone. cbn [bind].
  rewrite (in_range_test _ Hr).
  rewrite (mk_date_valid _ _ _ Hv). cbn [bind].
  unfold por. rewrite (proj2 (truthy_PStr ms) Nm). cbn [truthy format_02 bind].
  now rewrite (pad02_long ms Lm).
Qed.

Lemma sep_string sp :
  In sp ["-"; "."; "/"] -> exists a, sp = String a "" /\ is_sep a.
Proof.
  simpl. intros [<-|[<-|[<-|[]]]].
  - exists "-"%char. split; [reflexivity | right; now left].
  - exists "."%char. split; [reflexivity | now left].
  - exists "/"%char. split; [reflexivity | right; now right].
Qed.

(** What the constructor returns for the display of a value in
    canonical form, written year first and untrimmed. *)
Lemma display_ymd_parses sp v :
  In sp ["-"; "."; "/"] -> constructed v -> canonical_parts v -> day_has_month v ->
  exists t, FuzzyDate_str (mkconfig "ymd" sp "") v = Some t /\ from_str t = Ok v.
Proof.
  intros Hsp Hc Hcp Hdm.
  destruct (sep_string sp Hsp) as (a & -> & Ha).
  destruct (canonical_constructed v Hc Hcp)
    as (ys & ms & ds & iy & im & id & -> & Dy & Dm & Dd & Hy & Hr & Pm & Pd & Hv).
  unfold day_has_month in Hdm. rewrite month_of_new, day_of_new in Hdm.
  pose proof (digits_nonempty 3 ys Dy) as Ny.
  pose proof (digits_length 2 ms Dm) as Lm.
  pose proof (digits_length 2 ds Dd) as Ld.
  assert (E0 : line_end "") by now left.
  unfold FuzzyDate_str. cbn [DATE_FIELD_ORDER DATE_FIELD_SEPARATOR TRIM_CHAR].
  cbn [display_parts data_dict Ascii.eqb Bool.eqb].
  rewrite month_of_new, day_of_new. cbn [year FuzzyDate_new].
  rewrite !lstrip_nothing.
  destruct (String.eqb_spec ys "") as [|_]; [contradiction|].
  destruct (String.eqb_spec ds fuzzy_value) as [Ed|Nd].
  - rewrite String.eqb_refl.
    destruct (String.eqb_spec ms fuzzy_value) as [Em|Nm].
    + (* year only *)
      rewrite String.eqb_refl. cbn [join].
      exists ys. split; [reflexivity|].
      rewrite (from_str_groups ys (PStr ys) PNone PNone Ny).
      * rewrite from_fields_eq, Em, Ed. now apply (validate_str_year ys iy).
      * apply DATE_PATTERN_match_iff.
        pose proof (text_y ys "" Dy E0) as T. now rewrite append_empty_r in T.
    + (* year and month *)
      destruct (String.eqb_spec ms "") as [E|_]; [subst ms; discriminate Lm|].
      cbn [join].
      exists (ys ++ String a ms). split; [reflexivity|].
      rewrite (from_str_groups _ (PStr ys) (PStr ms) PNone).
      * rewrite from_fields_eq, Ed.
        apply (validate_str_year_month ys ms iy im); auto; try lia.
        subst ds. unfold part_int in Pd. simpl in Pd. injection Pd as <-. exact Hv.
      * now apply app_nonempty.
      * apply DATE_PATTERN_match_iff.
        pose proof (text_ym ys a ms "" Dy Ha Dm E0) as T.
        now rewrite append_empty_r in T.
  - destruct (String.eqb_spec ds "") as [E|_]; [subst ds; discriminate Ld|].
    destruct (String.eqb_spec ms fuzzy_value) as [Em|Nm];
      [exfalso; apply Hdm; [exact (digits_nonempty 1 ds Dd) | reflexivity]|].
    destruct (String.eqb_spec ms "") as [E|_]; [subst ms; discriminate Lm|].
    cbn [join].
    exists (ys ++ String a (ms ++ String a ds)). split; [reflexivity|].
    rewrite (from_str_groups _ (PStr ys) (PStr ms) (PStr ds)).
    + rewrite from_fields_eq.
      apply (validate_strings ys ms ds iy im id); auto; lia.
    + now apply app_nonempty.
    + apply DATE_PATTERN_match_iff.
      pose proof (text_ymd ys a ms a ds "" Dy Ha Dm Ha Dd E0) as T.
      now rewrite append_empty_r in T.
Qed.

(** X13.  With the order "ymd", any of the three separators and no
    trimming, the display of a value in canonical form is a string
    from which the constructor builds the same value again: the year
    alone, the year and the month, or all three, joined by the
    separator. *)
Theorem display_parses_back sp sd kw v :
  In sp ["-"; "."; "/"] ->
  CustomMeta_call sd kw = Ok v -> canonical_parts v -> day_has_month v ->
  exists t, FuzzyDate_str (mkconfig "ymd" sp "") v = Some t /\ from_str t = Ok v.
Proof.
  intros Hsp H Hcp Hdm. apply call_constructed in H.
  now apply display_ymd_parses.
Qed.

Lemma display_parses_back_witness :
  exists t,
    FuzzyDate_str (mkconfig "ymd" "-" "") (mkFuzzyDate "2021.03.00" "2021" "03" "")
    = Some t /\
    from_str t = Ok (mkFuzzyDate "2021.03.00" "2021" "03" "").
Proof.
  apply (display_parses_back "-" (SeedVal PNone)
           (mkkwargs (PInt 2021) (PInt 3) PNone)).
  - left. reflexivity.
  - reflexivity.
  - split; [reflexivity|]. split; [right; reflexivity | left; reflexivity].
  - intros N. exfalso. apply N. reflexivity.
Defined.

Example ex_display_trimmed :
  FuzzyDate_str (mkconfig "ymd" "-" "0") (mkFuzzyDate "2021.03.00" "2021" "03" "")
  = Some "2021-3".
Proof. reflexivity. Qed.

(** ** The form field *)

Lemma validate_falsy_month y m d :
  truthy m = false -> validate y m d = validate y PNone d.
Proof. intros H. unfold validate, por. rewrite H. reflexivity. Qed.

Lemma validate_falsy_day y m d :
  truthy d = false -> validate y m d = validate y m PNone.
Proof. intros H. unfold validate, por. rewrite H. reflexivity. Qed.

(** A value is rebuilt from its own three attributes. *)
Lemma attributes_rebuild v :
  constructed v -> day_has_month v ->
  from_fields (PStr (year v)) (PStr (month v)) (PStr (day v)) = Ok v.
Proof.
  intros (ys & ms & ds & iy & im & id & -> & Ny & Hy & Hr & Pm & Pd & Lm & Ld & Hv) Hdm.
  unfold day_has_month in Hdm. rewrite from_fields_eq.
  rewrite month_of_new, day_of_new in *. cbn [year FuzzyDate_new].
  destruct (String.eqb_spec ds fuzzy_value) as [Ed|Nd].
  - rewrite (validate_falsy_day _ _ (PStr "")) by reflexivity.
    assert (Eid : id = 1).
    { subst ds. unfold part_int in Pd. simpl in Pd. now injection Pd. }
    subst id.
    destruct (String.eqb_spec ms fuzzy_value) as [Em|Nm].
    + rewrite (validate_falsy_month _ (PStr "")) by reflexivity.
      rewrite Em, Ed. now apply (validate_str_year ys iy).
    + rewrite Ed. now apply (validate_str_year_month ys ms iy im).
  - destruct (String.eqb_spec ms fuzzy_value) as [Em|Nm].
    + exfalso. apply Hdm; [|reflexivity].
      now apply length_2_nonempty.
    + now apply (validate_strings ys ms ds iy im id).
Qed.

Lemma constructed_text_nonempty v : constructed v -> canonical v <> "".
Proof.
  intros (ys & ms & ds & iy & im & id & -> & Ny & _).
  cbn [canonical FuzzyDate_new]. now apply app_nonempty.
Qed.

(** The errors of the constructor called with fields are
    [ValueError]s, but for the overflow error; none is a [TypeError]. *)
Lemma from_fields_error_class y m d e :
  from_fields y m d = Raise e -> is_ValueError e = true \/ e = DateOverflow.
Proof.
  rewrite from_fields_eq. intros H.
  apply validate_raises_value_error in H.
  destruct H as [->|[->|[->|[->|[->|[-> _]]]]]]; auto.
Qed.

Lemma from_fields_not_type_error y m d e :
  from_fields y m d = Raise e -> is_TypeError e = false.
Proof.
  rewrite from_fields_eq. intros H.
  apply validate_raises_value_error in H.
  destruct H as [->|[->|[->|[->|[->|[-> _]]]]]]; reflexivity.
Qed.

(** What the dict built by [compress] holds comes from the list. *)
Lemma zip_lookup_in keys vals k v : zip_lookup keys vals k = Some v -> In v vals.
Proof.
  revert vals. induction keys as [|c r IH]; intros vals; [discriminate|].
  destruct vals as [|x vs]; [discriminate|]. cbn [zip_lookup].
  destruct (zip_lookup r vs k) as [later|] eqn:E.
  - intros H. injection H as <-. right. now apply IH.
  - destruct (c =? k)%char; [|discriminate].
    intros H. injection H as <-. now left.
Qed.

Lemma zip_get_small keys vals k :
  Forall small_item vals -> small_item (zip_get keys vals k).
Proof.
  intros H. unfold zip_get.
  destruct (zip_lookup keys vals k) as [v|] eqn:E; [|exact I].
  apply zip_lookup_in in E. rewrite Forall_forall in H. now apply H.
Qed.

(** A small item is read as an integer that fits a C [int]. *)
Lemma field_int_small v i :
  small_item v -> field_int v = Ok i -> fits_c_int i = true.
Proof.
  destruct v as [|z|s]; simpl; [| |contradiction].
  - intros _ H. unfold field_int in H. simpl in H. now injection H as <-.
  - intros Hz H. unfold field_int, por in H.
    destruct (truthy (PInt z)); simpl in H; injection H as <-;
      [exact Hz | reflexivity].
Qed.

Lemma from_fields_small y m d :
  small_item m -> small_item d -> from_fields y m d <> Raise DateOverflow.
Proof.
  intros Sm Sd H. rewrite from_fields_eq in H.
  apply validate_raises_value_error in H.
  destruct H as [H|[H|[H|[H|[H|[_ (im & id & Hm & Hd & Hf)]]]]]];
    try discriminate H.
  rewrite (field_int_small m im Sm Hm), (field_int_small d id Sd Hd) in Hf.
  discriminate Hf.
Qed.

(** X14.  Under every configuration with which the module loads,
    [compress] applied to the year, month and day listed in the
    configured order does what the constructor does with the three as
    fields: it returns the same value, turns each [ValueError] of the
    constructor into a [ValidationError], and lets the overflow error
    of [date] through, which [except ValueError] does not catch.  With
    the default order, [compress([2**31, 1, 2021])] raises that
    overflow error. *)
Theorem compress_in_configured_order st cfg y m d :
  module_init st = inr cfg ->
  compress cfg (in_order (DATE_FIELD_ORDER cfg) y m d)
  = match from_fields y m d with
    | Ok v => Done (Some v)
    | Raise DateOverflow => Uncaught DateOverflow
    | Raise e => Invalid (Wrapped e)
    end /\
  module_init (mksettings None None None) = inr (mkconfig "mdy" "/" "") /\
  compress (mkconfig "mdy" "/" "") [PInt (2 ^ 31); PInt 1; PInt 2021]
  = Uncaught DateOverflow.
Proof.
  intros H. split; [|split; reflexivity].
  apply module_init_ok in H as (Ho & _).
  destruct cfg as [o sp t]. cbn [DATE_FIELD_ORDER] in *.
  assert (G : match from_fields y m d with
              | Ok v => Done (Some v)
              | Raise e => if is_ValueError e then Invalid (Wrapped e) else Uncaught e
              end
              = match from_fields y m d with
                | Ok v => Done (Some v)
                | Raise DateOverflow => Uncaught DateOverflow
                | Raise e => Invalid (Wrapped e)
                end).
  { destruct (from_fields y m d) as [v|e] eqn:E; [reflexivity|].
    destruct (from_fields_error_class y m d e E) as [V| ->]; [|reflexivity].
    rewrite V. destruct e; first [reflexivity | discriminate V]. }
  simpl in Ho.
  destruct Ho as [<-|[<-|[<-|[<-|[<-|[<-|[]]]]]]]; exact G.
Qed.

Lemma compress_in_configured_order_witness :
  compress (mkconfig "mdy" "/" "") [PInt 2; PInt 14; PInt 1985]
  = Done (Some (mkFuzzyDate "1985.02.14" "1985" "02" "14")).
Proof.
  apply (compress_in_configured_order (mksettings None None None)
           (mkconfig "mdy" "/" "") (PInt 1985) (PInt 2) (PInt 14)).
  reflexivity.
Defined.

(** X15.  Whatever the configuration and the list, [compress] either
    returns (nothing for the empty list, a constructed value
    otherwise), or raises a [ValidationError] that wraps a
    [ValueError] of the constructor, or lets the overflow error of
    [date] escape; no other exception escapes, and none at all when
    every item of the list is None or an integer that fits a C [int].
    With the order "dmy", [compress([1, 2**31, 2021])] lets the
    overflow error escape. *)
Theorem compress_outcomes cfg data_list :
  compress cfg [] = Done None /\
  ((exists r, compress cfg data_list = Done r) \/
   (exists e, compress cfg data_list = Invalid (Wrapped e) /\ is_ValueError e = true) \/
   compress cfg data_list = Uncaught DateOverflow) /\
  (Forall small_item data_list -> forall e, compress cfg data_list <> Uncaught e) /\
  compress (mkconfig "dmy" "-" "") [PInt 1; PInt (2 ^ 31); PInt 2021]
  = Uncaught DateOverflow.
Proof.
  split; [reflexivity|]. split; [|split; [|reflexivity]].
  - unfold compress. destruct data_list as [|x l]; [eauto|].
    match goal with
    | |- context [from_fields ?a ?b ?c] =>
        destruct (from_fields a b c) as [v|e] eqn:E
    end.
    + eauto.
    + destruct (from_fields_error_class _ _ _ e E) as [V| ->].
      * right. left. exists e. rewrite V. auto.
      * right. right. reflexivity.
  - intros Hs e. unfold compress. destruct data_list as [|x l]; [discriminate|].
    match goal with
    | |- context [from_fields ?a ?b ?c] =>
        destruct (from_fields a b c) as [v|e'] eqn:E
    end; [discriminate|].
    destruct (from_fields_error_class _ _ _ e' E) as [V| ->].
    + rewrite V. discriminate.
    + exfalso. revert E. apply from_fields_small; now apply zip_get_small.
Qed.

Lemma compress_outcomes_witness :
  compress (mkconfig "mdy" "/" "") [PInt 2; PInt 30; PInt 2021]
  <> Uncaught DateOverflow.
Proof.
  apply (compress_outcomes (mkconfig "mdy" "/" "") [PInt 2; PInt 30; PInt 2021]).
  repeat constructor.
Defined.

(** X16.  Under every configuration with which the module loads, the
    three strings that [decompress] returns for a constructed value
    whose day has a month, handed to [compress] in the same order,
    give the value back. *)
Theorem compress_after_decompress st cfg sd kw v :
  module_init st = inr cfg ->
  CustomMeta_call sd kw = Ok v -> day_has_month v ->
  exists l,
    decompress cfg (Some v) = Some l /\
    compress cfg (map PStr l) = Done (Some v).
Proof.
  intros H Hv Hdm. apply module_init_ok in H as (Ho & _).
  apply call_constructed in Hv.
  pose proof (attributes_rebuild v Hv Hdm) as R.
  pose proof (constructed_text_nonempty v Hv) as N.
  destruct cfg as [o sp t]. cbn [DATE_FIELD_ORDER] in *.
  unfold decompress. cbn [DATE_FIELD_ORDER].
  destruct (String.eqb_spec (canonical v) "") as [|_]; [contradiction|].
  cbn [negb]. simpl in Ho.
  destruct Ho as [<-|[<-|[<-|[<-|[<-|[<-|[]]]]]]];
    eexists; (split; [reflexivity|]);
    unfold compress; cbn [map DATE_FIELD_ORDER zip_get zip_lookup Ascii.eqb Bool.eqb];
    rewrite R; reflexivity.
Qed.

Lemma compress_after_decompress_witness :
  exists l,
    decompress (mkconfig "mdy" "/" "")
      (Some (mkFuzzyDate "2021.03.00" "2021" "03" "")) = Some l /\
    compress (mkconfig "mdy" "/" "") (map PStr l)
    = Done (Some (mkFuzzyDate "2021.03.00" "2021" "03" "")).
Proof.
  apply (compress_after_decompress (mksettings None None None)
           (mkconfig "mdy" "/" "") (SeedVal (PStr "2021-03")) no_kwargs).
  - reflexivity.
  - reflexivity.
  - intros N. exfalso. apply N. reflexivity.
Defined.

(** ** The model field *)

Lemma from_str_no_match s :
  s <> "" -> DATE_PATTERN_match s = None -> from_str s = Raise MalformedInput.
Proof.
  intros Hs Hg. unfold from_str, CustomMeta_call, read_fields.
  cbn [seed_truthy]. now rewrite (proj2 (truthy_PStr s) Hs), Hg.
Qed.

Lemma to_python_str s :
  s <> "" ->
  to_python (Plain (PStr s))
  = match DATE_PATTERN_match s with
    | Some (y, m, d) =>
        match from_fields y m d with
        | Ok r => Done (Fuzzy r)
        | Raise e => Uncaught e
        end
    | None => Invalid NotADateString
    end.
Proof.
  intros Hs. unfold to_python. rewrite (proj2 (truthy_PStr s) Hs).
  destruct (DATE_PATTERN_match s) as [[[y m] d]|]; [|reflexivity].
  destruct (from_fields y m d) as [r|e] eqn:E; [reflexivity|].
  now rewrite (from_fields_not_type_error y m d e E).
Qed.

Lemma from_fields_not_malformed y m d : from_fields y m d <> Raise MalformedInput.
Proof.
  intros H. rewrite from_fields_eq in H. apply validate_raises_value_error in H.
  destruct H as [H|[H|[H|[H|[H|[H _]]]]]]; discriminate H.
Qed.

(** X17.  On a non-empty string, [to_python] returns a value exactly
    when the constructor does on the same string, and the same one;
    it raises a [ValidationError] exactly when the string does not
    match the pattern; and every other error of the constructor (year
    out of range, invalid calendar date) comes out of [to_python]
    uncaught, as the [ValueError] it is. *)
Theorem to_python_on_strings s :
  s <> "" ->
  (forall v, to_python (Plain (PStr s)) = Done (Fuzzy v) <-> from_str s = Ok v) /\
  (forall c, to_python (Plain (PStr s)) = Invalid c <->
             (c = NotADateString /\ from_str s = Raise MalformedInput)) /\
  (forall e, to_python (Plain (PStr s)) = Uncaught e <->
             (e <> MalformedInput /\ from_str s = Raise e)).
Proof.
  intros Hs. rewrite (to_python_str s Hs).
  destruct (DATE_PATTERN_match s) as [[[y m] d]|] eqn:E.
  - rewrite (from_str_groups s y m d Hs E).
    pose proof (from_fields_not_malformed y m d) as NM.
    destruct (from_fields y m d) as [r|e0]; split; [| split | | split].
    + intros v. split; intros H; injection H as <-; reflexivity.
    + intros c. split; [discriminate | intros [_ H]; discriminate H].
    + intros e. split; [discriminate | intros [_ H]; discriminate H].
    + intros v. split; discriminate.
    + intros c. split; [discriminate|]. intros [_ H]. contradiction.
    + intros e. split.
      * intros H. injection H as <-. split; [|reflexivity].
        intros ->. now apply NM.
      * intros [_ H]. now injection H as <-.
  - rewrite (from_str_no_match s Hs E). split; [|split].
    + intros v. split; discriminate.
    + intros c. split.
      * intros H. injection H as <-. auto.
      * intros [-> _]. reflexivity.
    + intros e. split; [discriminate|].
      intros [N H]. injection H as <-. contradiction.
Qed.

Lemma to_python_on_strings_witness :
  to_python (Plain (PStr "2021-13")) = Uncaught InvalidCalendarDate /\
  to_python (Plain (PStr "2021-1")) = Invalid NotADateString /\
  to_python (Plain (PStr "2021-11"))
  = Done (Fuzzy (mkFuzzyDate "2021.11.00" "2021" "11" "")).
Proof.
  assert (N1 : "2021-13" <> "") by discriminate.
  assert (N2 : "2021-1" <> "") by discriminate.
  assert (N3 : "2021-11" <> "") by discriminate.
  split; [|split].
  - apply (to_python_on_strings "2021-13" N1).
    split; [discriminate | reflexivity].
  - apply (to_python_on_strings "2021-1" N2).
    split; reflexivity.
  - apply (to_python_on_strings "2021-11" N3). reflexivity.
Defined.

(** X18.  [to_python] is idempotent: what it returns, it returns
    unchanged when applied again. *)
Theorem to_python_idempotent x r :
  to_python x = Done r -> to_python r = Done r.
Proof.
  destruct x as [v|d]; simpl.
  - destruct (truthy v) eqn:T.
    + destruct v as [|z|s]; try discriminate.
      destruct (DATE_PATTERN_match s) as [[[y m] d]|]; [|discriminate].
      destruct (from_fields y m d) as [w|e]; [|destruct (is_TypeError e); discriminate].
      intros H. injection H as <-. reflexivity.
    + intros H. injection H as <-. simpl. now rewrite T.
  - intros H. injection H as <-. reflexivity.
Qed.

Lemma to_python_idempotent_witness :
  to_python (Fuzzy (mkFuzzyDate "2021.11.00" "2021" "11" ""))
  = Done (Fuzzy (mkFuzzyDate "2021.11.00" "2021" "11" "")).
Proof.
  apply (to_python_idempotent (Plain (PStr "2021/11"))). reflexivity.
Defined.

Lemma from_db_value_str s :
  s <> "" -> from_db_value (PStr s) = (d <- from_str s ;; Ok (Fuzzy d)).
Proof.
  intros Hs. unfold from_db_value. now rewrite (proj2 (truthy_PStr s) Hs).
Qed.

(** X19.  Every value that [to_python] builds from a string has a text
    of exactly 10 characters, the [max_length] of the column, and
    [from_db_value] reads that text back as the same value. *)
Theorem to_python_value_is_storable s v :
  to_python (Plain (PStr s)) = Done (Fuzzy v) ->
  String.length (canonical v) = 10%nat /\
  from_db_value (PStr (canonical v)) = Ok (Fuzzy v).
Proof.
  intros H.
  assert (Hs : s <> "").
  { intros ->. discriminate H. }
  rewrite (to_python_str s Hs) in H.
  destruct (DATE_PATTERN_match s) as [[[y m] d]|] eqn:E; [|discriminate].
  destruct (from_fields y m d) as [r|e] eqn:F; [|discriminate].
  injection H as ->.
  assert (Hreg : regular_input (SeedVal PNone) (mkkwargs y m d)).
  { right. cbn [kw_y kw_m kw_d]. eapply DATE_PATTERN_groups; eauto. }
  destruct (regular_input_canonical _ _ v Hreg F) as [Hcp Hlen].
  split; [exact Hlen|].
  rewrite from_db_value_str.
  - now rewrite (canonical_roundtrip _ _ v F Hcp).
  - intros E0. rewrite E0 in Hlen. discriminate.
Qed.

Lemma to_python_value_is_storable_witness :
  String.length "2021.11.00" = 10%nat /\
  from_db_value (PStr "2021.11.00")
  = Ok (Fuzzy (mkFuzzyDate "2021.11.00" "2021" "11" "")).
Proof.
  apply (to_python_value_is_storable "2021-11"
           (mkFuzzyDate "2021.11.00" "2021" "11" "")).
  reflexivity.
Defined.

(** ** The text of a parsed string *)

Lemma format_02_digits m : digits 2 m -> format_02 (por (PStr m) (PStr fuzzy_value)) = Ok m.
Proof.
  intros Hm. unfold por.
  rewrite (proj2 (truthy_PStr m) (digits_nonempty 1 m Hm)). cbn [format_02].
  rewrite pad02_long; [reflexivity|]. rewrite (digits_length 2 m Hm). lia.
Qed.

Lemma fields_text y m d v sm sd :
  from_fields (PStr y) m d = Ok v ->
  format_02 (por m (PStr fuzzy_value)) = Ok sm ->
  format_02 (por d (PStr fuzzy_value)) = Ok sd ->
  canonical v = y ++ "." ++ sm ++ "." ++ sd.
Proof.
  rewrite from_fields_eq. intros H Hm Hd.
  apply validate_ok in H
    as (_ & _ & iy & im & id & sm' & sd' & _ & _ & _ & _ & _ & Hsm & Hsd & ->).
  rewrite Hm in Hsm. rewrite Hd in Hsd. injection Hsm as <-. injection Hsd as <-.
  reflexivity.
Qed.

(** X20.  The text of a value built from a string is the string
    normalised: the digit groups as they were written, joined by dots
    whatever the separators were, with "00" for a month or a day that
    the string does not have. *)
Theorem parsed_text_is_normalised y a m b d v :
  digits 4 y -> is_sep a -> digits 2 m -> is_sep b -> digits 2 d ->
  (from_str (y ++ String a (m ++ String b d)) = Ok v ->
   canonical v = y ++ "." ++ m ++ "." ++ d) /\
  (from_str (y ++ String a m) = Ok v -> canonical v = y ++ "." ++ m ++ ".00") /\
  (from_str y = Ok v -> canonical v = y ++ ".00.00").
Proof.
  intros Hy Ha Hm Hb Hd.
  destruct (from_str_as_fields y a m b d Hy Ha Hm Hb Hd) as (E3 & E2 & E1).
  rewrite E3, E2, E1.
  split; [|split]; intros H.
  - apply (fields_text y (PStr m) (PStr d) v m d H); now apply format_02_digits.
  - apply (fields_text y (PStr m) PNone v m "00" H);
      [now apply format_02_digits | reflexivity].
  - apply (fields_text y PNone PNone v "00" "00" H); reflexivity.
Qed.

Lemma parsed_text_is_normalised_witness :
  canonical (mkFuzzyDate "1985.02.14" "1985" "02" "14") = "1985.02.14".
Proof.
  apply (parsed_text_is_normalised "1985" "-" "02" "/" "14").
  - reflexivity.
  - right. left. reflexivity.
  - reflexivity.
  - right. right. reflexivity.
  - reflexivity.
  - reflexivity.
Defined.

(** ** A final newline *)

Lemma line_end_newline : line_end (String "010" "").
Proof. now right. Qed.

(** X21.  One newline at the end of a date string is ignored: the
    string is handled as it is without the newline.  Two are not: the
    string is then rejected as malformed. *)
Theorem final_newline_ignored y a m b d :
  digits 4 y -> is_sep a -> digits 2 m -> is_sep b -> digits 2 d ->
  from_str (y ++ String "010" "") = from_str y /\
  from_str (y ++ String a (m ++ String "010" "")) = from_str (y ++ String a m) /\
  from_str (y ++ String a (m ++ String b (d ++ String "010" "")))
  = from_str (y ++ String a (m ++ String b d)) /\
  from_str (y ++ String "010" (String "010" "")) = Raise MalformedInput /\
  from_str (y ++ String a (m ++ String "010" (String "010" ""))) = Raise MalformedInput /\
  from_str (y ++ String a (m ++ String b (d ++ String "010" (String "010" ""))))
  = Raise MalformedInput.
Proof.
  intros Hy Ha Hm Hb Hd.
  pose proof (digits_nonempty 3 y Hy) as Ny.
  destruct (from_str_as_fields y a m b d Hy Ha Hm Hb Hd) as (E3 & E2 & E1).
  rewrite E3, E2, E1.
  split; [|split; [|split; [|split; [|split]]]].
  - apply from_str_groups; [now apply app_nonempty|].
    apply DATE_PATTERN_match_iff. constructor; [assumption | apply line_end_newline].
  - apply from_str_groups; [now apply app_nonempty|].
    apply DATE_PATTERN_match_iff. constructor; auto using line_end_newline.
  - apply from_str_groups; [now apply app_nonempty|].
    apply DATE_PATTERN_match_iff. constructor; auto using line_end_newline.
  - apply from_str_no_match; [now apply app_nonempty|].
    unfold DATE_PATTERN_match. now rewrite (take_digits_app 4 y _ Hy).
  - apply from_str_no_match; [now apply app_nonempty|].
    unfold DATE_PATTERN_match. rewrite (take_digits_app 4 y _ Hy).
    rewrite (take_sep_digits_complete a m _ Ha Hm).
    now rewrite (at_dollar_group a m _ Hm).
  - apply from_str_no_match; [now apply app_nonempty|].
    unfold DATE_PATTERN_match. rewrite (take_digits_app 4 y _ Hy).
    rewrite (take_sep_digits_complete a m _ Ha Hm).
    rewrite (take_sep_digits_complete b d _ Hb Hd).
    rewrite (at_dollar_group a m _ Hm), (at_dollar_group b d _ Hd). reflexivity.
Qed.

Lemma final_newline_ignored_witness :
  from_str (String "2" (String "0" (String "2" (String "1" (String "010" "")))))
  = from_str "2021".
Proof.
  apply (final_newline_ignored "2021" "-" "03" "-" "09").
  - reflexivity.
  - right. left. reflexivity.
  - reflexivity.
  - right. left. reflexivity.
  - reflexivity.
Defined.

(** ** Text, numbers and value determine one another *)

Lemma digits_val_inj n a b :
  digits n a -> digits n b -> digits_val a = digits_val b -> a = b.
Proof.
  intros Ha Hb E.
  pose proof (compare_digits n a b "" "" Ha Hb) as C.
  rewrite !append_empty_r, E, Z.compare_refl in C. cbn [String.compare] in C.
  now apply String.compare_eq_iff.
Qed.

Lemma year_numeral_unique ys iy :
  digits 4 ys -> int_of_str ys = Ok iy -> 1000 <= iy <= 9999 -> str_of_int iy = ys.
Proof.
  intros Dy Hy Hr.
  destruct (year_numeral iy Hr) as (_ & Hi & Dn).
  apply (digits_val_inj 4); auto.
  rewrite (int_of_str_digits4 _ Dn) in Hi. rewrite (int_of_str_digits4 _ Dy) in Hy.
  congruence.
Qed.

Lemma part_numeral_unique s i :
  digits 2 s -> int_of_str s = Ok i -> 1 <= i <= 31 -> pad02 (str_of_int i) = s.
Proof.
  intros Ds Hs Hb.
  destruct (part_numeral i Hb) as (_ & _ & Hi & Dn). cbv zeta in Hi, Dn.
  apply (digits_val_inj 2); auto.
  rewrite (int_of_str_digits2 _ Dn) in Hi. rewrite (int_of_str_digits2 _ Ds) in Hs.
  congruence.
Qed.

Lemma numbers_rebuild v iy im id :
  constructed v -> canonical_parts v -> day_has_month v ->
  numeric_triple v = Ok (iy, im, id) ->
  from_fields (PInt iy)
              (if (month v =? "")%string then PNone else PInt im)
              (if (day v =? "")%string then PNone else PInt id)
  = Ok v.
Proof.
  intros Hc Hcp Hdm Hn.
  destruct (canonical_constructed v Hc Hcp)
    as (ys & ms & ds & iy0 & im0 & id0 & -> & Dy & Dm & Dd & Hy & Hr & Pm & Pd & Hv).
  rewrite (numeric_of_canonical ys ms ds Dy Dm Dd) in Hn.
  injection Hn as <- <- <-.
  rewrite (int_of_str_digits4 ys Dy) in Hy. injection Hy as <-.
  pose proof (year_numeral_unique ys _ Dy (int_of_str_digits4 ys Dy) Hr) as Ey.
  pose proof (valid_date_bounds _ _ _ Hv) as (_ & Bm & Bd).
  pose proof (days_in_month_bounds (digits_val ys) im0 Bm) as Bn.
  pose proof (digits_nonempty 1 ms Dm) as Nm.
  pose proof (digits_nonempty 1 ds Dd) as Nd.
  unfold day_has_month in Hdm.
  rewrite from_fields_eq. rewrite month_of_new, day_of_new in *.
  unfold part_int in Pm, Pd.
  destruct (String.eqb_spec ds fuzzy_value) as [Ed|Fd].
  - injection Pd as <-. cbn [String.eqb].
    destruct (String.eqb_spec ms fuzzy_value) as [Em|Fm].
    + cbn [String.eqb]. rewrite validate_year by lia. now rewrite Ey, Em, Ed.
    + destruct (String.eqb_spec ms "") as [|_]; [contradiction|].
      rewrite (int_of_str_digits2 ms Dm) in Pm. injection Pm as <-.
      rewrite validate_year_month by (auto; lia).
      rewrite Ey, Ed.
      now rewrite (part_numeral_unique ms _ Dm (int_of_str_digits2 ms Dm))
        by lia.
  - destruct (String.eqb_spec ds "") as [|_]; [contradiction|].
    destruct (String.eqb_spec ms fuzzy_value) as [Em|Fm];
      [exfalso; apply Hdm; [assumption | reflexivity]|].
    destruct (String.eqb_spec ms "") as [|_]; [contradiction|].
    rewrite (int_of_str_digits2 ms Dm) in Pm. injection Pm as <-.
    rewrite (int_of_str_digits2 ds Dd) in Pd. injection Pd as <-.
    rewrite validate_ints by (auto; lia).
    rewrite Ey.
    rewrite (part_numeral_unique ms _ Dm (int_of_str_digits2 ms Dm)) by lia.
    now rewrite (part_numeral_unique ds _ Dd (int_of_str_digits2 ds Dd)) by lia.
Qed.

(** X22.  A value in canonical form is rebuilt from its numbers: the
    constructor applied to the integers of its year, month and day,
    with None for a month or a day it does not have, returns the
    value. *)
Theorem numbers_rebuild_value sd kw v iy im id :
  CustomMeta_call sd kw = Ok v -> canonical_parts v -> day_has_month v ->
  numeric_triple v = Ok (iy, im, id) ->
  from_fields (PInt iy)
              (if (month v =? "")%string then PNone else PInt im)
              (if (day v =? "")%string then PNone else PInt id)
  = Ok v.
Proof.
  intros H. apply call_constructed in H. now apply numbers_rebuild.
Qed.

Lemma numbers_rebuild_value_witness :
  from_fields (PInt 1985) (PInt 2) PNone
  = Ok (mkFuzzyDate "1985.02.00" "1985" "02" "").
Proof.
  apply (numbers_rebuild_value (SeedVal (PStr "1985/02")) no_kwargs
           (mkFuzzyDate "1985.02.00" "1985" "02" "") 1985 2 0).
  - reflexivity.
  - split; [reflexivity|]. split; [right; reflexivity | left; reflexivity].
  - intros N. exfalso. apply N. reflexivity.
  - reflexivity.
Defined.

Lemma canonical_value_by_numbers ys ms ds ys' ms' ds' :
  digits 4 ys -> digits 2 ms -> digits 2 ds ->
  digits 4 ys' -> digits 2 ms' -> digits 2 ds' ->
  digits_val ys = digits_val ys' -> digits_val ms = digits_val ms' ->
  digits_val ds = digits_val ds' ->
  FuzzyDate_new ys ms ds = FuzzyDate_new ys' ms' ds'.
Proof.
  intros Dy Dm Dd Dy' Dm' Dd' Ey Em Ed.
  rewrite (digits_val_inj 4 ys ys' Dy Dy' Ey).
  rewrite (digits_val_inj 2 ms ms' Dm Dm' Em).
  now rewrite (digits_val_inj 2 ds ds' Dd Dd' Ed).
Qed.

(** X23.  Two values in canonical form that have the same text are
    the same value, and so are two that have the same numbers: the
    text and the (year, month-or-0, day-or-0) triple each identify
    the value. *)
Theorem canonical_values_identified sd1 kw1 v1 sd2 kw2 v2 :
  CustomMeta_call sd1 kw1 = Ok v1 -> canonical_parts v1 ->
  CustomMeta_call sd2 kw2 = Ok v2 -> canonical_parts v2 ->
  (canonical v1 = canonical v2 -> v1 = v2) /\
  (numeric_triple v1 = numeric_triple v2 -> v1 = v2).
Proof.
  intros H1 C1 H2 C2.
  apply call_constructed in H1, H2.
  destruct (canonical_constructed v1 H1 C1)
    as (ys & ms & ds & _ & _ & _ & -> & Dy & Dm & Dd & _).
  destruct (canonical_constructed v2 H2 C2)
    as (ys' & ms' & ds' & _ & _ & _ & -> & Dy' & Dm' & Dd' & _).
  split.
  - cbn [canonical FuzzyDate_new]. intros E.
    pose proof (compare_canonical ys ms ds ys' ms' ds' Dy Dm Dd Dy' Dm' Dd') as C.
    rewrite E in C.
    assert (R : forall s, String.compare s s = Eq).
    { induction s as [|c s IH]; simpl; [reflexivity|].
      unfold Ascii.compare. now rewrite N.compare_refl. }
    rewrite R in C.
    destruct (Z.compare_spec (digits_val ys) (digits_val ys')) as [Ey| |];
      try discriminate C.
    destruct (Z.compare_spec (digits_val ms) (digits_val ms')) as [Em| |];
      try discriminate C.
    symmetry in C. apply Z.compare_eq in C.
    now apply canonical_value_by_numbers.
  - rewrite !numeric_of_canonical by assumption.
    intros E. injection E as Ey Em Ed.
    now apply canonical_value_by_numbers.
Qed.

Lemma canonical_values_identified_witness :
  mkFuzzyDate "1985.02.00" "1985" "02" "" = mkFuzzyDate "1985.02.00" "1985" "02" "".
Proof.
  assert (C : canonical_parts (mkFuzzyDate "1985.02.00" "1985" "02" "")).
  { split; [reflexivity|]. split; [right; reflexivity | left; reflexivity]. }
  apply (canonical_values_identified
           (SeedVal (PStr "1985/02")) no_kwargs _
           (SeedVal PNone) (mkkwargs (PInt 1985) (PInt 2) PNone) _
           eq_refl C eq_refl C).
  reflexivity.
Defined.

(** ** Display of a year, and trimming *)

Lemma digit_zero_val c : is_digit c = true -> digit_val c = 0 -> c = "0"%char.
Proof.
  destruct c as [b0 b1 b2 b3 b4 b5 b6 b7].
  destruct b0, b1, b2, b3, b4, b5, b6, b7; vm_compute;
    first [discriminate | reflexivity | intros _; discriminate].
Qed.

(** A 4-digit numeral of a number from 1000 on does not start with a
    zero, so that trimming leaves it as it is. *)
Lemma lstrip_year trim ys :
  trim = "0" \/ trim = "" -> digits 4 ys -> 1000 <= digits_val ys ->
  lstrip trim ys = ys.
Proof.
  intros [->| ->] Dy Hy; [|apply lstrip_nothing].
  apply digits_S in Dy as (c & r & -> & Hc & Dr).
  pose proof (digits_val_bound 3 r Dr) as Br.
  cbn [digits_val] in Hy. rewrite (digits_length 3 r Dr) in Hy.
  cbn [lstrip char_in].
  destruct (Ascii.eqb_spec c "0") as [->|N]; [|reflexivity].
  exfalso. change (digit_val "0") with 0 in Hy. simpl in Br. lia.
Qed.

(** X24.  Under every configuration with which the module loads, a
    value in canonical form that has only a year is displayed as that
    year: no separator, whatever the order, and nothing trimmed. *)
Theorem year_only_display st cfg sd kw v :
  module_init st = inr cfg ->
  CustomMeta_call sd kw = Ok v -> canonical_parts v ->
  month v = "" -> day v = "" ->
  FuzzyDate_str cfg v = Some (year v).
Proof.
  intros H Hv Hcp Em Ed. apply module_init_ok in H as (Ho & _ & Ht & _).
  apply call_constructed in Hv.
  destruct (canonical_constructed v Hv Hcp)
    as (ys & ms & ds & iy & im & id & -> & Dy & Dm & Dd & Hy & Hr & _).
  rewrite (int_of_str_digits4 ys Dy) in Hy. injection Hy as <-.
  pose proof (digits_nonempty 3 ys Dy) as Ny.
  destruct cfg as [o sp t]. cbn [DATE_FIELD_ORDER TRIM_CHAR] in *.
  unfold FuzzyDate_str. cbn [DATE_FIELD_ORDER DATE_FIELD_SEPARATOR TRIM_CHAR].
  cbn [year FuzzyDate_new].
  assert (L : lstrip t ys = ys) by (apply lstrip_year; auto; lia).
  simpl in Ho.
  destruct Ho as [<-|[<-|[<-|[<-|[<-|[<-|[]]]]]]];
    cbn [display_parts data_dict Ascii.eqb Bool.eqb];
    rewrite Em, Ed; cbn [year FuzzyDate_new String.eqb];
    destruct (String.eqb_spec ys "") as [|_]; try contradiction;
    cbn [join]; now rewrite L.
Qed.

Lemma year_only_display_witness :
  FuzzyDate_str (mkconfig "dmy" "." "0") (mkFuzzyDate "1985.00.00" "1985" "" "")
  = Some "1985".
Proof.
  apply (year_only_display (mksettings (Some "DMY") (Some ".") (Some true))
           (mkconfig "dmy" "." "0") (SeedVal (PStr "1985")) no_kwargs).
  - reflexivity.
  - reflexivity.
  - split; [reflexivity|]. split; left; reflexivity.
  - reflexivity.
  - reflexivity.
Defined.

(** X25.  With leading zeros trimmed, the display does not always
    parse back: a year and a month below 10, shown year first, give a
    string with a one-digit month, which the constructor rejects as
    malformed. *)
Theorem trimmed_display_is_lossy sp ys c :
  In sp ["-"; "."; "/"] -> digits 4 ys -> 1000 <= digits_val ys ->
  is_digit c = true -> c <> "0"%char ->
  exists t,
    FuzzyDate_str (mkconfig "ymd" sp "0")
      (FuzzyDate_new ys (String "0" (String c "")) fuzzy_value) = Some t /\
    from_str t = Raise MalformedInput.
Proof.
  intros Hsp Dy Hy Hc Nc.
  destruct (sep_string sp Hsp) as (a & -> & Ha).
  pose proof (digits_nonempty 3 ys Dy) as Ny.
  assert (Nm : String "0" (String c "") <> fuzzy_value).
  { intros E. injection E as E. contradiction. }
  unfold FuzzyDate_str. cbn [DATE_FIELD_ORDER DATE_FIELD_SEPARATOR TRIM_CHAR].
  cbn [display_parts data_dict Ascii.eqb Bool.eqb].
  rewrite month_of_new, day_of_new. cbn [year FuzzyDate_new].
  destruct (String.eqb_spec (String "0" (String c "")) fuzzy_value) as [|_];
    [contradiction|].
  rewrite String.eqb_refl. cbn [String.eqb Ascii.eqb Bool.eqb].
  destruct (String.eqb_spec ys "") as [|_]; [contradiction|].
  rewrite (lstrip_year "0" ys) by auto.
  cbn [lstrip char_in Ascii.eqb Bool.eqb orb].
  destruct (Ascii.eqb_spec c "0") as [|_]; [contradiction|].
  cbn [join].
  exists (ys ++ String a (String c "")). split; [reflexivity|].
  apply from_str_no_match; [now apply app_nonempty|].
  unfold DATE_PATTERN_match. rewrite (take_digits_app 4 ys _ Dy).
  unfold take_sep_digits. rewrite (take_sep_complete a _ Ha).
  cbn [take_digits]. rewrite Hc. reflexivity.
Qed.

Lemma trimmed_display_is_lossy_witness :
  exists t,
    FuzzyDate_str (mkconfig "ymd" "-" "0")
      (FuzzyDate_new "2021" "03" fuzzy_value) = Some t /\
    from_str t = Raise MalformedInput.
Proof.
  apply (trimmed_display_is_lossy "-" "2021" "3").
  - left. reflexivity.
  - reflexivity.
  - vm_compute. discriminate.
  - reflexivity.
  - discriminate.
Defined.

(** ** The range in the order of the texts *)

Lemma compare_not_lt y m d m' d' :
  m' < m \/ (m' = m /\ d' <= d) ->
  match (match y ?= y with
         | Eq => match m ?= m' with Eq => d ?= d' | c => c end
         | c => c
         end) with
  | Lt => true
  | _ => false
  end = false.
Proof.
  intros H. rewrite Z.compare_refl.
  destruct (Z.compare_spec m m'); destruct (Z.compare_spec d d');
    first [reflexivity | lia].
Qed.

Lemma digits_val_int s i : digits 2 s -> int_of_str s = Ok i -> digits_val s = i.
Proof.
  intros Ds Hs. rewrite (int_of_str_digits2 s Ds) in Hs. now injection Hs.
Qed.

(** The two ends of the range of a value in canonical form are in
    canonical form, with month and day numbers that do not go down
    from the value to the start and from the start to the end. *)
Lemma range_parts v :
  constructed v -> canonical_parts v ->
  exists ys ms ds m1 d1 m2 d2,
    canonical v = ys ++ "." ++ ms ++ "." ++ ds /\
    digits 4 ys /\ digits 2 ms /\ digits 2 ds /\
    digits 2 m1 /\ digits 2 d1 /\ digits 2 m2 /\ digits 2 d2 /\
    get_start v = Ok (mkFuzzyDate (ys ++ "." ++ m1 ++ "." ++ d1) ys m1 d1) /\
    get_end v = Ok (mkFuzzyDate (ys ++ "." ++ m2 ++ "." ++ d2) ys m2 d2) /\
    (digits_val ms < digits_val m1 \/
     (digits_val ms = digits_val m1 /\ digits_val ds <= digits_val d1)) /\
    (digits_val m1 < digits_val m2 \/
     (digits_val m1 = digits_val m2 /\ digits_val d1 <= digits_val d2)).
Proof.
  intros Hc Hcp.
  destruct (get_start_constructed v Hc)
    as (iy & im & id & Hy & _ & Hm & Hd & Am & Ad & Hv & Hs).
  destruct (get_end_constructed v Hc)
    as (iy' & im' & id' & Hy' & _ & Hm' & Am' & Hd' & Ad' & Nd' & Hv' & He).
  cbv zeta in *.
  rewrite Hy in Hy'. injection Hy' as <-.
  pose proof (valid_date_bounds _ _ _ Hv) as (_ & Bm & Bd).
  pose proof (valid_date_bounds _ _ _ Hv') as (_ & Bm' & Bd').
  pose proof (days_in_month_bounds iy im' Bm') as Bn.
  destruct (canonical_constructed v Hc Hcp)
    as (ys & ms & ds & iy0 & im0 & id0 & -> & Dy & Dm & Dd & _).
  rewrite month_of_new, day_of_new in *. cbn [year canonical FuzzyDate_new] in *.
  pose proof (digits_nonempty 1 ms Dm) as Nm.
  pose proof (digits_nonempty 1 ds Dd) as Nd.
  assert (D01 : digits 2 "01") by reflexivity.
  assert (D12 : digits 2 "12") by reflexivity.
  exists ys, ms, ds.
  destruct (String.eqb_spec ms fuzzy_value) as [Em|Fm];
    destruct (String.eqb_spec ds fuzzy_value) as [Ed|Fd];
    try rewrite (str_or_present ms) in * by assumption;
    try rewrite (str_or_present ds) in * by assumption;
    cbn [str_or String.eqb] in *.
  - (* a year *)
    destruct (two_digit_numeral (days_in_month iy im') ltac:(lia)) as (_ & _ & In & Dn).
    cbv zeta in In, Dn.
    exists "01", "01", "12", (str_of_int (days_in_month iy im')).
    subst ms ds. repeat split; auto.
    + left. vm_compute. reflexivity.
    + left. vm_compute. reflexivity.
  - (* a year and a day: the month is the placeholder *)
    destruct (String.eqb_spec ds "") as [|_]; [contradiction|].
    exists "01", ds, "12", ds. subst ms. repeat split; auto.
    + left. vm_compute. reflexivity.
    + left. vm_compute. reflexivity.
  - (* a year and a month *)
    destruct (two_digit_numeral (days_in_month iy im') ltac:(lia)) as (_ & _ & In & Dn).
    cbv zeta in In, Dn.
    exists ms, "01", ms, (str_of_int (days_in_month iy im')).
    subst ds. repeat split; auto.
    + right. split; [reflexivity|]. vm_compute. discriminate.
    + right. split; [reflexivity|].
      rewrite (digits_val_int _ _ Dn In). change (digits_val "01") with 1. lia.
  - (* a full date *)
    destruct (String.eqb_spec ds "") as [|_]; [contradiction|].
    exists ms, ds, ms, ds. repeat split; auto; right; split; try reflexivity; lia.
Qed.

(** X26.  In the order of the texts, which is the order of the stored
    column, a value in canonical form never sorts after the start of
    its range, nor the start after the end: value, start and end are
    in ascending order. *)
Theorem range_sorts_after_value sd kw v s e :
  CustomMeta_call sd kw = Ok v -> canonical_parts v ->
  get_range v = Ok (s, e) ->
  str_lt (canonical s) (canonical v) = false /\
  str_lt (canonical e) (canonical s) = false.
Proof.
  intros H Hcp Hr. apply call_constructed in H.
  destruct (range_parts v H Hcp)
    as (ys & ms & ds & m1 & d1 & m2 & d2 & Ev & Dy & Dm & Dd & Dm1 & Dd1 & Dm2 & Dd2
        & Hs & He & R1 & R2).
  unfold get_range in Hr. rewrite Hs, He in Hr. cbn [bind] in Hr.
  injection Hr as <- <-. cbn [canonical]. rewrite Ev.
  unfold str_lt, String.ltb.
  change (ys ++ String "." (m1 ++ String "." d1)) with (ys ++ "." ++ m1 ++ "." ++ d1).
  change (ys ++ String "." (m2 ++ String "." d2)) with (ys ++ "." ++ m2 ++ "." ++ d2).
  rewrite !compare_canonical by assumption.
  split; now apply compare_not_lt.
Qed.

Lemma range_sorts_after_value_witness :
  str_lt "1985.01.01" "1985.00.00" = false /\
  str_lt "1985.12.31" "1985.01.01" = false.
Proof.
  assert (C : canonical_parts (mkFuzzyDate "1985.00.00" "1985" "" "")).
  { split; [reflexivity|]. split; left; reflexivity. }
  apply (range_sorts_after_value (SeedVal (PStr "1985")) no_kwargs
           (mkFuzzyDate "1985.00.00" "1985" "" "")
           (mkFuzzyDate "1985.01.01" "1985" "01" "01")
           (mkFuzzyDate "1985.12.31" "1985" "12" "31") eq_refl C).
  reflexivity.
Defined.
